(** * Terraform provider for TencentCloud: CRUD glue over the vendor SDK

    A shallow embedding of the resource functions of the provider
    (CBS storage, Redis instance, key pair, route table entry, VPN
    gateway), of the Redis service wrapper and of the provider schema,
    together with the properties of their control flow: which remote
    calls an operation issues, how the poll callbacks classify what the
    remote answers, and what the operation returns and leaves in the
    resource data.

    The remote cloud API is an oracle that answers a call from the
    history of the calls issued so far; the functions run in a state
    monad over that history, the resource data and the zone cache of the
    Redis service. A nil pointer dereference is a [Panic]. *)

From Stdlib Require Import ZArith String Ascii List Lia Bool.
From Stdlib Require Import DecimalString DecimalN DecimalNat DecimalFacts.
From stdpp Require Import base option list gmap strings.
Import ListNotations.

Local Open Scope Z_scope.
Local Open Scope string_scope.
Local Open Scope list_scope.

(** ** Go values *)

(** A Go [error] that is not nil. [SDKError] is the vendor's
    [*errors.TceCloudSDKError], [NetError] any other error the SDK
    client hands back (a transport failure), [LocalError] an error the
    provider builds itself with [fmt.Errorf] or [errors.New]. *)
Inductive err : Type :=
| SDKError (code message requestId : string)
| NetError (message : string)
| LocalError (message : string).

(** The Go interface value: [None] is nil. *)
Definition error : Type := option err.

#[global] Instance err_eq_dec : EqDecision err.
Proof. solve_decision. Defined.

(** The type assertion of an error to the vendor's SDK error. *)
Definition asSDKError (e : err) : option (string * string) :=
  match e with
  | SDKError c m _ => Some (c, m)
  | _ => None
  end.

(** The method [Error()]. *)
Definition errorText (e : err) : string :=
  match e with
  | SDKError c m r =>
      "[TencentCloudSDKError] Code=" +:+ c +:+ ", Message=" +:+ m
      +:+ ", RequestId=" +:+ r
  | NetError m => m
  | LocalError m => m
  end.

(** [*resource.RetryError] that is not nil. *)
Inductive RetryError : Type :=
| RetryableError (e : err)
| NonRetryableError (e : err).

Definition isRetryable (r : option RetryError) : bool :=
  match r with
  | Some (RetryableError _) => true
  | _ => false
  end.

(** A [time.Duration], in nanoseconds. *)
Definition Duration : Type := Z.

(** Outcome of running Go code: a value, or a run-time panic. *)
Inductive result (A : Type) : Type :=
| Ok (a : A)
| Panic.
Arguments Ok {A} a.
Arguments Panic {A}.

(** Values stored in the resource data. *)
Inductive value : Type :=
| VString (s : string)
| VInt (z : Z)
| VBool (b : bool)
| VMap (m : gmap string string)
| VList (l : list string)
| VNil.

#[global] Instance value_eq_dec : EqDecision value.
Proof. solve_decision. Defined.

(** [*schema.ResourceData]: the id, the prior state, the planned
    configuration, what the operation has written with [d.Set], and the
    partial-state bookkeeping. *)
Record ResourceData : Type := mkResourceData {
  d_Id : string;
  d_old : gmap string value;
  d_new : gmap string value;
  d_set : gmap string value;
  d_partial : bool;
  d_partialKeys : list string
}.

(** ** Vendor SDK data

    Pointer fields of the SDK structs are options: [None] is a nil
    pointer, and reading through it panics. *)

Record Tag : Type := mkTag { Key : option string; Value : option string }.

Record Placement : Type := mkPlacement {
  Zone : option string;
  ProjectId : option Z
}.

(** [cbs.Disk] *)
Record Disk : Type := mkDisk {
  DiskType : option string;
  DiskSize : option Z;
  DiskPlacement : option Placement;
  DiskName : option string;
  Encrypt : option bool;
  Tags : list Tag;
  DiskState : option string;
  Attached : option bool
}.

Record InstanceTagInfo : Type := mkInstanceTagInfo {
  TagKey : option string;
  TagValue : option string
}.

(** [redis.InstanceSet]. [Size] is a float in the SDK; the model keeps
    the integer that [int64()] makes of it. *)
Record InstanceSet : Type := mkInstanceSet {
  InstanceName : option string;
  InstanceId : option string;
  RedisProjectId : option Z;
  ZoneId : option Z;
  UniqVpcId : option string;
  UniqSubnetId : option string;
  Status : option Z;
  WanIp : option string;
  Port : option Z;
  Createtime : option string;
  Size : option Z;
  Type_ : option Z;
  RedisShardNum : option Z;
  RedisReplicasNum : option Z;
  InstanceTags : list InstanceTagInfo
}.

(** [redis.DescribeInstancesRequest], the fields the provider fills. *)
Record DescribeInstancesRequest : Type := mkDescribeInstancesRequest {
  req_Limit : option Z;
  req_Offset : option Z;
  req_InstanceId : option string;
  req_SearchKey : option string;
  req_ProjectIds : list Z
}.

Record DescribeInstancesResponse : Type := mkDescribeInstancesResponse {
  TotalCount : option Z;
  RespInstanceSet : list InstanceSet
}.

(** [cvm.ZoneInfo] *)
Record ZoneInfo : Type := mkZoneInfo {
  zi_Zone : option string;
  zi_ZoneId : option string
}.

(** [cvm.KeyPair] *)
Record KeyPair : Type := mkKeyPair {
  KeyName : option string;
  KeyProjectId : option Z;
  PublicKey : option string;
  AssociatedInstanceIds : list string
}.

(** Route table data of the VPC service wrapper. *)
Record VpcRouteEntryBasicInfo : Type := mkVpcRouteEntryBasicInfo {
  routeEntryId : Z;
  destinationCidr : string;
  nextType : string;
  nextBub : string;
  description : string
}.

Record VpcRouteTableBasicInfo : Type := mkVpcRouteTableBasicInfo {
  entryInfos : list VpcRouteEntryBasicInfo
}.

(** [vpc.VpnGateway] *)
Record VpnGateway : Type := mkVpnGateway {
  VpnGatewayName : option string;
  PublicIpAddress : option string;
  InternetMaxBandwidthOut : option Z;
  VpnType : option string;
  CreatedTime : option string;
  VpnState : option string;
  RenewFlag : option string;
  InstanceChargeType : option string;
  ExpiredTime : option string;
  IsAddressBlocked : option bool;
  NewPurchasePlan : option string;
  RestrictState : option string;
  VpnZone : option string
}.

(** ** Calls to the outside

    One constructor per request the embedded functions send, indexed by
    the type of the answer. The Redis and VPN gateway code talks to the
    SDK client directly; the CBS, CVM, VPC route and tag code goes
    through service wrappers whose sources are not part of this
    development, so a call of such a wrapper is one event. *)
Inductive call : Type -> Type :=
(* CBS service wrapper *)
| CbsDescribeDiskById (diskId : string) : call (option Disk * error)
| CbsModifyDiskAttributes (diskId name : string) (projectId : Z) : call error
| CbsResizeDisk (diskId : string) (size : Z) : call error
| CbsApplySnapshot (diskId snapshotId : string) : call error
| CbsDeleteDiskById (diskId : string) : call error
(* tag service wrapper *)
| TagModifyTags (resourceName : string) (replace : gmap string string)
    (delete : list string) : call error
| TagDescribeResourceTags (service resourceType region id : string)
  : call (gmap string string * error)
(* Redis SDK client and the wrappers the Redis resource calls *)
| RedisDescribeInstances (req : DescribeInstancesRequest)
  : call (DescribeInstancesResponse * error)
| RedisCreateInstances (zone type password vpcId subnetId name : string)
    (memSize projectId port : Z) (securityGroups : list string)
  : call (string * error)
| RedisModifyInstanceName (redisId name : string) : call error
| RedisUpgradeInstance (redisId : string) (newMemSize : Z) : call (string * error)
| RedisResetPassword (redisId password : string) : call (Z * error)
| RedisDescribeTaskInfo (redisId : string) (taskId : Z) : call (bool * error)
| RedisModifyInstanceProjectId (redisId : string) (projectId : Z) : call error
| RedisDescribeInstanceSecurityGroup (redisId : string) : call (list string * error)
(* CVM SDK client and service wrapper *)
| CvmDescribeZones : call (list ZoneInfo * error)
| CvmDescribeKeyPairById (keyId : string) : call (option KeyPair * error)
| CvmUnbindKeyPair (keyId : string) (instanceIds : list string) : call error
| CvmDeleteKeyPair (keyId : string) : call error
(* VPC service wrapper (routes) and SDK client (VPN gateways) *)
| VpcCreateRoutes (routeTableId cidr nextType nextHub description : string)
  : call (Z * error)
| VpcDescribeRouteTable (routeTableId : string)
  : call (VpcRouteTableBasicInfo * Z * error)
| VpcDeleteRoutes (routeTableId : string) (entryId : Z) : call error
| VpcDescribeVpnGateways (ids : list string) : call (list VpnGateway * error)
| VpcDescribeVpnConnections (filters : gmap string string)
  : call (list string * error)
| VpcDeleteVpnGateway (id : string) : call error
(* the wall clock, as seconds *)
| TimeNow : call Z.

(** A call with its answer type packed away, and the history of calls. *)
Definition anycall : Type := { R : Type & call R }.
Definition trace : Type := list anycall.
Definition ev {R : Type} (c : call R) : anycall := existT R c.

(** ** The environment of the provider

    [remote] answers a call from the history of earlier calls, so it
    covers every behaviour of the cloud that one sequential run can see.
    [polls] says how many more attempts of a callback fit into the
    duration given to [resource.Retry]. The remaining fields are the
    helpers, tables and constants of the repository that the embedded
    files use without defining them. *)
Record Env : Type := mkEnv {
  remote : trace -> forall R : Type, call R -> R;
  polls : trace -> Duration -> nat;
  (* the order in which a range statement visits the zone map *)
  range_order : list (Z * string) -> list (Z * string);
  (* time.Parse with the layout of the expiry time, as seconds *)
  timeParse : string -> option Z;
  (* helpers of the repository *)
  retryError : err -> list string -> RetryError;
  diffTags : gmap string string -> gmap string string
             -> gmap string string * list string;
  flattenCbsTagsMapping : list Tag -> gmap string string;
  BuildTagResourceName : string -> string -> string -> string -> string;
  (* the configured region *)
  Region : string;
  (* constants and tables *)
  readRetryTimeout : Duration;
  writeRetryTimeout : Duration;
  InternalError : string;
  VPCNotFound : string;
  CVM_NOT_FOUND_ERROR : string;
  KYE_PAIR_INVALID_ERROR : string;
  KEY_PAIR_NOT_SUPPORT_ERROR : string;
  CBS_STORAGE_STATUS_EXPANDING : string;
  CBS_STORAGE_STATUS_ROLLBACKING : string;
  GATE_WAY_TYPE_EIP : string;
  VPN_CHARGE_TYPE_PREPAID : string;
  REDIS_STATUS_INIT : Z;
  REDIS_STATUS_PROCESSING : Z;
  REDIS_STATUS_ONLINE : Z;
  REDIS_STATUS_ISOLATE : Z;
  REDIS_STATUS_TODELETE : Z;
  REDIS_STATUS : Z -> string;
  REDIS_NAMES : Z -> string
}.

(** ** The monad of the operations *)

Record State : Type := mkState {
  st_trace : trace;
  st_d : ResourceData;
  st_zoneMap : gmap Z string
}.

Definition M (A : Type) : Type := State -> result A * State.

Definition ret {A : Type} (a : A) : M A := fun st => (Ok a, st).

Definition bind {A B : Type} (m : M A) (k : A -> M B) : M B :=
  fun st =>
    match m st with
    | (Ok a, st') => k a st'
    | (Panic, st') => (Panic, st')
    end.

Definition panic {A : Type} : M A := fun st => (Panic, st).

Declare Scope go_scope.
Delimit Scope go_scope with go.
Notation "'let*' x ':=' m 'in' k" := (bind m (fun x => k))
  (at level 10, x pattern, m at level 100, k at level 200) : go_scope.
Notation "'do*' m 'in' k" := (bind m (fun _ => k))
  (at level 10, m at level 100, k at level 200) : go_scope.
Local Open Scope go_scope.

Definition liftResult {A : Type} (r : result A) : M A := fun st => (r, st).

(** Reading through a pointer. *)
Definition deref {A : Type} (p : option A) : M A :=
  match p with
  | Some a => ret a
  | None => panic
  end.

(** [if err != nil { return err }] between two steps. *)
Definition orReturn (m : M error) (k : M error) : M error :=
  let* e := m in
  match e with
  | Some _ => ret e
  | None => k
  end.
Notation "'try*' m 'in' k" := (orReturn m k)
  (at level 10, m at level 100, k at level 200) : go_scope.

Definition getState : M State := fun st => (Ok st, st).
Definition getD : M ResourceData := fun st => (Ok (st_d st), st).
Definition putD (d : ResourceData) : M unit :=
  fun st => (Ok tt, mkState (st_trace st) d (st_zoneMap st)).
Definition getZoneMap : M (gmap Z string) := fun st => (Ok (st_zoneMap st), st).
Definition putZoneMap (m : gmap Z string) : M unit :=
  fun st => (Ok tt, mkState (st_trace st) (st_d st) m).

(** *** [schema.ResourceData] *)

Definition Id : M string := let* d := getD in ret (d_Id d).

Definition SetId (s : string) : M unit :=
  let* d := getD in
  putD (mkResourceData s (d_old d) (d_new d) (d_set d) (d_partial d)
          (d_partialKeys d)).

(** [d.Get(k)]: what the operation has set, else the configuration. *)
Definition attr (d : ResourceData) (k : string) : option value :=
  match d_set d !! k with
  | Some v => Some v
  | None => d_new d !! k
  end.

Definition Get (k : string) : M (option value) :=
  let* d := getD in ret (attr d k).

(** The type assertions on a stored value; an unset attribute reads as
    the zero value of the type, a value of another type makes the
    assertion panic. *)
Definition stringOf (v : option value) : option string :=
  match v with
  | Some (VString s) => Some s
  | None | Some VNil => Some ""
  | _ => None
  end.

Definition intOf (v : option value) : option Z :=
  match v with
  | Some (VInt z) => Some z
  | None | Some VNil => Some 0
  | _ => None
  end.

Definition mapOf (v : option value) : option (gmap string string) :=
  match v with
  | Some (VMap m) => Some m
  | None | Some VNil => Some ∅
  | _ => None
  end.

Definition listOf (v : option value) : option (list string) :=
  match v with
  | Some (VList l) => Some l
  | None | Some VNil => Some []
  | _ => None
  end.

Definition typeAssert {A : Type} (o : option A) : M A :=
  match o with
  | Some a => ret a
  | None => panic
  end.

Definition asString (v : option value) : M string := typeAssert (stringOf v).
Definition asInt (v : option value) : M Z := typeAssert (intOf v).
Definition asMap (v : option value) : M (gmap string string) :=
  typeAssert (mapOf v).
Definition asList (v : option value) : M (list string) := typeAssert (listOf v).

Definition GetString (k : string) : M string := let* v := Get k in asString v.
Definition GetInt (k : string) : M Z := let* v := Get k in asInt v.
Definition GetMap (k : string) : M (gmap string string) :=
  let* v := Get k in asMap v.
Definition GetList (k : string) : M (list string) := let* v := Get k in asList v.

(** [d.GetOk(k)] for a string attribute: set and not the zero value. *)
Definition GetOkString (k : string) : M (string * bool) :=
  let* s := GetString k in
  ret (s, negb (String.eqb s "")).

Definition GetChange (k : string) : M (option value * option value) :=
  let* d := getD in ret (d_old d !! k, d_new d !! k).

Definition HasChange (k : string) : M bool :=
  let* d := getD in ret (bool_decide (d_old d !! k <> d_new d !! k)).

Definition Set_ (k : string) (v : value) : M unit :=
  let* d := getD in
  putD (mkResourceData (d_Id d) (d_old d) (d_new d) (<[k := v]> (d_set d))
          (d_partial d) (d_partialKeys d)).

Definition Partial (b : bool) : M unit :=
  let* d := getD in
  putD (mkResourceData (d_Id d) (d_old d) (d_new d) (d_set d) b
          (d_partialKeys d)).

Definition SetPartial (k : string) : M unit :=
  let* d := getD in
  putD (mkResourceData (d_Id d) (d_old d) (d_new d) (d_set d) (d_partial d)
          (d_partialKeys d ++ [k])).

(** A pointer handed to [d.Set]. *)
Definition vString (p : option string) : value :=
  match p with Some s => VString s | None => VNil end.
Definition vInt (p : option Z) : value :=
  match p with Some z => VInt z | None => VNil end.
Definition vBool (p : option bool) : value :=
  match p with Some b => VBool b | None => VNil end.

(** ** Go library functions *)

(** Two's complement wrap-around of [int64] and [uint64] arithmetic. *)
Definition wrap64 (z : Z) : Z := (z + 2 ^ 63) mod 2 ^ 64 - 2 ^ 63.
Definition wrapU64 (z : Z) : Z := z mod 2 ^ 64.

(** The verb [%d] of [fmt]. *)
Definition fmt_d (z : Z) : string := NilZero.string_of_int (Z.to_int z).

(** [strconv.ParseUint(s, 10, 64)]: one or more decimal digits, no
    sign, and a value below [2^64]; [None] is an error. *)
Definition ParseUint (s : string) : option Z :=
  match s with
  | EmptyString => None
  | _ =>
      match NilEmpty.uint_of_string s with
      | Some d =>
          let n := Z.of_N (N.of_uint d) in
          if (n <? 2 ^ 64)%Z then Some n else None
      | None => None
      end
  end.

(** [strconv.ParseInt(s, 10, 64)]: an optional sign, then as
    [ParseUint], within the range of [int64]. *)
Definition ParseInt (s : string) : option Z :=
  match s with
  | EmptyString => None
  | String "+" r =>
      match ParseUint r with
      | Some n => if (n <? 2 ^ 63)%Z then Some n else None
      | None => None
      end
  | String "-" r =>
      match ParseUint r with
      | Some n => if (n <=? 2 ^ 63)%Z then Some (- n)%Z else None
      | None => None
      end
  | _ =>
      match ParseUint s with
      | Some n => if (n <? 2 ^ 63)%Z then Some n else None
      | None => None
      end
  end.

(** [strings.Contains] *)
Definition Contains (s substr : string) : bool :=
  match String.index 0 substr s with
  | Some _ => true
  | None => false
  end.

(** The double quote character. *)
Definition quote : string := String (ascii_of_nat 34) EmptyString.

(** [strings.Split(s, sep)] for a separator of one byte. *)
Fixpoint Split (s : string) (sep : ascii) : list string :=
  match s with
  | EmptyString => [EmptyString]
  | String a r =>
      if Ascii.eqb a sep then EmptyString :: Split r sep
      else
        match Split r sep with
        | h :: t => String a h :: t
        | [] => [String a EmptyString]
        end
  end.

(** [strings.Join] *)
Definition Join (elems : list string) (sep : string) : string :=
  String.concat sep elems.

(** The white space of [unicode.IsSpace], by the bytes of its UTF-8
    encoding: the six ASCII characters, U+0085 and U+00A0 on two bytes,
    and U+1680, U+2000 to U+200A, U+2028, U+2029, U+202F, U+205F and
    U+3000 on three. *)
Definition isSpace1 (a : ascii) : bool :=
  let n := nat_of_ascii a in
  ((9 <=? n)%nat && (n <=? 13)%nat) || (n =? 32)%nat.

Definition isSpace2 (a b : ascii) : bool :=
  (nat_of_ascii a =? 194)%nat
  && ((nat_of_ascii b =? 133)%nat || (nat_of_ascii b =? 160)%nat).

Definition isSpace3 (a b c : ascii) : bool :=
  let x := nat_of_ascii a in
  let y := nat_of_ascii b in
  let z := nat_of_ascii c in
  ((x =? 225)%nat && (y =? 154)%nat && (z =? 128)%nat)
  || ((x =? 226)%nat && (y =? 128)%nat
      && (((128 <=? z)%nat && (z <=? 138)%nat)
          || (z =? 168)%nat || (z =? 169)%nat || (z =? 175)%nat))
  || ((x =? 226)%nat && (y =? 129)%nat && (z =? 159)%nat)
  || ((x =? 227)%nat && (y =? 128)%nat && (z =? 128)%nat).

(** Dropping the encoded white space at the head of a byte sequence.
    [p2] and [p3] read the bytes in the order in which the sequence
    presents them, so that the same function serves from the end. *)
Fixpoint trimHead (p1 : ascii -> bool) (p2 : ascii -> ascii -> bool)
  (p3 : ascii -> ascii -> ascii -> bool) (l : list ascii) : list ascii :=
  match l with
  | [] => l
  | a :: r =>
      if p1 a then trimHead p1 p2 p3 r
      else
        match r with
        | [] => l
        | b :: r2 =>
            if p2 a b then trimHead p1 p2 p3 r2
            else
              match r2 with
              | [] => l
              | c :: r3 => if p3 a b c then trimHead p1 p2 p3 r3 else l
              end
        end
  end.

Definition trimLeftBytes (l : list ascii) : list ascii :=
  trimHead isSpace1 isSpace2 isSpace3 l.

Definition trimRightBytes (l : list ascii) : list ascii :=
  rev (trimHead isSpace1 (fun a b => isSpace2 b a)
         (fun a b c => isSpace3 c b a) (rev l)).

(** [strings.TrimSpace] *)
Definition TrimSpace (s : string) : string :=
  string_of_list_ascii
    (trimRightBytes (trimLeftBytes (list_ascii_of_string s))).

Section Model.

Variable E : Env.

(** *** The remote and [resource.Retry] *)

(** One request: the oracle answers from the history, and the request
    joins the history. *)
Definition api {R : Type} (c : call R) : M R :=
  fun st =>
    (Ok (remote E (st_trace st) R c),
     mkState (st_trace st ++ [ev c]) (st_d st) (st_zoneMap st)).

(** [resource.Retry] of the plugin SDK. The callback [f] works on the
    variables [L] it captures. It runs once; a nil result ends the loop
    with success, a non-retryable error ends it with that error, and a
    retryable error runs it again as long as the duration allows, after
    which the last error is returned. *)
Fixpoint retryLoop {L : Type} (n : nat) (f : L -> M (L * option RetryError))
  (l : L) : M (L * error) :=
  let* (l', r) := f l in
  match r with
  | None => ret (l', None)
  | Some (NonRetryableError e) => ret (l', Some e)
  | Some (RetryableError e) =>
      match n with
      | O => ret (l', Some e)
      | S n' => retryLoop n' f l'
      end
  end.

Definition Retry {L : Type} (timeout : Duration)
  (f : L -> M (L * option RetryError)) (l : L) : M (L * error) :=
  fun st => retryLoop (polls E (st_trace st) timeout) f l st.

(** The callback shape [if e != nil { return retryError(e, codes...) }
    return nil] around a call that yields only an error. *)
Definition retryOnError (codes : list string) (m : M error)
  : unit -> M (unit * option RetryError) :=
  fun _ =>
    let* e := m in
    match e with
    | Some e' => ret (tt, Some (retryError E e' codes))
    | None => ret (tt, None)
    end.

(** ** CBS storage resource *)

(** The test of the poll after a resize (and, with the other status,
    after a snapshot rollback): the answer of [DescribeDiskById] is
    classified by [retryError] when it is an error, as retryable when
    the disk is there in the awaited transient status, and as success
    otherwise. *)
Definition cbsPollStatus (transient : string) (storage : option Disk)
  (e : error) : result (option RetryError) :=
  match e with
  | Some e' => Ok (Some (retryError E e' []))
  | None =>
      match storage with
      | Some disk =>
          match DiskState disk with
          | None => Panic
          | Some state =>
              if String.eqb state transient
              then Ok (Some (RetryableError
                               (LocalError
                                  ("cbs storage status is " +:+ state))))
              else Ok None
          end
      | None => Ok None
      end
  end.

Definition cbsPollCallback (transient storageId : string)
  : unit -> M (unit * option RetryError) :=
  fun _ =>
    let* (storage, e) := api (CbsDescribeDiskById storageId) in
    let* r := liftResult (cbsPollStatus transient storage e) in
    ret (tt, r).

Definition resourceTencentCloudCbsStorageRead : M error :=
  let* storageId := Id in
  let* ((storage, _), err) :=
    Retry (readRetryTimeout E)
      (fun _ : option Disk * error =>
         let* (storage, e) := api (CbsDescribeDiskById storageId) in
         match e with
         | Some e' => ret ((storage, e), Some (retryError E e' []))
         | None => ret ((storage, e), None)
         end)
      (None, None) in
  match err with
  | Some _ => ret err
  | None =>
      match storage with
      | None => do* SetId "" in ret None
      | Some storage =>
          do* Set_ "storage_type" (vString (DiskType storage)) in
          do* Set_ "storage_size" (vInt (DiskSize storage)) in
          let* placement := deref (DiskPlacement storage) in
          do* Set_ "availability_zone" (vString (Zone placement)) in
          do* Set_ "storage_name" (vString (DiskName storage)) in
          do* Set_ "project_id" (vInt (ProjectId placement)) in
          do* Set_ "encrypt" (vBool (Encrypt storage)) in
          do* Set_ "tags" (VMap (flattenCbsTagsMapping E (Tags storage))) in
          do* Set_ "storage_status" (vString (DiskState storage)) in
          do* Set_ "attached" (vBool (Attached storage)) in
          ret None
      end
  end.

(** The four steps of the update, each guarded by [d.HasChange]. *)
Definition cbsUpdateAttributes (storageId : string) : M error :=
  let* chName := HasChange "storage_name" in
  let* storageName := if chName then GetString "storage_name" else ret "" in
  let* chProject := HasChange "project_id" in
  let* projectId := if chProject then GetInt "project_id" else ret (-1) in
  if chName || chProject then
    let* (_, err) :=
      Retry (writeRetryTimeout E)
        (retryOnError []
           (api (CbsModifyDiskAttributes storageId storageName projectId)))
        tt in
    match err with
    | Some _ => ret err
    | None =>
        do* (if chName then SetPartial "storage_name" else ret tt) in
        do* (if chProject then SetPartial "project_id" else ret tt) in
        ret None
    end
  else ret None.

Definition cbsResizeRequest (storageId : string) (newValue : Z) : M error :=
  let* (_, err) :=
    Retry (writeRetryTimeout E)
      (retryOnError [] (api (CbsResizeDisk storageId newValue))) tt in
  ret err.

Definition cbsResizePoll (storageId : string) : M error :=
  let* (_, err) :=
    Retry (readRetryTimeout E)
      (cbsPollCallback (CBS_STORAGE_STATUS_EXPANDING E) storageId) tt in
  ret err.

Definition cbsUpdateSize (storageId : string) : M error :=
  let* ch := HasChange "storage_size" in
  if ch then
    let* (oldInterface, newInterface) := GetChange "storage_size" in
    let* oldValue := asInt oldInterface in
    let* newValue := asInt newInterface in
    if (oldValue >? newValue)%Z then
      ret (Some (LocalError
                   "storage size must be greater than current storage size"))
    else
      try* cbsResizeRequest storageId newValue in
      try* cbsResizePoll storageId in
      do* SetPartial "storage_size" in
      ret None
  else ret None.

Definition cbsUpdateSnapshot (storageId : string) : M error :=
  let* ch := HasChange "snapshot_id" in
  if ch then
    let* snapshotId := GetString "snapshot_id" in
    try* (let* (_, err) :=
            Retry (writeRetryTimeout E)
              (retryOnError [] (api (CbsApplySnapshot storageId snapshotId)))
              tt in
          ret err) in
    try* (let* (_, err) :=
            Retry (readRetryTimeout E)
              (cbsPollCallback (CBS_STORAGE_STATUS_ROLLBACKING E) storageId)
              tt in
          ret err) in
    do* SetPartial "snapshot_id" in
    ret None
  else ret None.

Definition cbsUpdateTags (storageId : string) : M error :=
  let* ch := HasChange "tags" in
  if ch then
    let* (oldInterface, newInterface) := GetChange "tags" in
    let* oldTags := asMap oldInterface in
    let* newTags := asMap newInterface in
    let '(replaceTags, deleteTags) := diffTags E oldTags newTags in
    let resourceName :=
      "qcs::cvm:" +:+ Region E +:+ ":uin/:volume/" +:+ storageId in
    try* api (TagModifyTags resourceName replaceTags deleteTags) in
    do* SetPartial "tags" in
    ret None
  else ret None.

Definition resourceTencentCloudCbsStorageUpdate : M error :=
  do* Partial true in
  let* storageId := Id in
  try* cbsUpdateAttributes storageId in
  try* cbsUpdateSize storageId in
  try* cbsUpdateSnapshot storageId in
  try* cbsUpdateTags storageId in
  do* Partial false in
  ret None.

Definition resourceTencentCloudCbsStorageDelete : M error :=
  let* storageId := Id in
  let* (_, err) :=
    Retry (writeRetryTimeout E)
      (retryOnError [InternalError E] (api (CbsDeleteDiskById storageId)))
      tt in
  ret err.

(** ** Redis service wrapper *)

(** [fullZoneId]: fills the zone cache from [DescribeZones] when it is
    empty. A zone id that does not parse stops the filling with an
    error, the zones before it stay in the cache. *)
Fixpoint fillZoneMap (zoneSet : list ZoneInfo) : M error :=
  match zoneSet with
  | [] => ret None
  | item :: rest =>
      let* zoneIdText := deref (zi_ZoneId item) in
      match ParseInt zoneIdText with
      | None =>
          ret (Some (LocalError
                       ("[sdk]DescribeZones return ZoneId is not illegal,"
                        +:+ zoneIdText)))
      | Some zoneId =>
          let* zone := deref (zi_Zone item) in
          let* m := getZoneMap in
          do* putZoneMap (<[zoneId := zone]> m) in
          fillZoneMap rest
      end
  end.

Definition fullZoneId : M error :=
  let* m := getZoneMap in
  if negb (Nat.eqb (size m) 0) then ret None
  else
    let* (zoneSet, err) := api CvmDescribeZones in
    match err with
    | Some _ => ret err
    | None => fillZoneMap zoneSet
    end.

(** [getZoneId]: the first zone of that name that the range statement
    over the cache visits. *)
Definition getZoneId (name : string) : M (Z * error) :=
  let* errRet := fullZoneId in
  match errRet with
  | Some _ => ret (0, errRet)
  | None =>
      let* m := getZoneMap in
      match List.find (fun kv => String.eqb (snd kv) name)
              (range_order E (map_to_list m)) with
      | Some kv => ret (fst kv, None)
      | None =>
          ret (0, Some (LocalError
                          ("this redis zone " +:+ name +:+ " not support yet")))
      end
  end.

Definition getZoneName (id : Z) : M (string * error) :=
  let* errRet := fullZoneId in
  match errRet with
  | Some _ => ret ("", errRet)
  | None =>
      let* m := getZoneMap in
      let name := default "" (m !! id) in
      if String.eqb name ""
      then ret (name, Some (LocalError
                              ("this redis zoneid " +:+ fmt_d id
                               +:+ " not support yet")))
      else ret (name, None)
  end.

Record TencentCloudRedisDetail : Type := mkTencentCloudRedisDetail {
  rd_RedisId : string;
  rd_Name : string;
  rd_Zone : string;
  rd_ProjectId : Z;
  rd_TypeId : Z;
  rd_Type : string;
  rd_MemSize : Z;
  rd_Status : string;
  rd_VpcId : string;
  rd_SubnetId : string;
  rd_Ip : string;
  rd_Port : Z;
  rd_RedisShardNum : Z;
  rd_RedisReplicasNum : Z;
  rd_CreateTime : string;
  rd_Tags : gmap string string
}.

(** The tag loop of [DescribeInstances]: a nil key or value is an error. *)
Fixpoint redisDetailTags (tags : list InstanceTagInfo) (acc : gmap string string)
  : gmap string string + err :=
  match tags with
  | [] => inl acc
  | tag :: rest =>
      match TagKey tag with
      | None => inr (LocalError "redis instance tag key is nil")
      | Some k =>
          match TagValue tag with
          | None => inr (LocalError "redis instance tag value is nil")
          | Some v => redisDetailTags rest (<[k := v]> acc)
          end
      end
  end.

(** What the loop over a page does with one instance: it skips an
    instance of another zone, it leaves the function with an error (the
    zone has no name: the instances so far are returned; a tag is nil:
    nothing is returned), or it has a detail to append. *)
Inductive itemOutcome : Type :=
| ItemSkipped
| ItemZoneError (e : err)
| ItemTagError (e : err)
| ItemDetail (instance : TencentCloudRedisDetail).

Definition describeInstancesItem (zoneId : Z) (item : InstanceSet)
  : M itemOutcome :=
  let* skip :=
    if Z.eqb zoneId (-1) then ret false
    else let* z := deref (ZoneId item) in ret (negb (Z.eqb z zoneId)) in
  if skip : bool then ret ItemSkipped
  else
    let* type := deref (Type_ item) in
    let* status := deref (Status item) in
    let statusName :=
      if String.eqb (REDIS_STATUS E status) "" then "unknown"
      else REDIS_STATUS E status in
    let* z := deref (ZoneId item) in
    let* (name, err) := getZoneName z in
    match err with
    | Some e => ret (ItemZoneError e)
    | None =>
        let* createTime := deref (Createtime item) in
        let* ip := deref (WanIp item) in
        let* size := deref (Size item) in
        let* instanceName := deref (InstanceName item) in
        let* port := deref (Port item) in
        let* projectId := deref (RedisProjectId item) in
        let* redisId := deref (InstanceId item) in
        let* subnetId := deref (UniqSubnetId item) in
        let* vpcId := deref (UniqVpcId item) in
        match redisDetailTags (InstanceTags item) ∅ with
        | inr e => ret (ItemTagError e)
        | inl tags =>
            ret (ItemDetail
                   (mkTencentCloudRedisDetail redisId instanceName name
                      projectId type (REDIS_NAMES E type) size statusName
                      vpcId subnetId ip port (default 0 (RedisShardNum item))
                      (default 0 (RedisReplicasNum item)) createTime tags))
        end
    end.

(** The loop over one page of instances. The result is [inr] when the
    function returns from inside the loop (an error, or enough
    instances), and [inl] with the grown list otherwise. *)
Fixpoint describeInstancesItems (zoneId needLimit : Z) (items : list InstanceSet)
  (instances : list TencentCloudRedisDetail)
  : M (list TencentCloudRedisDetail + list TencentCloudRedisDetail * error) :=
  match items with
  | [] => ret (inl instances)
  | item :: rest =>
      let* outcome := describeInstancesItem zoneId item in
      match outcome with
      | ItemSkipped => describeInstancesItems zoneId needLimit rest instances
      | ItemZoneError e => ret (inr (instances, Some e))
      | ItemTagError e => ret (inr ([], Some e))
      | ItemDetail instance =>
          let instances' := instances ++ [instance] in
          if (0 <? needLimit)%Z
             && (needLimit <=? Z.of_nat (length instances'))%Z
          then ret (inr (instances', None))
          else describeInstancesItems zoneId needLimit rest instances'
      end
  end.

(** The variables of the paging loop. *)
Record pageState : Type := mkPageState {
  pg_offset : Z;
  pg_leftNumber : Z;
  pg_leftNumberInit : bool;
  pg_instances : list TencentCloudRedisDetail
}.

(** The page size of [DescribeInstances]. *)
Definition redisPageLimit : Z := 2.

Definition describeInstancesRequest (searchKey : string) (projectId offset : Z)
  : DescribeInstancesRequest :=
  mkDescribeInstancesRequest (Some redisPageLimit) (Some offset) None
    (if String.eqb searchKey "" then None else Some searchKey)
    (if (0 <=? projectId)%Z then [projectId] else []).

(** One pass from the label [needMoreItems] to the final test: [inr] is
    a return, [inl] the jump back to the label. *)
Definition describeInstancesPage (zoneId needLimit : Z) (searchKey : string)
  (projectId : Z) (s : pageState)
  : M (pageState + list TencentCloudRedisDetail * error) :=
  let* (response, err) :=
    api (RedisDescribeInstances
           (describeInstancesRequest searchKey projectId (pg_offset s))) in
  match err with
  | Some _ => ret (inr (pg_instances s, err))
  | None =>
      let* leftNumber :=
        if pg_leftNumberInit s then ret (pg_leftNumber s)
        else deref (TotalCount response) in
      let leftNumber := wrap64 (leftNumber - redisPageLimit) in
      let offset := wrapU64 (pg_offset s + redisPageLimit) in
      let* r := describeInstancesItems zoneId needLimit
                  (RespInstanceSet response) (pg_instances s) in
      match r with
      | inr ret_ => ret (inr ret_)
      | inl instances =>
          if (leftNumber <? 0)%Z then ret (inr (instances, None))
          else ret (inl (mkPageState offset leftNumber true instances))
      end
  end.

(** The loop. Its fuel bounds the number of further pages; [None] is
    the answer of a loop that ran out of fuel. *)
Fixpoint describeInstancesLoop (fuel : nat) (zoneId needLimit : Z)
  (searchKey : string) (projectId : Z) (s : pageState)
  : M (option (list TencentCloudRedisDetail * error)) :=
  let* r := describeInstancesPage zoneId needLimit searchKey projectId s in
  match r with
  | inr ret_ => ret (Some ret_)
  | inl s' =>
      match fuel with
      | O => ret None
      | S fuel' =>
          describeInstancesLoop fuel' zoneId needLimit searchKey projectId s'
      end
  end.

(** [DescribeInstances]. After the first page the number of instances
    left is known and bounds the pages that can follow, so the loop is
    run with that much fuel. *)
Definition DescribeInstances (zoneName searchKey : string)
  (projectId needLimit : Z)
  : M (option (list TencentCloudRedisDetail * error)) :=
  let* (zoneId, errRet) :=
    if String.eqb zoneName "" then ret (-1, None)
    else getZoneId zoneName in
  match errRet with
  | Some _ => ret (Some ([], errRet))
  | None =>
      let* r := describeInstancesPage zoneId needLimit searchKey projectId
                  (mkPageState 0 0 false []) in
      match r with
      | inr ret_ => ret (Some ret_)
      | inl s =>
          describeInstancesLoop (Z.to_nat (pg_leftNumber s)) zoneId needLimit
            searchKey projectId s
      end
  end.

(** The answer of [CheckRedisCreateOk]. *)
Record createOk : Type := mkCreateOk {
  ok_has : bool;
  ok_online : bool;
  ok_info : option InstanceSet;
  ok_errRet : error
}.

(** The request is sent again, after a pause, when the error is not one
    of the SDK. *)
Definition describeAgain (request : DescribeInstancesRequest)
  (r : DescribeInstancesResponse * error)
  : M (DescribeInstancesResponse * error) :=
  match snd r with
  | Some e =>
      match asSDKError e with
      | None => api (RedisDescribeInstances request)
      | Some _ => ret r
      end
  | None => ret r
  end.

Definition CheckRedisCreateOk (redisId : string) : M createOk :=
  let request := mkDescribeInstancesRequest None None (Some redisId) None [] in
  let* r := api (RedisDescribeInstances request) in
  let* r := describeAgain request r in
  let* r := describeAgain request r in
  let* (response, err) := describeAgain request r in
  match err with
  | Some _ => ret (mkCreateOk false false None err)
  | None =>
      match RespInstanceSet response with
      | [] => ret (mkCreateOk false false None None)
      | [info] =>
          let* status := deref (Status info) in
          if Z.eqb status (REDIS_STATUS_ONLINE E)
          then ret (mkCreateOk true true (Some info) None)
          else if Z.eqb status (REDIS_STATUS_INIT E)
                  || Z.eqb status (REDIS_STATUS_PROCESSING E)
          then ret (mkCreateOk true false (Some info) None)
          else ret (mkCreateOk true false (Some info)
                      (Some (LocalError
                               ("redis instance delivery failure, status is "
                                +:+ fmt_d status))))
      | set =>
          ret (mkCreateOk false false None
                 (Some (LocalError
                          ("redis DescribeInstances one id get "
                           +:+ fmt_d (Z.of_nat (length set))
                           +:+ " redis info"))))
      end
  end.

(** ** Redis instance resource *)

(** The callback of the poll of [Create], and what it makes of the
    answer of [CheckRedisCreateOk]. *)
Definition redisCreateClassify (r : createOk) : option RetryError :=
  match ok_errRet r with
  | Some e => Some (NonRetryableError e)
  | None =>
      if negb (ok_has r)
      then Some (NonRetryableError (LocalError "redis instance not exists."))
      else if ok_online r then None
      else Some (RetryableError (LocalError "create redis task is processing"))
  end.

Definition redisCreateCallback (dealId : string)
  : unit -> M (unit * option RetryError) :=
  fun _ =>
    let* r := CheckRedisCreateOk dealId in
    ret (tt, redisCreateClassify r).

Definition redisCreatePoll (dealId : string) : M error :=
  let* (_, err) :=
    Retry (20 * readRetryTimeout E) (redisCreateCallback dealId) tt in
  ret err.

(** The variables that the callback of [Read] shares with [Read]. *)
Record redisReadVars : Type := mkRedisReadVars {
  rv_onlineHas : bool;
  rv_has : bool;
  rv_info : option InstanceSet;
  rv_e : error
}.

Definition redisReadCallback (vars : redisReadVars)
  : M (redisReadVars * option RetryError) :=
  let* id := Id in
  let* r := CheckRedisCreateOk id in
  let vars := mkRedisReadVars (rv_onlineHas vars) (ok_has r) (ok_info r)
                (ok_errRet r) in
  let gone :=
    do* SetId "" in
    ret (mkRedisReadVars false (rv_has vars) (rv_info vars) (rv_e vars), None) in
  let rest :=
    match rv_e vars with
    | Some e => ret (vars, Some (NonRetryableError e))
    | None => if negb (rv_has vars) then gone else ret (vars, None)
    end in
  match rv_info vars with
  | Some info =>
      let* status := deref (Status info) in
      if Z.eqb status (REDIS_STATUS_ISOLATE E)
         || Z.eqb status (REDIS_STATUS_TODELETE E)
      then gone
      else rest
  | None => rest
  end.

(** The tag loop of [Read]. *)
Fixpoint redisReadTags (tags : list InstanceTagInfo)
  (acc : gmap string string) : gmap string string + err :=
  match tags with
  | [] => inl acc
  | tag :: rest =>
      match TagKey tag with
      | None => inr (LocalError "redis tag key is nil")
      | Some k =>
          match TagValue tag with
          | None => inr (LocalError "redis tag value is nil")
          | Some v => redisReadTags rest (<[k := v]> acc)
          end
      end
  end.

Definition resourceTencentCloudRedisInstanceRead : M error :=
  do* putZoneMap ∅ in
  let* (vars, err) :=
    Retry (readRetryTimeout E) redisReadCallback
      (mkRedisReadVars true false None None) in
  match err with
  | Some e =>
      ret (Some (LocalError
                   ("Fail to get info from redis, reaseon " +:+ errorText e)))
  | None =>
      if negb (rv_onlineHas vars) then ret None
      else
        let* info := deref (rv_info vars) in
        let* status := deref (Status info) in
        let statusName := REDIS_STATUS E status in
        if String.eqb statusName ""
        then ret (Some (LocalError
                          ("redis read unkwnow status " +:+ fmt_d status)))
        else
          do* Set_ "status" (VString statusName) in
          let* instanceName := deref (InstanceName info) in
          do* Set_ "name" (VString instanceName) in
          let* zoneId := deref (ZoneId info) in
          let* (zoneName, err) := getZoneName zoneId in
          match err with
          | Some _ => ret err
          | None =>
              do* Set_ "availability_zone" (VString zoneName) in
              let* type := deref (Type_ info) in
              let typeName := REDIS_NAMES E type in
              if String.eqb typeName ""
              then ret (Some (LocalError
                                ("redis read unkwnow type " +:+ fmt_d type)))
              else
                do* Set_ "type" (VString typeName) in
                let* size := deref (Size info) in
                do* Set_ "mem_size" (VInt size) in
                let* vpcId := deref (UniqVpcId info) in
                do* Set_ "vpc_id" (VString vpcId) in
                let* subnetId := deref (UniqSubnetId info) in
                do* Set_ "subnet_id" (VString subnetId) in
                let* projectId := deref (RedisProjectId info) in
                do* Set_ "project_id" (VInt projectId) in
                let* port := deref (Port info) in
                do* Set_ "port" (VInt port) in
                let* ip := deref (WanIp info) in
                do* Set_ "ip" (VString ip) in
                let* createTime := deref (Createtime info) in
                do* Set_ "create_time" (VString createTime) in
                let* vpc := GetString "vpc_id" in
                try* (if negb (String.eqb vpc "") then
                        let* id := Id in
                        let* (securityGroups, err) :=
                          api (RedisDescribeInstanceSecurityGroup id) in
                        match err with
                        | Some _ => ret err
                        | None =>
                            do* (match securityGroups with
                                 | [] => ret tt
                                 | _ => Set_ "security_groups"
                                          (VList securityGroups)
                                 end) in
                            ret None
                        end
                      else ret None) in
                match redisReadTags (InstanceTags info) ∅ with
                | inr e => ret (Some e)
                | inl tags => do* Set_ "tags" (VMap tags) in ret None
                end
          end
  end.

(** The first part of [Create]: the request is built from the
    configuration and sent; the result is the id of the deal. *)
Definition redisCreateRequest : M (string * error) :=
  let region := Region E in
  let* availabilityZone := GetString "availability_zone" in
  let* redisName := GetString "name" in
  let* redisType := GetString "type" in
  let* password := GetString "password" in
  let* memSize := GetInt "mem_size" in
  let* vpcId := GetString "vpc_id" in
  let* subnetId := GetString "subnet_id" in
  let* securityGroups := GetList "security_groups" in
  let* projectId := GetInt "project_id" in
  let* port := GetInt "port" in
  if negb (String.eqb availabilityZone "")
     && negb (Contains availabilityZone region)
  then ret ("", Some (LocalError ("zone[" +:+ availabilityZone
                                  +:+ "] not in region[" +:+ region +:+ "]")))
  else
    let* (dealId, err) :=
      api (RedisCreateInstances availabilityZone redisType password vpcId
             subnetId redisName memSize projectId port securityGroups) in
    match err with
    | Some _ => ret (dealId, err)
    | None =>
        if String.eqb dealId ""
        then ret (dealId,
                  Some (LocalError
                          "redis api CreateInstances return empty redis id"))
        else ret (dealId, None)
    end.

Definition resourceTencentCloudRedisInstanceCreate : M error :=
  do* putZoneMap ∅ in
  let* tags := GetMap "tags" in
  let* (dealId, err) := redisCreateRequest in
  match err with
  | Some _ => ret err
  | None =>
      let redisId := dealId in
      try* redisCreatePoll dealId in
      do* SetId redisId in
      try* (if Nat.ltb 0 (size tags) then
              api (TagModifyTags
                     (BuildTagResourceName E "redis" "instance" (Region E)
                        redisId) tags [])
            else ret None) in
      resourceTencentCloudRedisInstanceRead
  end.

(** The callback of the poll after [UpgradeInstance]. *)
Definition redisUpgradeCallback (redisId : string)
  : unit -> M (unit * option RetryError) :=
  fun _ =>
    let* r := CheckRedisCreateOk redisId in
    match ok_info r with
    | Some info =>
        let* st := deref (Status info) in
        let status := REDIS_STATUS E st in
        if String.eqb status ""
        then ret (tt, Some (NonRetryableError
                   (LocalError
                      ("after update redis mem size, redis status is unknown ,status="
                       +:+ fmt_d st))))
        else if Z.eqb st (REDIS_STATUS_PROCESSING E)
                || Z.eqb st (REDIS_STATUS_INIT E)
        then ret (tt, Some (RetryableError
                              (LocalError "redis update processing.")))
        else if Z.eqb st (REDIS_STATUS_ONLINE E) then ret (tt, None)
        else ret (tt, Some (NonRetryableError
                   (LocalError
                      ("after update redis mem size, redis status is "
                       +:+ status))))
    | None =>
        match ok_errRet r with
        | Some e =>
            match asSDKError e with
            | None => ret (tt, Some (RetryableError e))
            | Some _ => ret (tt, Some (NonRetryableError e))
            end
        | None =>
            ret (tt, Some (NonRetryableError
                   (LocalError "after update redis mem size, redis disappear")))
        end
    end.

(** The callback of the polls on a task of the Redis service. *)
Definition redisTaskCallback (id : string) (taskId : Z) (pending : string)
  : unit -> M (unit * option RetryError) :=
  fun _ =>
    let* (ok, err) := api (RedisDescribeTaskInfo id taskId) in
    match err with
    | Some e =>
        match asSDKError e with
        | None => ret (tt, Some (RetryableError e))
        | Some _ => ret (tt, Some (NonRetryableError e))
        end
    | None =>
        if ok : bool then ret (tt, None)
        else ret (tt, Some (RetryableError (LocalError pending)))
    end.

Definition redisUpdateName (id : string) : M error :=
  let* ch := HasChange "name" in
  if ch then
    let* name := GetString "name" in
    let name := if String.eqb name "" then id else name in
    try* api (RedisModifyInstanceName id name) in
    do* SetPartial "name" in
    ret None
  else ret None.

Definition redisUpdateMemSize (id : string) : M error :=
  let* ch := HasChange "mem_size" in
  if ch then
    let* (oldInter, newInter) := GetChange "mem_size" in
    let* newMemSize := asInt newInter in
    let* oldMemSize := asInt oldInter in
    if (oldMemSize >=? newMemSize)%Z then
      ret (Some (LocalError "redis mem_size can only increase"))
    else if (newMemSize <? 1)%Z then
      ret (Some (LocalError
                   "redis mem_size value cannot be set to less than 1"))
    else
      (* an error of UpgradeInstance is logged and not returned *)
      let* (redisId, _) := api (RedisUpgradeInstance id newMemSize) in
      try* (let* (_, err) :=
              Retry (4 * readRetryTimeout E) (redisUpgradeCallback redisId)
                tt in
            ret err) in
      do* SetPartial "mem_size" in
      ret None
  else ret None.

Definition redisUpdatePassword (id : string) : M error :=
  let* ch := HasChange "password" in
  if ch then
    let* password := GetString "password" in
    let* (taskId, err) := api (RedisResetPassword id password) in
    match err with
    | Some _ => ret err
    | None =>
        try* (let* (_, err) :=
                Retry (2 * readRetryTimeout E)
                  (redisTaskCallback id taskId "change password is processing")
                  tt in
              ret err) in
        do* SetPartial "password" in
        ret None
    end
  else ret None.

Definition redisUpdateProjectId (id : string) : M error :=
  let* ch := HasChange "project_id" in
  if ch then
    let* projectId := GetInt "project_id" in
    try* api (RedisModifyInstanceProjectId id projectId) in
    do* SetPartial "project_id" in
    ret None
  else ret None.

Definition redisUpdateTags (id : string) : M error :=
  let* ch := HasChange "tags" in
  if ch then
    let* (oldTags, newTags) := GetChange "tags" in
    let* oldTags := asMap oldTags in
    let* newTags := asMap newTags in
    let '(replaceTags, deleteTags) := diffTags E oldTags newTags in
    let resourceName :=
      BuildTagResourceName E "redis" "instance" (Region E) id in
    try* api (TagModifyTags resourceName replaceTags deleteTags) in
    do* SetPartial "tags" in
    ret None
  else ret None.

Definition resourceTencentCloudRedisInstanceUpdate : M error :=
  let* id := Id in
  do* putZoneMap ∅ in
  do* Partial true in
  try* redisUpdateName id in
  try* redisUpdateMemSize id in
  try* redisUpdatePassword id in
  try* redisUpdateProjectId id in
  try* redisUpdateTags id in
  do* Partial false in
  resourceTencentCloudRedisInstanceRead.

(** ** Key pair resource *)

(** The truncation of a public key to its first two fields. *)
Definition keyPairTruncate (value : string) : string :=
  let split := Split value " " in
  if Nat.ltb 2 (length split) then Join (firstn 2 split) " " else value.

(** The [StateFunc] of [public_key]. *)
Definition keyPairStateFunc (v : value) : string :=
  match v with
  | VString value => TrimSpace (keyPairTruncate value)
  | _ => ""
  end.

Definition keyPairDescribe (keyId : string)
  : option KeyPair * error -> M ((option KeyPair * error) * option RetryError) :=
  fun _ =>
    let* (keyPair, errRet) := api (CvmDescribeKeyPairById keyId) in
    match errRet with
    | Some e => ret ((keyPair, errRet),
                     Some (retryError E e [InternalError E]))
    | None => ret ((keyPair, errRet), None)
    end.

Definition resourceTencentCloudKeyPairRead : M error :=
  let* keyId := Id in
  let* (vars, err) :=
    Retry (readRetryTimeout E) (keyPairDescribe keyId) (None, None) in
  match err with
  | Some _ => ret err
  | None =>
      match fst vars with
      | None => do* SetId "" in ret None
      | Some keyPair =>
          do* Set_ "key_name" (vString (KeyName keyPair)) in
          do* Set_ "project_id" (vInt (KeyProjectId keyPair)) in
          do* (match PublicKey keyPair with
               | Some publicKey =>
                   Set_ "public_key" (VString (keyPairTruncate publicKey))
               | None => ret tt
               end) in
          ret None
      end
  end.

(** The callback around [UnbindKeyPair]. *)
Definition keyPairUnbindClassify (errRet : error) : option RetryError :=
  match errRet with
  | Some e =>
      match asSDKError e with
      | Some (code, _) =>
          if String.eqb code (CVM_NOT_FOUND_ERROR E) then None
          else Some (retryError E e [])
      | None => Some (retryError E e [])
      end
  | None => None
  end.

Definition keyPairUnbindCallback (keyId : string) (instanceIds : list string)
  : unit -> M (unit * option RetryError) :=
  fun _ =>
    let* errRet := api (CvmUnbindKeyPair keyId instanceIds) in
    ret (tt, keyPairUnbindClassify errRet).

Definition keyPairUnbind (keyId : string) (instanceIds : list string)
  : M error :=
  let* (_, err) :=
    Retry (writeRetryTimeout E) (keyPairUnbindCallback keyId instanceIds) tt in
  ret err.

Definition resourceTencentCloudKeyPairDelete : M error :=
  let* keyId := Id in
  let* (vars, err) :=
    Retry (readRetryTimeout E) (keyPairDescribe keyId) (None, None) in
  match err with
  | Some _ => ret err
  | None =>
      match fst vars with
      | None => do* SetId "" in ret None
      | Some keyPair =>
          try* (if Nat.ltb 0 (length (AssociatedInstanceIds keyPair))
                then keyPairUnbind keyId (AssociatedInstanceIds keyPair)
                else ret None) in
          let* (_, err) :=
            Retry (writeRetryTimeout E)
              (retryOnError
                 [KYE_PAIR_INVALID_ERROR E; KEY_PAIR_NOT_SUPPORT_ERROR E]
                 (api (CvmDeleteKeyPair keyId)))
              tt in
          ret err
      end
  end.

(** ** Route table entry resource *)

(** The id that [Create] gives the resource. *)
Definition routeEntryResourceId (entryId : Z) (routeTableId : string)
  : string :=
  fmt_d entryId +:+ "." +:+ routeTableId.

Definition resourceTencentCloudVpcRouteEntryCreate : M error :=
  let getOk (k : string) : M string :=
    let* (temp, ok) := GetOkString k in
    ret (if ok : bool then temp else "") in
  let* description := getOk "description" in
  let* routeTableId := getOk "route_table_id" in
  let* destinationCidrBlock := getOk "destination_cidr_block" in
  let* nextType := getOk "next_type" in
  let* nextHub := getOk "next_hub" in
  if String.eqb routeTableId "" || String.eqb destinationCidrBlock ""
     || String.eqb nextType "" || String.eqb nextHub ""
  then ret (Some (LocalError "some needed fields is empty string"))
  else if String.eqb nextType (GATE_WAY_TYPE_EIP E)
          && negb (String.eqb nextHub "0")
  then ret (Some (LocalError
                    ("if next_type is " +:+ GATE_WAY_TYPE_EIP E
                     +:+ ", next_hub can only be " +:+ quote +:+ "0"
                     +:+ quote +:+ " ")))
  else
    let* (entryId, err) :=
      api (VpcCreateRoutes routeTableId destinationCidrBlock nextType nextHub
             description) in
    match err with
    | Some _ => ret err
    | None => do* SetId (routeEntryResourceId entryId routeTableId) in ret None
    end.

Definition routeEntryReadCallback (entry routeTable : string)
  : unit -> M (unit * option RetryError) :=
  fun _ =>
    let* (info, has, e) := api (VpcDescribeRouteTable routeTable) in
    match e with
    | Some e' => ret (tt, Some (retryError E e' []))
    | None =>
        if Z.eqb has 0 then do* SetId "" in ret (tt, None)
        else if negb (Z.eqb has 1)
        then ret (tt, Some (NonRetryableError
                              (LocalError ("one routeTable id get "
                                           +:+ fmt_d has
                                           +:+ " routeTable infos"))))
        else
          match List.find
                  (fun v => String.eqb (fmt_d (routeEntryId v)) entry)
                  (entryInfos info) with
          | Some v =>
              do* Set_ "description" (VString (description v)) in
              do* Set_ "route_table_id" (VString routeTable) in
              do* Set_ "destination_cidr_block" (VString (destinationCidr v)) in
              do* Set_ "next_type" (VString (nextType v)) in
              do* Set_ "next_hub" (VString (nextBub v)) in
              ret (tt, None)
          | None => do* SetId "" in ret (tt, None)
          end
    end.

Definition resourceTencentCloudVpcRouteEntryRead : M error :=
  let* id := Id in
  match Split id "." with
  | [entry; routeTable] =>
      let* (_, err) :=
        Retry (readRetryTimeout E) (routeEntryReadCallback entry routeTable)
          tt in
      ret err
  | _ =>
      ret (Some (LocalError
                   "entry id be destroyed, we can not get route table id"))
  end.

(** The callback around [DeleteRoutes]. *)
Definition routeEntryDeleteClassify (err : error) : option RetryError :=
  match err with
  | Some e =>
      match asSDKError e with
      | Some (code, _) =>
          if String.eqb code (VPCNotFound E) then None
          else Some (RetryableError e)
      | None => Some (RetryableError e)
      end
  | None => None
  end.

Definition routeEntryDeleteCallback (routeTableId : string) (entryId : Z)
  : unit -> M (unit * option RetryError) :=
  fun _ =>
    let* err := api (VpcDeleteRoutes routeTableId entryId) in
    ret (tt, routeEntryDeleteClassify err).

Definition routeEntryDeleteRequest (routeTableId : string) (entryId : Z)
  : M error :=
  let* (_, err) :=
    Retry (writeRetryTimeout E)
      (routeEntryDeleteCallback routeTableId entryId) tt in
  ret err.

Definition resourceTencentCloudVpcRouteEntryDelete : M error :=
  let* id := Id in
  match Split id "." with
  | [entry; routeTableId] =>
      match ParseUint entry with
      | None =>
          ret (Some (LocalError
                       "entry id be destroyed, we can not get route entry id"))
      | Some entryId => routeEntryDeleteRequest routeTableId entryId
      end
  | _ =>
      ret (Some (LocalError
                   "entry id be destroyed, we can not get route table id"))
  end.

(** ** VPN gateway resource *)

(** How the describe callbacks of [Read] and of the end of [Delete]
    treat an error: an SDK error with the not-found code counts as
    success, every other error goes to [retryError]. *)
Definition vpnDescribeError (e : err) : option RetryError :=
  match asSDKError e with
  | None => Some (retryError E e [])
  | Some (code, _) =>
      if String.eqb code (VPCNotFound E) then None
      else Some (retryError E e [])
  end.

(** The callback of [Read]; [response] is the variable of [Read] that
    it assigns on success only. *)
Definition vpnReadCallback (gatewayId : string)
  (response : option (list VpnGateway))
  : M (option (list VpnGateway) * option RetryError) :=
  let* (result, e) := api (VpcDescribeVpnGateways [gatewayId]) in
  match e with
  | Some e' => ret (response, vpnDescribeError e')
  | None => ret (Some result, None)
  end.

Definition resourceTencentCloudVpnGatewayRead : M error :=
  let* gatewayId := Id in
  let* (response, err) :=
    Retry (readRetryTimeout E) (vpnReadCallback gatewayId) None in
  match err with
  | Some _ => ret err
  | None =>
      let* VpnGatewaySet := deref response in
      match VpnGatewaySet with
      | [] => do* SetId "" in ret None
      | gateway :: _ =>
          let* v := deref (VpnGatewayName gateway) in
          do* Set_ "name" (VString v) in
          let* v := deref (PublicIpAddress gateway) in
          do* Set_ "public_ip_address" (VString v) in
          let* v := deref (InternetMaxBandwidthOut gateway) in
          do* Set_ "bandwidth" (VInt (wrap64 v)) in
          let* v := deref (VpnType gateway) in
          do* Set_ "type" (VString v) in
          let* v := deref (CreatedTime gateway) in
          do* Set_ "create_time" (VString v) in
          let* v := deref (VpnState gateway) in
          do* Set_ "state" (VString v) in
          let* v := deref (RenewFlag gateway) in
          do* Set_ "prepaid_renew_flag" (VString v) in
          let* v := deref (InstanceChargeType gateway) in
          do* Set_ "charge_type" (VString v) in
          let* v := deref (ExpiredTime gateway) in
          do* Set_ "expired_time" (VString v) in
          let* v := deref (IsAddressBlocked gateway) in
          do* Set_ "is_address_blocked" (VBool v) in
          let* v := deref (NewPurchasePlan gateway) in
          do* Set_ "new_purchase_plan" (VString v) in
          let* v := deref (RestrictState gateway) in
          do* Set_ "restrict_state" (VString v) in
          let* v := deref (VpnZone gateway) in
          do* Set_ "zone" (VString v) in
          let* (tags, err) :=
            api (TagDescribeResourceTags "vpc" "vpngw" (Region E) gatewayId) in
          match err with
          | Some _ => ret err
          | None => do* Set_ "tags" (VMap tags) in ret None
          end
      end
  end.

(** First poll of [Delete]: a prepaid gateway that has not expired is
    not deleted. *)
Definition vpnChargeCallback (gatewayId : string)
  : unit -> M (unit * option RetryError) :=
  fun _ =>
    let* (result, e) := api (VpcDescribeVpnGateways [gatewayId]) in
    match e with
    | Some e' => ret (tt, Some (retryError E e' []))
    | None =>
        match result with
        | [] => ret (tt, None)
        | gateway :: _ =>
            match ExpiredTime gateway with
            | None => ret (tt, None)
            | Some expiredTime =>
                let* chargeType := deref (InstanceChargeType gateway) in
                if String.eqb chargeType (VPN_CHARGE_TYPE_PREPAID E) then
                  if negb (String.eqb expiredTime "0000-00-00 00:00:00") then
                    match timeParse E expiredTime with
                    | None =>
                        ret (tt, Some (NonRetryableError
                                         (LocalError
                                            "Error format expired time.")))
                    | Some t =>
                        let* now := api TimeNow in
                        if (now <? t)%Z
                        then ret (tt, Some (NonRetryableError
                               (LocalError
                                  "Delete operation is unsupport when VPN gateway is not expired.")))
                        else ret (tt, None)
                    end
                  else ret (tt, None)
                else ret (tt, None)
            end
        end
    end.

(** Second poll: no tunnel may use the gateway. *)
Definition vpnTunnelCallback (params : gmap string string)
  : unit -> M (unit * option RetryError) :=
  fun _ =>
    let* (result, e) := api (VpcDescribeVpnConnections params) in
    match e with
    | Some e' => ret (tt, Some (retryError E e' []))
    | None =>
        match result with
        | [] => ret (tt, None)
        | _ =>
            ret (tt, Some (NonRetryableError
                   (LocalError
                      "There is associated tunnel exists, please delete associated tunnels first.")))
        end
    end.

(** The delete request. *)
Definition vpnDeleteRequest (gatewayId : string) : M error :=
  let* (_, err) :=
    Retry (writeRetryTimeout E)
      (retryOnError [] (api (VpcDeleteVpnGateway gatewayId))) tt in
  ret err.

(** Last poll: the gateway is described until it is gone. *)
Definition vpnGoneClassify (r : list VpnGateway * error) : option RetryError :=
  match snd r with
  | Some e' => vpnDescribeError e'
  | None =>
      match fst r with
      | [] => None
      | _ => Some (RetryableError (LocalError "deleting retry"))
      end
  end.

Definition vpnGoneCallback (gatewayId : string)
  : unit -> M (unit * option RetryError) :=
  fun _ =>
    let* r := api (VpcDescribeVpnGateways [gatewayId]) in
    ret (tt, vpnGoneClassify r).

Definition vpnGonePoll (gatewayId : string) : M error :=
  let* (_, err) :=
    Retry (readRetryTimeout E) (vpnGoneCallback gatewayId) tt in
  ret err.

Definition vpnChargeCheck (gatewayId : string) : M error :=
  let* (_, chargeErr) :=
    Retry (readRetryTimeout E) (vpnChargeCallback gatewayId) tt in
  ret chargeErr.

Definition vpnTunnelCheck (gatewayId : string) : M error :=
  let* (v, ok) := GetOkString "vpc_id" in
  let params : gmap string string := {[ "vpn-gateway-id" := gatewayId ]} in
  let params := if ok : bool then <[ "vpc-id" := v ]> params else params in
  let* (_, tErr) :=
    Retry (readRetryTimeout E) (vpnTunnelCallback params) tt in
  ret tErr.

Definition resourceTencentCloudVpnGatewayDelete : M error :=
  let* gatewayId := Id in
  try* vpnChargeCheck gatewayId in
  try* vpnTunnelCheck gatewayId in
  try* vpnDeleteRequest gatewayId in
  try* vpnGonePoll gatewayId in
  ret None.

End Model.

(** ** Provider schema *)

(** [schema.EnvDefaultFunc(k, dv)] as the schema names it: the
    environment variable and the fallback value, [None] for nil. *)
Record EnvDefault : Type := mkEnvDefault {
  env_name : string;
  env_default : option string
}.

Definition EnvDefaultFunc (k : string) (dv : option string) : EnvDefault :=
  mkEnvDefault k dv.

(** Modelled from the spec: the plugin SDK is not among the sources.
    The spec lists "Environment variables for provider credentials
    (TENCENTCLOUD_SECRET_ID, TENCENTCLOUD_SECRET_KEY, region, etc.)",
    and the descriptions of the fields say that a field "can also be
    sourced from" its variable. The function that [EnvDefaultFunc]
    makes is taken to read the variable and to yield the fallback
    value when the variable is empty. *)
Definition runDefaultFunc (f : EnvDefault) (getenv : string -> string)
  : option string :=
  let v := getenv (env_name f) in
  if String.eqb v "" then env_default f else Some v.

(** The fields of [schema.Schema] that the provider block sets. *)
Record Schema : Type := mkSchema {
  Required : bool;
  Optional : bool;
  DefaultFunc : option EnvDefault;
  Sensitive : bool;
  InputDefault : string
}.

Definition PROVIDER_SECRET_ID : string := "TENCENTCLOUD_SECRET_ID".
Definition PROVIDER_SECRET_KEY : string := "TENCENTCLOUD_SECRET_KEY".
Definition PROVIDER_SECURITY_TOKEN : string := "TENCENTCLOUD_SECURITY_TOKEN".
Definition PROVIDER_REGION : string := "TENCENTCLOUD_REGION".
Definition PROVIDER_PROTOCOL : string := "TENCENTCLOUD_PROTOCOL".
Definition PROVIDER_DOMAIN : string := "TENCENTCLOUD_DOMAIN".
Definition PROVIDER_ASSUME_ROLE_ARN : string := "TENCENTCLOUD_ASSUME_ROLE_ARN".
Definition PROVIDER_ASSUME_ROLE_SESSION_NAME : string :=
  "TENCENTCLOUD_ASSUME_ROLE_SESSION_NAME".
Definition PROVIDER_ASSUME_ROLE_SESSION_DURATION : string :=
  "TENCENTCLOUD_ASSUME_ROLE_SESSION_DURATION".

(** The string fields of the schema of [Provider()]. *)
Definition ProviderSchema : gmap string Schema :=
  list_to_map [
    ("secret_id",
     mkSchema true false (Some (EnvDefaultFunc PROVIDER_SECRET_ID None))
       false "");
    ("secret_key",
     mkSchema true false (Some (EnvDefaultFunc PROVIDER_SECRET_KEY None))
       true "");
    ("security_token",
     mkSchema false true (Some (EnvDefaultFunc PROVIDER_SECURITY_TOKEN None))
       true "");
    ("region",
     mkSchema true false (Some (EnvDefaultFunc PROVIDER_REGION None))
       false "ap-guangzhou");
    ("protocol",
     mkSchema false true
       (Some (EnvDefaultFunc PROVIDER_PROTOCOL (Some "HTTPS"))) false "");
    ("domain",
     mkSchema false true (Some (EnvDefaultFunc PROVIDER_DOMAIN None))
       false "")
  ].

(** The string fields of the schema of the [assume_role] block; its
    [session_duration] is an integer field, Required, with no
    [DefaultFunc]. *)
Definition AssumeRoleSchema : gmap string Schema :=
  list_to_map [
    ("role_arn",
     mkSchema true false (Some (EnvDefaultFunc PROVIDER_ASSUME_ROLE_ARN None))
       false "");
    ("session_name",
     mkSchema true false
       (Some (EnvDefaultFunc PROVIDER_ASSUME_ROLE_SESSION_NAME None))
       false "");
    ("policy", mkSchema false true None false "")
  ].

(** Modelled from the spec: the plugin SDK is not among the sources.
    What [d.Get] reads for a string field of the provider block is
    taken to be the configured value, else the value of the
    [DefaultFunc] of the field, by the words of the spec and of the
    descriptions quoted at [runDefaultFunc]. *)
Definition providerField (config : gmap string string)
  (getenv : string -> string) (field : string) : option string :=
  match config !! field with
  | Some v => Some v
  | None =>
      match ProviderSchema !! field with
      | Some sch =>
          match DefaultFunc sch with
          | Some f => runDefaultFunc f getenv
          | None => None
          end
      | None => None
      end
  end.

(** [common.Credential] and [connectivity.TencentCloudClient]. *)
Record Credential : Type := mkCredential {
  SecretId : string;
  SecretKey : string;
  Token : string
}.

Record TencentCloudClient : Type := mkTencentCloudClient {
  ClientCredential : Credential;
  ClientRegion : string;
  ClientProtocol : string;
  ClientDomain : string
}.

(** An element of the [assume_role] set, as [Set.List()] yields it. *)
Record AssumeRoleBlock : Type := mkAssumeRoleBlock {
  role_arn : string;
  session_name : string;
  session_duration : Z;
  policy : string
}.

(** [sts.AssumeRoleRequest], and the credentials of its response. *)
Record AssumeRoleRequest : Type := mkAssumeRoleRequest {
  RoleArn : option string;
  RoleSessionName : option string;
  DurationSeconds : option Z;
  Policy : option string
}.

Record StsCredentials : Type := mkStsCredentials {
  StsToken : option string;
  TmpSecretId : option string;
  TmpSecretKey : option string
}.

(** What [providerConfigure] meets outside itself: the environment of
    the process, the text of the error of [strconv.Atoi], which the
    model leaves open, [url.QueryEscape], [helper.IntUint64], and the
    answer of the STS service to an [AssumeRole] request that a client
    sends. The pointers [response.Response.Credentials] are one option:
    [None] when one of them is nil. *)
Record ProviderEnv : Type := mkProviderEnv {
  getenv : string -> string;
  atoiError : string -> err;
  QueryEscape : string -> string;
  IntUint64 : Z -> Z;
  AssumeRole : TencentCloudClient -> AssumeRoleRequest
               -> option StsCredentials * error
}.

Section Provider.

Variable P : ProviderEnv.

(** [d.Get(k).(string)]: the zero value when the field has no value. *)
Definition providerString (config : gmap string string) (k : string) : string :=
  default "" (providerField config (getenv P) k).

(** The standard client. *)
Definition standardClient (config : gmap string string) : TencentCloudClient :=
  let secretId := providerString config "secret_id" in
  let secretKey := providerString config "secret_key" in
  let securityToken := providerString config "security_token" in
  let region := providerString config "region" in
  let protocol := providerString config "protocol" in
  let domain := providerString config "domain" in
  mkTencentCloudClient (mkCredential secretId secretKey securityToken)
    region protocol domain.

(** The duration of the session: a configured 0 gives way to the
    environment variable, of which a 0 stands for 7200. [inr] is the
    error of [strconv.Atoi]. *)
Definition sessionDuration (assumeRoleSessionDuration : Z) : Z + err :=
  if Z.eqb assumeRoleSessionDuration 0 then
    let duration := getenv P PROVIDER_ASSUME_ROLE_SESSION_DURATION in
    if String.eqb duration "" then inl assumeRoleSessionDuration
    else
      match ParseInt duration with
      | None => inr (atoiError P duration)
      | Some n => inl (if Z.eqb n 0 then 7200 else n)
      end
  else inl assumeRoleSessionDuration.

Definition assumeRoleRequest (assumeRole : AssumeRoleBlock) (duration : Z)
  : AssumeRoleRequest :=
  mkAssumeRoleRequest
    (Some (role_arn assumeRole))
    (Some (session_name assumeRole))
    (Some (IntUint64 P duration))
    (if String.eqb (policy assumeRole) "" then None
     else Some (QueryEscape P (policy assumeRole))).

(** [providerConfigure]: the client, or (nil, err). With one
    [assume_role] block the standard client asks the STS service for
    temporary credentials, which take the place of its own. *)
Definition providerConfigure (config : gmap string string)
  (assumeRoleList : list AssumeRoleBlock)
  : result (option TencentCloudClient * error) :=
  let tcClient := standardClient config in
  match assumeRoleList with
  | [assumeRole] =>
      match sessionDuration (session_duration assumeRole) with
      | inr e => Ok (None, Some e)
      | inl assumeRoleSessionDuration =>
          let request := assumeRoleRequest assumeRole assumeRoleSessionDuration in
          match AssumeRole P tcClient request with
          | (_, Some e) => Ok (None, Some e)
          | (None, None) => Panic
          | (Some credentials, None) =>
              match TmpSecretId credentials, TmpSecretKey credentials,
                    StsToken credentials with
              | Some tmpSecretId, Some tmpSecretKey, Some token =>
                  Ok (Some (mkTencentCloudClient
                              (mkCredential tmpSecretId tmpSecretKey token)
                              (ClientRegion tcClient)
                              (ClientProtocol tcClient)
                              (ClientDomain tcClient)),
                      None)
              | _, _, _ => Panic
              end
          end
      end
  | _ => Ok (Some tcClient, None)
  end.

End Provider.

(** * Predicates of the statements *)

(** The attribute [k] keeps its value. *)
Definition unchanged (k : string) (d : ResourceData) : bool :=
  bool_decide (d_old d !! k = d_new d !! k).

(** The integer attribute [k] goes from [o] to another value [n]. *)
Definition intChange (k : string) (d : ResourceData) : option (Z * Z) :=
  match d_old d !! k, d_new d !! k with
  | Some (VInt o), Some (VInt n) =>
      if bool_decide (o = n) then None else Some (o, n)
  | _, _ => None
  end.

(** What the loop makes of the answer of an attempt that ends it. *)
Definition retryVerdict (r : option RetryError) : error :=
  match r with
  | None => None
  | Some (RetryableError e) | Some (NonRetryableError e) => Some e
  end.

(** A callback that sends one request [c] and keeps no variables. *)
Definition sends (E : Env) {R : Type} (c : call R)
  (f : unit -> M (unit * option RetryError))
  (classify : R -> option RetryError) : Prop :=
  forall st,
    f tt st
    = (Ok (tt, classify (remote E (st_trace st) R c)),
       mkState (st_trace st ++ [ev c]) (st_d st) (st_zoneMap st)).

(** The answer of [DescribeVpnGateways] that ends the last poll of the
    VPN gateway delete with success: no gateway, or the not-found code. *)
Definition vpnGone (E : Env) (r : list VpnGateway * error) : Prop :=
  r = ([], None)
  \/ exists gateways message requestId,
       r = (gateways, Some (SDKError (VPCNotFound E) message requestId)).

(** The disk is there, in the given status. *)
Definition diskIn (status : string) (storage : option Disk) : Prop :=
  exists disk, storage = Some disk /\ DiskState disk = Some status.

(** The state in which an update works after [d.Partial(true)]. *)
Definition partialOn (st : State) : State :=
  mkState (st_trace st)
    (mkResourceData (d_Id (st_d st)) (d_old (st_d st)) (d_new (st_d st))
       (d_set (st_d st)) true (d_partialKeys (st_d st)))
    (st_zoneMap st).

(** The state after the request [c], and the state with the id of the
    resource cleared. *)
Definition sent {R : Type} (c : call R) (st : State) : State :=
  mkState (st_trace st ++ [ev c]) (st_d st) (st_zoneMap st).

Definition cleared (st : State) : State :=
  mkState (st_trace st)
    (mkResourceData "" (d_old (st_d st)) (d_new (st_d st)) (d_set (st_d st))
       (d_partial (st_d st)) (d_partialKeys (st_d st)))
    (st_zoneMap st).

(** What [CheckRedisCreateOk] answers for a Redis instance that is gone:
    an empty result set, or the status ISOLATE or TODELETE. *)
Definition redisAbsent (E : Env) (r : createOk) : Prop :=
  (ok_info r = None /\ ok_errRet r = None /\ ok_has r = false)
  \/ exists info status,
       ok_info r = Some info /\ Status info = Some status
       /\ (status = REDIS_STATUS_ISOLATE E \/ status = REDIS_STATUS_TODELETE E).


(** The error is one of the SDK with the given code. *)
Definition hasCode (code : string) (e : err) : bool :=
  match asSDKError e with
  | Some (c, _) => String.eqb c code
  | None => false
  end.

(** The computation leaves a part [f] of the state as it finds it; the
    part may be the resource data. *)
Definition preserves {X A : Type} (f : State -> X) (m : M A) : Prop :=
  forall st, f (snd (m st)) = f st.

Abbreviation keepsData := (preserves st_d).

(** The requests to [DescribeInstances] of the Redis SDK in a history. *)
Definition describeRequestOf (c : anycall) : option DescribeInstancesRequest :=
  match projT2 c with
  | RedisDescribeInstances req => Some req
  | _ => None
  end.

Definition redisRequests (st : State) : list DescribeInstancesRequest :=
  omap describeRequestOf (st_trace st).

(** The zone filter of [DescribeInstances] after the lookup of the zone
    name: [-1] without a name, else the id that [getZoneId] finds. *)
Definition zoneLookup (E : Env) (zoneName : string) : M (Z * error) :=
  if String.eqb zoneName "" then ret (-1, None) else getZoneId E zoneName.

(** The requests for the pages [0] to [m - 1]. *)
Definition pageRequests (searchKey : string) (projectId : Z) (m : nat)
  : list DescribeInstancesRequest :=
  map (fun i => describeInstancesRequest searchKey projectId
                  (wrapU64 (redisPageLimit * Z.of_nat i)))
    (seq 0 m).

(** The instances that a call has returned fill the limit it was given. *)
Definition limitReached (needLimit : Z) (l : list TencentCloudRedisDetail)
  : Prop :=
  0 < needLimit <= Z.of_nat (length l).

(** The number of instances that the first page announces: the count
    that the variables hold, or [TotalCount] of the answer. *)
Definition announced (E : Env) (searchKey : string) (projectId : Z)
  (s : pageState) (st : State) : option Z :=
  if pg_leftNumberInit s then Some (pg_leftNumber s)
  else TotalCount
         (fst (remote E (st_trace st) _
                 (RedisDescribeInstances
                    (describeInstancesRequest searchKey projectId
                       (pg_offset s))))).

(** The instances of an answer of [DescribeInstances]. *)
Definition returned
  (r : result (option (list TencentCloudRedisDetail * error)))
  : list TencentCloudRedisDetail :=
  match r with
  | Ok (Some (l, _)) => l
  | _ => []
  end.

(** The string [s] has no byte [sep]. *)
Fixpoint lacks (sep : ascii) (s : string) : bool :=
  match s with
  | EmptyString => true
  | String a r => negb (Ascii.eqb a sep) && lacks sep r
  end.

(** The number of the bytes [sep] of [s]. *)
Definition countByte (sep : ascii) (s : string) : nat :=
  length (List.filter (fun a => Ascii.eqb a sep) (list_ascii_of_string s)).

(** The byte sequence [l] has no encoded white space at its head. *)
Definition stuck (p1 : ascii -> bool) (p2 : ascii -> ascii -> bool)
  (p3 : ascii -> ascii -> ascii -> bool) (l : list ascii) : bool :=
  match l with
  | [] => true
  | a :: r =>
      negb (p1 a)
      && match r with
         | [] => true
         | b :: r2 =>
             negb (p2 a b)
             && match r2 with
                | [] => true
                | c :: _ => negb (p3 a b c)
                end
         end
  end.

(** A callback that sends one request [c], keeps no variables, and
    classifies the answer with [classify], which may panic. *)
Definition asks (E : Env) {R : Type} (c : call R)
  (f : unit -> M (unit * option RetryError))
  (classify : R -> result (option RetryError)) : Prop :=
  forall st,
    f tt st
    = (match classify (remote E (st_trace st) R c) with
       | Ok r => Ok (tt, r)
       | Panic => Panic
       end, sent c st).

(** The answer to the request [c] when it is sent from [st] after [j]
    earlier attempts. *)
Definition answer (E : Env) {R : Type} (c : call R) (st : State) (j : nat)
  : R :=
  remote E (st_trace st ++ replicate j (ev c)) R c.

(** The classification asks for another attempt. *)
Definition again (r : result (option RetryError)) : bool :=
  match r with
  | Ok (Some (RetryableError _)) => true
  | _ => false
  end.

(** [out] is the outcome of a poll with the request [c] that starts in
    [st] and may make [n] attempts after the first: the request has
    gone out [k + 1] times in a row, every answer before the last asked
    for another attempt, the last answer did not, unless the attempts
    were used up, and the poll returns what the last answer gives. This
    determines [k] and [out]. *)
Definition pollRun (E : Env) {R : Type} (c : call R)
  (classify : R -> result (option RetryError)) (n : nat) (st : State)
  (out : result error * State) : Prop :=
  exists k,
    (k <= n)%nat
    /\ snd out
        = mkState (st_trace st ++ replicate (S k) (ev c)) (st_d st)
            (st_zoneMap st)
    /\ fst out
        = match classify (answer E c st k) with
          | Ok r => Ok (retryVerdict r)
          | Panic => Panic
          end
    /\ (forall j, (j < k)%nat -> again (classify (answer E c st j)) = true)
    /\ ((k < n)%nat -> again (classify (answer E c st k)) = false).

(** The return of a poll: the error of [resource.Retry]. *)
Definition pollError {L : Type} (m : M (L * error)) : M error :=
  bind m (fun r => ret (snd r)).

(** The state with another id of the resource. *)
Definition withId (id : string) (st : State) : State :=
  mkState (st_trace st)
    (mkResourceData id (d_old (st_d st)) (d_new (st_d st)) (d_set (st_d st))
       (d_partial (st_d st)) (d_partialKeys (st_d st)))
    (st_zoneMap st).

(** The byte sequence [l] is encoded white space throughout. *)
Fixpoint blank (p1 : ascii -> bool) (p2 : ascii -> ascii -> bool)
  (p3 : ascii -> ascii -> ascii -> bool) (l : list ascii) : bool :=
  match l with
  | [] => true
  | a :: r =>
      (p1 a && blank p1 p2 p3 r)
      || match r with
         | [] => false
         | b :: r2 =>
             (p2 a b && blank p1 p2 p3 r2)
             || match r2 with
                | [] => false
                | c :: r3 => p3 a b c && blank p1 p2 p3 r3
                end
         end
  end.

(** The string has no white space at its head nor at its end. *)
Definition trimmed (s : string) : Prop :=
  stuck isSpace1 isSpace2 isSpace3 (list_ascii_of_string s) = true
  /\ stuck isSpace1 (fun a b => isSpace2 b a) (fun a b c => isSpace3 c b a)
       (rev (list_ascii_of_string s)) = true.

(** The string [s] is [r] with white space, and nothing else, before it
    and after it. *)
Definition surrounds (s r : string) : Prop :=
  exists pre post,
    list_ascii_of_string s = pre ++ list_ascii_of_string r ++ post
    /\ blank isSpace1 isSpace2 isSpace3 pre = true
    /\ blank isSpace1 (fun a b => isSpace2 b a) (fun a b c => isSpace3 c b a)
         (rev post) = true.

(** * Sample environments

    Concrete remotes and resource data on which the operations are run. *)

(** A remote where every request succeeds and every listing is empty. *)
Definition quietAnswer (R : Type) (c : call R) : R :=
  match c in call R return R with
  | CbsDescribeDiskById _ => (None, None)
  | CbsModifyDiskAttributes _ _ _ => None
  | CbsResizeDisk _ _ => None
  | CbsApplySnapshot _ _ => None
  | CbsDeleteDiskById _ => None
  | TagModifyTags _ _ _ => None
  | TagDescribeResourceTags _ _ _ _ => (∅, None)
  | RedisDescribeInstances _ => (mkDescribeInstancesResponse (Some 0) [], None)
  | RedisCreateInstances _ _ _ _ _ _ _ _ _ _ => ("crs-sample", None)
  | RedisModifyInstanceName _ _ => None
  | RedisUpgradeInstance id _ => (id, None)
  | RedisResetPassword _ _ => (1, None)
  | RedisDescribeTaskInfo _ _ => (true, None)
  | RedisModifyInstanceProjectId _ _ => None
  | RedisDescribeInstanceSecurityGroup _ => ([], None)
  | CvmDescribeZones => ([], None)
  | CvmDescribeKeyPairById _ => (None, None)
  | CvmUnbindKeyPair _ _ => None
  | CvmDeleteKeyPair _ => None
  | VpcCreateRoutes _ _ _ _ _ => (1, None)
  | VpcDescribeRouteTable _ => (mkVpcRouteTableBasicInfo [], 0, None)
  | VpcDeleteRoutes _ _ => None
  | VpcDescribeVpnGateways _ => ([], None)
  | VpcDescribeVpnConnections _ => ([], None)
  | VpcDeleteVpnGateway _ => None
  | TimeNow => 0
  end.

Definition quietRemote : trace -> forall R : Type, call R -> R :=
  fun _ => quietAnswer.

(** Modelled from the spec: the helper [retryError] is not among the
    sources. The spec calls it "a recoverable error classification":
    transient failures are retried, non-retryable failures are returned.
    Here an SDK error is retryable when its code is one of [base] or of
    the codes the call site adds, an error below the SDK is retryable,
    and every other error is not. *)
Definition retryErrorByCode (base : list string) (e : err)
  (additional : list string) : RetryError :=
  match e with
  | SDKError code _ _ =>
      if existsb (String.eqb code) (base ++ additional)
      then RetryableError e else NonRetryableError e
  | NetError _ => RetryableError e
  | LocalError _ => NonRetryableError e
  end.

(** An environment with sample constants; the remote, the number of
    extra attempts of a poll and the zone order are given. *)
Definition sampleEnv (r : trace -> forall R : Type, call R -> R) (extra : nat)
  : Env :=
  {| remote := r;
     polls := fun _ _ => extra;
     range_order := fun l => l;
     timeParse := fun _ => None;
     retryError := retryErrorByCode ["RequestLimitExceeded"];
     diffTags := fun old new => (new, []);
     flattenCbsTagsMapping := fun _ => ∅;
     BuildTagResourceName := fun service type region id =>
       "qcs::" +:+ service +:+ ":" +:+ region +:+ ":uin/:" +:+ type
       +:+ "/" +:+ id;
     Region := "ap-guangzhou";
     readRetryTimeout := 180000000000;
     writeRetryTimeout := 300000000000;
     InternalError := "InternalError";
     VPCNotFound := "ResourceNotFound";
     CVM_NOT_FOUND_ERROR := "InvalidInstanceId.NotFound";
     KYE_PAIR_INVALID_ERROR := "InvalidKeyPair";
     KEY_PAIR_NOT_SUPPORT_ERROR := "InvalidParameterValue.KeyPairNotSupported";
     CBS_STORAGE_STATUS_EXPANDING := "EXPANDING";
     CBS_STORAGE_STATUS_ROLLBACKING := "ROLLBACKING";
     GATE_WAY_TYPE_EIP := "EIP";
     VPN_CHARGE_TYPE_PREPAID := "PREPAID";
     REDIS_STATUS_INIT := 0;
     REDIS_STATUS_PROCESSING := 1;
     REDIS_STATUS_ONLINE := 2;
     REDIS_STATUS_ISOLATE := -2;
     REDIS_STATUS_TODELETE := -3;
     REDIS_STATUS := fun s =>
       if Z.eqb s 0 then "init" else if Z.eqb s 1 then "processing"
       else if Z.eqb s 2 then "online" else if Z.eqb s (-2) then "isolate"
       else if Z.eqb s (-3) then "todelete" else "";
     REDIS_NAMES := fun t =>
       if Z.eqb t 2 then "master_slave_redis" else ""
  |}.

Definition resourceData (id : string) (old new : list (string * value))
  : ResourceData :=
  mkResourceData id (list_to_map old) (list_to_map new) ∅ false [].

Definition start (d : ResourceData) : State := mkState [] d ∅.

(** A CBS disk whose planned size is below its current size. *)
Definition cbsShrinking : ResourceData :=
  resourceData "disk-41s6jwy4"
    [("storage_name", VString "mystorage"); ("storage_size", VInt 100)]
    [("storage_name", VString "mystorage"); ("storage_size", VInt 50)].


(** A Redis instance whose planned memory is not above its current one. *)
Definition redisNotGrowing : ResourceData :=
  resourceData "crs-ja6ll7qx"
    [("name", VString "terrform_test"); ("mem_size", VInt 8192)]
    [("name", VString "terrform_test"); ("mem_size", VInt 4096)].

(** A route table entry of type EIP whose next hop is not 0. *)
Definition routeEipWithHub : ResourceData :=
  resourceData ""
    []
    [("route_table_id", VString "rtb-6xwg3sfy");
     ("destination_cidr_block", VString "10.4.4.0/24");
     ("next_type", VString "EIP");
     ("next_hub", VString "10.16.1.7");
     ("description", VString "ci-test-route-table-entry")].

(** A VPN gateway and a CBS storage to delete. *)
Definition vpnGatewayData : ResourceData := resourceData "vpngw-8ccsnclt" [] [].
Definition cbsStorageData : ResourceData := resourceData "disk-41s6jwy4" [] [].

(** A CBS storage that grows from 50 to 100. *)
Definition cbsGrowing : ResourceData :=
  resourceData "disk-41s6jwy4"
    [("storage_name", VString "mystorage"); ("storage_size", VInt 50)]
    [("storage_name", VString "mystorage"); ("storage_size", VInt 100)].

Definition sampleDisk (state : string) : Disk :=
  mkDisk (Some "CLOUD_SSD") (Some 100)
    (Some (mkPlacement (Some "ap-guangzhou-3") (Some 0))) (Some "mystorage")
    (Some false) [] (Some state) (Some false).

(** A remote whose disk never leaves the status EXPANDING. *)
Definition expandingRemote : trace -> forall R : Type, call R -> R :=
  fun _ R c =>
    match c in call R return R with
    | CbsDescribeDiskById _ => (Some (sampleDisk "EXPANDING"), None)
    | c' => quietAnswer _ c'
    end.

(** A remote that answers the description of a VPN gateway with the
    not-found code of the VPC service. *)
Definition vpnNotFoundRemote : trace -> forall R : Type, call R -> R :=
  fun _ R c =>
    match c in call R return R with
    | VpcDescribeVpnGateways _ =>
        ([], Some (SDKError "ResourceNotFound" "gateway not found" "req-1"))
    | c' => quietAnswer _ c'
    end.

Definition sampleRedis (status : Z) : InstanceSet :=
  mkInstanceSet (Some "terrform_test") (Some "crs-ja6ll7qx") (Some 0)
    (Some 100003) (Some "vpc-1") (Some "subnet-1") (Some status)
    (Some "10.0.0.5") (Some 6379) (Some "2020-06-01 10:00:00") (Some 8192)
    (Some 2) None None [].

(** A remote whose Redis instance is isolated. *)
Definition isolatedRemote : trace -> forall R : Type, call R -> R :=
  fun _ R c =>
    match c in call R return R with
    | RedisDescribeInstances _ =>
        (mkDescribeInstancesResponse (Some 1) [sampleRedis (-2)], None)
    | c' => quietAnswer _ c'
    end.

Definition redisData : ResourceData := resourceData "crs-ja6ll7qx" [] [].
Definition keyPairData : ResourceData := resourceData "skey-17634f05" [] [].

(** A key pair bound to an instance, and a remote that refuses to
    unbind it with an error code that is not a transient one. *)
Definition boundKeyPair : KeyPair :=
  mkKeyPair (Some "terraform_test") (Some 0) (Some "ssh-rsa AAAAB3NzaC1yc2E")
    ["ins-2qol3a80"].

Definition unbindDenied : err :=
  SDKError "UnauthorizedOperation" "not allowed" "req-2".

Definition unbindDeniedRemote : trace -> forall R : Type, call R -> R :=
  fun _ R c =>
    match c in call R return R with
    | CvmDescribeKeyPairById _ => (Some boundKeyPair, None)
    | CvmUnbindKeyPair _ _ => Some unbindDenied
    | c' => quietAnswer _ c'
    end.

(** A remote that refuses to delete a route with that error. *)
Definition routeDeniedRemote : trace -> forall R : Type, call R -> R :=
  fun _ R c =>
    match c in call R return R with
    | VpcDeleteRoutes _ _ => Some unbindDenied
    | c' => quietAnswer _ c'
    end.

(** A Redis instance to create, and a remote on which the new instance
    stays in the status of processing. *)
Definition redisToCreate : ResourceData :=
  resourceData ""
    []
    [("availability_zone", VString "ap-guangzhou-3");
     ("name", VString "terrform_test");
     ("type", VString "master_slave_redis");
     ("password", VString "test12345789");
     ("mem_size", VInt 8192);
     ("port", VInt 6379)].

Definition processingRemote : trace -> forall R : Type, call R -> R :=
  fun _ R c =>
    match c in call R return R with
    | RedisDescribeInstances _ =>
        (mkDescribeInstancesResponse (Some 1) [sampleRedis 1], None)
    | c' => quietAnswer _ c'
    end.

(** Redis instances in two zones, and a remote that lists them by pages
    of two. *)
Definition redisInZone (zone : Z) (id : string) : InstanceSet :=
  mkInstanceSet (Some id) (Some id) (Some 0) (Some zone) (Some "vpc-1")
    (Some "subnet-1") (Some 2) (Some "10.0.0.5") (Some 6379)
    (Some "2020-06-01 10:00:00") (Some 8192) (Some 2) None None [].

Definition pagedRemote (zones : list ZoneInfo) (total : Z)
  (pages : Z -> list InstanceSet) : trace -> forall R : Type, call R -> R :=
  fun _ R c =>
    match c in call R return R with
    | CvmDescribeZones => (zones, None)
    | RedisDescribeInstances req =>
        (mkDescribeInstancesResponse (Some total)
           (pages (default 0 (req_Offset req))), None)
    | c' => quietAnswer _ c'
    end.

Definition twoZones : list ZoneInfo :=
  [mkZoneInfo (Some "ap-guangzhou-3") (Some "100003");
   mkZoneInfo (Some "ap-guangzhou-4") (Some "100004")].

Definition threeInstances (offset : Z) : list InstanceSet :=
  if Z.eqb offset 0
  then [redisInZone 100003 "crs-a"; redisInZone 100004 "crs-b"]
  else if Z.eqb offset 2 then [redisInZone 100003 "crs-c"] else [].

(** Two instances, which one page holds. *)
Definition twoInstances (offset : Z) : list InstanceSet :=
  if Z.eqb offset 0
  then [redisInZone 100003 "crs-a"; redisInZone 100004 "crs-b"]
  else [].

(** A VPN gateway billed by the hour, and a remote on which it stays
    listed until it has been described once after the delete request. *)
Definition sampleGateway : VpnGateway :=
  mkVpnGateway (Some "test") (Some "139.199.1.2") (Some 5) (Some "IPSEC")
    (Some "2020-06-01 10:00:00") (Some "AVAILABLE")
    (Some "NOTIFY_AND_MANUAL_RENEW") (Some "POSTPAID_BY_HOUR")
    (Some "0000-00-00 00:00:00") (Some false) (Some "") (Some "NORMAL")
    (Some "ap-guangzhou-3").

Definition isVpnDelete (c : anycall) : bool :=
  match projT2 c with
  | VpcDeleteVpnGateway _ => true
  | _ => false
  end.

Definition isVpnDescribe (c : anycall) : bool :=
  match projT2 c with
  | VpcDescribeVpnGateways _ => true
  | _ => false
  end.

Definition lingerRemote : trace -> forall R : Type, call R -> R :=
  fun tr R c =>
    match c in call R return R with
    | VpcDescribeVpnGateways _ =>
        if existsb isVpnDelete tr
           && match rev tr with
              | c0 :: _ => isVpnDescribe c0
              | [] => false
              end
        then ([], None)
        else ([sampleGateway], None)
    | c' => quietAnswer _ c'
    end.

(** A remote where the disk is in the status EXPANDING at the first
    description and has left it at the next one, and a remote where the
    description of the disk fails with a network error. *)
Definition isDiskDescribe (c : anycall) : bool :=
  match projT2 c with
  | CbsDescribeDiskById _ => true
  | _ => false
  end.

Definition expandOnceRemote : trace -> forall R : Type, call R -> R :=
  fun tr R c =>
    match c in call R return R with
    | CbsDescribeDiskById _ =>
        if match rev tr with
           | c0 :: _ => isDiskDescribe c0
           | [] => false
           end
        then (Some (sampleDisk "UNATTACHED"), None)
        else (Some (sampleDisk "EXPANDING"), None)
    | c' => quietAnswer _ c'
    end.

Definition describeFailsRemote : trace -> forall R : Type, call R -> R :=
  fun _ R c =>
    match c in call R return R with
    | CbsDescribeDiskById _ => (None, Some (NetError "Gateway Time-out"))
    | c' => quietAnswer _ c'
    end.

(** A remote that answers the first attempt to unbind a key pair, and
    to delete a route, with a transient error and the second one with
    the not-found code. *)
Definition isUnbind (c : anycall) : bool :=
  match projT2 c with
  | CvmUnbindKeyPair _ _ => true
  | _ => false
  end.

Definition isDeleteRoutes (c : anycall) : bool :=
  match projT2 c with
  | VpcDeleteRoutes _ _ => true
  | _ => false
  end.

Definition lastIs (p : anycall -> bool) (tr : trace) : bool :=
  match rev tr with
  | c :: _ => p c
  | [] => false
  end.

Definition notFoundAtSecondRemote : trace -> forall R : Type, call R -> R :=
  fun tr R c =>
    match c in call R return R with
    | CvmDescribeKeyPairById _ => (Some boundKeyPair, None)
    | CvmUnbindKeyPair _ _ =>
        if lastIs isUnbind tr
        then Some (SDKError "InvalidInstanceId.NotFound" "no such instance"
                     "req-4")
        else Some (SDKError "RequestLimitExceeded" "too many requests" "req-3")
    | VpcDeleteRoutes _ _ =>
        if lastIs isDeleteRoutes tr
        then Some (SDKError "ResourceNotFound" "no such route" "req-6")
        else Some (NetError "Gateway Time-out")
    | c' => quietAnswer _ c'
    end.

(** A remote on which the new Redis instance is in the status of
    processing at the first description and online from the second. *)
Definition isRedisDescribe (c : anycall) : bool :=
  match projT2 c with
  | RedisDescribeInstances _ => true
  | _ => false
  end.

Definition onlineAtSecondRemote : trace -> forall R : Type, call R -> R :=
  fun tr R c =>
    match c in call R return R with
    | RedisDescribeInstances _ =>
        (mkDescribeInstancesResponse (Some 1)
           [sampleRedis (if existsb isRedisDescribe tr then 2 else 1)], None)
    | CvmDescribeZones => (twoZones, None)
    | c' => quietAnswer _ c'
    end.

(** A route table entry to create. *)
Definition routeToCreate : ResourceData :=
  resourceData ""
    []
    [("route_table_id", VString "rtb-6xwg3sfy");
     ("destination_cidr_block", VString "10.4.4.0/24");
     ("next_type", VString "CVM");
     ("next_hub", VString "10.16.1.7");
     ("description", VString "ci-test-route-table-entry")].

(** A key pair whose public key the API returns with a comment, and a
    remote that has it. *)
Definition commentedKeyPair : KeyPair :=
  mkKeyPair (Some "terraform_test") (Some 0)
    (Some "ssh-rsa AAAAB3NzaC1yc2E user@example.com") [].

Definition keyPairRemote : trace -> forall R : Type, call R -> R :=
  fun _ R c =>
    match c in call R return R with
    | CvmDescribeKeyPairById _ => (Some commentedKeyPair, None)
    | c' => quietAnswer _ c'
    end.

(** A process environment with the three variables of the credential,
    an STS service that hands out temporary credentials to the client
    that holds the secret key of the environment and refuses the
    others, and a block of [assume_role]. *)
Definition sampleGetenv (k : string) : string :=
  if String.eqb k "TENCENTCLOUD_SECRET_ID" then "sample-id"
  else if String.eqb k "TENCENTCLOUD_SECRET_KEY" then "sample-key"
  else if String.eqb k "TENCENTCLOUD_REGION" then "ap-guangzhou"
  else if String.eqb k "TENCENTCLOUD_ASSUME_ROLE_SESSION_DURATION" then "3600"
  else "".

Definition sampleSts (client : TencentCloudClient) (request : AssumeRoleRequest)
  : option StsCredentials * error :=
  if String.eqb (SecretKey (ClientCredential client)) "sample-key"
  then (Some (mkStsCredentials (Some "tmp-token") (Some "tmp-id")
                (Some "tmp-key")), None)
  else (None, Some (SDKError "AuthFailure" "unknown secret key" "req-7")).

Definition sampleProviderEnv : ProviderEnv :=
  mkProviderEnv sampleGetenv
    (fun s => LocalError ("strconv.Atoi: parsing " +:+ s))
    (fun s => s) wrapU64 sampleSts.

Definition sampleAssumeRole : AssumeRoleBlock :=
  mkAssumeRoleBlock "qcs::cam::uin/100000000001:roleName/terraform"
    "terraform" 0 "".

(** * Properties *)

(** ** Running the monad *)

Lemma bind_Ok {A B : Type} (m : M A) (k : A -> M B) st a st' :
  m st = (Ok a, st') -> bind m k st = k a st'.
Proof. unfold bind. intros ->. reflexivity. Qed.

Lemma bind_Panic {A B : Type} (m : M A) (k : A -> M B) st st' :
  m st = (Panic, st') -> bind m k st = (Panic, st').
Proof. unfold bind. intros ->. reflexivity. Qed.

(** Unfolding of the accessors of the resource data. *)
Ltac run_data :=
  repeat (progress
            (unfold orReturn, bind, ret, panic, Id, SetId, Partial, SetPartial,
               Set_, HasChange, GetChange, GetOkString, GetString, GetInt,
               GetMap, GetList, Get, asString, asInt, asMap, asList,
               typeAssert, getD, putD, getZoneMap, putZoneMap in *;
             cbn in *)).

(** ** The guards on the data of an operation *)

Lemma unchanged_spec k d :
  unchanged k d = true ->
  bool_decide (d_old d !! k <> d_new d !! k) = false.
Proof.
  unfold unchanged. intros H%bool_decide_eq_true.
  apply bool_decide_eq_false_2. intros Hne. exact (Hne H).
Qed.

Lemma intChange_spec k d o n :
  intChange k d = Some (o, n) ->
  d_old d !! k = Some (VInt o) /\ d_new d !! k = Some (VInt n)
  /\ bool_decide (d_old d !! k <> d_new d !! k) = true.
Proof.
  unfold intChange.
  destruct (d_old d !! k) as [[]|] eqn:Ho; try discriminate.
  destruct (d_new d !! k) as [[]|] eqn:Hn; try discriminate.
  case_bool_decide; [discriminate|]. intros [= -> ->].
  repeat split. apply bool_decide_eq_true_2. congruence.
Qed.

(** [GetOk] on a string followed by the test of its flag gives the
    string back. *)
Lemma nonzero_or_empty (s : string) :
  (if negb (s =? "")%string then s else "") = s.
Proof. destruct (String.eqb_spec s ""); cbn; congruence. Qed.

Section LocalGuards.

Variable E : Env.

(** CBS storage: a smaller [storage_size] is refused by the update
    itself; with the name and the project unchanged nothing has been
    sent by then. *)
Lemma cbs_update_rejects_shrink st o n :
  unchanged "storage_name" (st_d st) = true ->
  unchanged "project_id" (st_d st) = true ->
  intChange "storage_size" (st_d st) = Some (o, n) ->
  n < o ->
  fst (resourceTencentCloudCbsStorageUpdate E st)
  = Ok (Some (LocalError
                "storage size must be greater than current storage size"))
  /\ st_trace (snd (resourceTencentCloudCbsStorageUpdate E st)) = st_trace st.
Proof.
  intros Hname%unchanged_spec Hproj%unchanged_spec
    (Ho & Hn & Hsize)%intChange_spec Hlt.
  unfold resourceTencentCloudCbsStorageUpdate, cbsUpdateAttributes,
    cbsUpdateSize.
  assert (Hgt : (o >? n)%Z = true) by lia.
  run_data.
  repeat (rewrite ?Hname, ?Hproj, ?Hsize, ?Ho, ?Hn, ?Hgt; cbn).
  auto.
Qed.

(** Redis instance: a [mem_size] that does not grow, or that is below
    1, is refused by the update itself; with the name unchanged nothing
    has been sent by then. *)
Lemma redis_update_rejects_mem_size st o n :
  unchanged "name" (st_d st) = true ->
  intChange "mem_size" (st_d st) = Some (o, n) ->
  n < o \/ n < 1 ->
  (exists msg, fst (resourceTencentCloudRedisInstanceUpdate E st)
               = Ok (Some (LocalError msg)))
  /\ st_trace (snd (resourceTencentCloudRedisInstanceUpdate E st))
     = st_trace st.
Proof.
  intros Hname%unchanged_spec (Ho & Hn & Hsize)%intChange_spec Hbad.
  unfold resourceTencentCloudRedisInstanceUpdate, redisUpdateName,
    redisUpdateMemSize.
  run_data.
  repeat (rewrite ?Hname, ?Hsize, ?Ho, ?Hn; cbn).
  destruct (o >=? n)%Z eqn:Hge; cbn; [eauto|].
  assert (Hlt : (n <? 1)%Z = true) by lia.
  rewrite Hlt. cbn. eauto.
Qed.

(** Route table entry: with next type EIP the next hop has to be "0",
    a relation between two fields that [Create] checks before it sends
    anything. *)
Lemma route_create_rejects_eip_hub st desc rt cidr hub :
  stringOf (attr (st_d st) "description") = Some desc ->
  stringOf (attr (st_d st) "route_table_id") = Some rt ->
  stringOf (attr (st_d st) "destination_cidr_block") = Some cidr ->
  stringOf (attr (st_d st) "next_type") = Some (GATE_WAY_TYPE_EIP E) ->
  stringOf (attr (st_d st) "next_hub") = Some hub ->
  hub <> "0" ->
  (exists msg, fst (resourceTencentCloudVpcRouteEntryCreate E st)
               = Ok (Some (LocalError msg)))
  /\ st_trace (snd (resourceTencentCloudVpcRouteEntryCreate E st))
     = st_trace st.
Proof.
  intros Hd Hr Hc Ht Hh Hne.
  unfold resourceTencentCloudVpcRouteEntryCreate.
  run_data.
  repeat (rewrite ?Hd, ?Hr, ?Hc, ?Ht, ?Hh; run_data).
  rewrite !nonzero_or_empty.
  destruct (_ || _ || _ || _); cbn; [eauto|].
  rewrite String.eqb_refl.
  destruct (String.eqb_spec hub "0"); [contradiction|]. cbn. eauto.
Qed.

End LocalGuards.

(** Claim C1, as amended. Validation is not only schema-level or left
    to the remote API: some operations enforce a relation between the
    old and the new value of a field, or between two fields, with an
    error they build themselves, before any call to the API. The update
    of a CBS storage refuses a smaller [storage_size], the update of a
    Redis instance refuses a [mem_size] that shrinks or is below 1, and
    the creation of a route table entry refuses a next hop other than
    "0" for the next type EIP. *)
Theorem local_guards_reject_before_any_call
  (E : Env) (cbs redis route : State) (o n o' n' : Z)
  (desc rt cidr hub : string) :
  unchanged "storage_name" (st_d cbs) = true ->
  unchanged "project_id" (st_d cbs) = true ->
  intChange "storage_size" (st_d cbs) = Some (o, n) ->
  n < o ->
  unchanged "name" (st_d redis) = true ->
  intChange "mem_size" (st_d redis) = Some (o', n') ->
  n' < o' \/ n' < 1 ->
  stringOf (attr (st_d route) "description") = Some desc ->
  stringOf (attr (st_d route) "route_table_id") = Some rt ->
  stringOf (attr (st_d route) "destination_cidr_block") = Some cidr ->
  stringOf (attr (st_d route) "next_type") = Some (GATE_WAY_TYPE_EIP E) ->
  stringOf (attr (st_d route) "next_hub") = Some hub ->
  hub <> "0" ->
  (fst (resourceTencentCloudCbsStorageUpdate E cbs)
   = Ok (Some (LocalError
                 "storage size must be greater than current storage size"))
   /\ st_trace (snd (resourceTencentCloudCbsStorageUpdate E cbs))
      = st_trace cbs)
  /\ ((exists msg, fst (resourceTencentCloudRedisInstanceUpdate E redis)
                   = Ok (Some (LocalError msg)))
      /\ st_trace (snd (resourceTencentCloudRedisInstanceUpdate E redis))
         = st_trace redis)
  /\ ((exists msg, fst (resourceTencentCloudVpcRouteEntryCreate E route)
                   = Ok (Some (LocalError msg)))
      /\ st_trace (snd (resourceTencentCloudVpcRouteEntryCreate E route))
         = st_trace route).
Proof.
  intros. split; [|split].
  - eapply cbs_update_rejects_shrink; eassumption.
  - eapply redis_update_rejects_mem_size; eassumption.
  - eapply route_create_rejects_eip_hub; eassumption.
Qed.

Lemma local_guards_reject_before_any_call_witness :
  (fst (resourceTencentCloudCbsStorageUpdate (sampleEnv quietRemote 0)
          (start cbsShrinking))
   = Ok (Some (LocalError
                 "storage size must be greater than current storage size"))
   /\ st_trace (snd (resourceTencentCloudCbsStorageUpdate
                       (sampleEnv quietRemote 0) (start cbsShrinking)))
      = [])
  /\ ((exists msg,
         fst (resourceTencentCloudRedisInstanceUpdate (sampleEnv quietRemote 0)
                (start redisNotGrowing))
         = Ok (Some (LocalError msg)))
      /\ st_trace (snd (resourceTencentCloudRedisInstanceUpdate
                          (sampleEnv quietRemote 0) (start redisNotGrowing)))
         = [])
  /\ ((exists msg,
         fst (resourceTencentCloudVpcRouteEntryCreate (sampleEnv quietRemote 0)
                (start routeEipWithHub))
         = Ok (Some (LocalError msg)))
      /\ st_trace (snd (resourceTencentCloudVpcRouteEntryCreate
                          (sampleEnv quietRemote 0) (start routeEipWithHub)))
         = []).
Proof.
  apply (local_guards_reject_before_any_call (sampleEnv quietRemote 0)
           (start cbsShrinking) (start redisNotGrowing) (start routeEipWithHub)
           100 50 8192 4096 "ci-test-route-table-entry" "rtb-6xwg3sfy"
           "10.4.4.0/24" "10.16.1.7").
  - vm_compute; reflexivity.
  - vm_compute; reflexivity.
  - vm_compute; reflexivity.
  - lia.
  - vm_compute; reflexivity.
  - vm_compute; reflexivity.
  - left; lia.
  - vm_compute; reflexivity.
  - vm_compute; reflexivity.
  - vm_compute; reflexivity.
  - vm_compute; reflexivity.
  - vm_compute; reflexivity.
  - discriminate.
Defined.

(** Claim C1 as stated fails: the update of a CBS storage whose size
    goes from 100 to 50 is refused with an error built by the provider
    from the comparison of the old and the new size, and no request has
    been sent. *)
Lemma cbs_update_shrink_rejected_locally :
  fst (resourceTencentCloudCbsStorageUpdate (sampleEnv quietRemote 0)
         (start cbsShrinking))
  = Ok (Some (LocalError
                "storage size must be greater than current storage size"))
  /\ st_trace (snd (resourceTencentCloudCbsStorageUpdate
                      (sampleEnv quietRemote 0) (start cbsShrinking)))
     = [].
Proof. vm_compute. split; reflexivity. Qed.

(** ** The poll loop *)

Section RetryLemmas.

Variable E : Env.

Lemma retryLoop_step {L : Type} (n : nat)
  (f : L -> M (L * option RetryError)) (l : L) (st : State) :
  retryLoop n f l st
  = match f l st with
    | (Ok (l', Some (RetryableError e)), st') =>
        match n with
        | O => (Ok (l', Some e), st')
        | S n' => retryLoop n' f l' st'
        end
    | (Ok (l', r), st') => (Ok (l', retryVerdict r), st')
    | (Panic, st') => (Panic, st')
    end.
Proof.
  destruct n; cbn; unfold bind; destruct (f l st) as [[[l' [[e|e]|]]|] st'];
    reflexivity.
Qed.

(** The outcome of the loop is the outcome of its last attempt, and a
    property of the state that every attempt keeps holds when the last
    attempt starts. *)
Lemma retryLoop_last {L : Type} (P : State -> Prop)
  (f : L -> M (L * option RetryError)) :
  (forall l s, P s -> P (snd (f l s))) ->
  forall n l st, P st ->
  exists l0 st0, P st0 /\
    match f l0 st0 with
    | (Ok (l1, r), st1) =>
        retryLoop n f l st = (Ok (l1, retryVerdict r), st1)
    | (Panic, st1) => retryLoop n f l st = (Panic, st1)
    end.
Proof.
  intros Hkeep. induction n as [|n IH]; intros l st HP.
  - exists l, st. split; [assumption|]. rewrite retryLoop_step.
    destruct (f l st) as [[[l' [[e|e]|]]|] st']; reflexivity.
  - rewrite retryLoop_step.
    destruct (f l st) as [[[l' [[e|e]|]]|] st'] eqn:Hf.
    + destruct (IH l' st') as (l0 & st0 & HP0 & H0).
      { specialize (Hkeep l st HP). rewrite Hf in Hkeep. exact Hkeep. }
      exists l0, st0. split; assumption.
    + exists l, st. split; [assumption|]. rewrite Hf. reflexivity.
    + exists l, st. split; [assumption|]. rewrite Hf. reflexivity.
    + exists l, st. split; [assumption|]. rewrite Hf. reflexivity.
Qed.

Lemma retryLoop_sends {R : Type} (c : call R) f classify :
  sends E c f classify ->
  forall n st,
  exists k,
    (k <= n)%nat
    /\ snd (retryLoop n f tt st)
       = mkState (st_trace st ++ replicate (S k) (ev c)) (st_d st)
           (st_zoneMap st)
    /\ fst (retryLoop n f tt st)
       = Ok (tt, retryVerdict
                   (classify (remote E (st_trace st ++ replicate k (ev c))
                                R c)))
    /\ (forall j, (j < k)%nat ->
          isRetryable (classify (remote E (st_trace st ++ replicate j (ev c))
                                   R c)) = true)
    /\ ((k < n)%nat ->
          isRetryable (classify (remote E (st_trace st ++ replicate k (ev c))
                                   R c)) = false).
Proof.
  intros Hf. induction n as [|n IH]; intros st.
  - exists O. rewrite retryLoop_step, Hf. cbn [replicate].
    rewrite app_nil_r.
    destruct (classify _) as [[e|e]|]; cbn; repeat split; auto; lia.
  - rewrite retryLoop_step, Hf.
    destruct (classify (remote E (st_trace st) R c)) as [[e|e]|] eqn:Hc.
    + destruct (IH (mkState (st_trace st ++ [ev c]) (st_d st) (st_zoneMap st)))
        as (k & Hk & Hs & Hr & Hbefore & Hstop).
      cbn [st_trace st_d st_zoneMap] in *.
      exists (S k).
      assert (Hshift : forall j, (st_trace st ++ [ev c]) ++ replicate j (ev c)
                                 = st_trace st ++ replicate (S j) (ev c)).
      { intros j. rewrite <- app_assoc. reflexivity. }
      rewrite !Hshift in *.
      split; [lia|]. split; [assumption|]. split; [assumption|]. split.
      * intros [|j] Hj.
        -- cbn [replicate]. rewrite app_nil_r, Hc. reflexivity.
        -- rewrite <- Hshift. apply Hbefore. lia.
      * intros Hlt. apply Hstop. lia.
    + exists O. cbn [replicate]. rewrite app_nil_r, Hc. cbn.
      repeat split; auto; lia.
    + exists O. cbn [replicate]. rewrite app_nil_r, Hc. cbn.
      repeat split; auto; lia.
Qed.

Lemma retryOnError_sends (codes : list string) (c : call error) :
  sends E c (retryOnError E codes (api E c))
    (fun e => match e with
              | Some e' => Some (retryError E e' codes)
              | None => None
              end).
Proof.
  intros st. unfold retryOnError, api, bind, ret.
  destruct (remote E (st_trace st) error c); reflexivity.
Qed.

(** The outcome of a poll whose callback sends one request. *)
Lemma retryLoop_asks {R : Type} (c : call R) f classify :
  asks E c f classify ->
  forall n st, pollRun E c classify n st (pollError (retryLoop n f tt) st).
Proof.
  intros Hf. unfold pollRun, pollError, answer.
  induction n as [|n IH]; intros st.
  - exists O. unfold bind. rewrite retryLoop_step, Hf. cbn [replicate].
    rewrite app_nil_r.
    destruct (classify _) as [[[e|e]|]|]; cbn; repeat split; auto; lia.
  - unfold bind. rewrite retryLoop_step, Hf.
    destruct (classify (remote E (st_trace st) R c)) as [[[e|e]|]|] eqn:Hc.
    + destruct (IH (sent c st)) as (k & Hk & Hs & Hr & Hbefore & Hstop).
      unfold bind in Hs, Hr. cbn [st_trace st_d st_zoneMap sent] in *.
      exists (S k).
      assert (Hshift : forall j, (st_trace st ++ [ev c]) ++ replicate j (ev c)
                                 = st_trace st ++ replicate (S j) (ev c)).
      { intros j. rewrite <- app_assoc. reflexivity. }
      rewrite !Hshift in *.
      split; [lia|]. split; [exact Hs|]. split; [exact Hr|]. split.
      * intros [|j] Hj.
        -- cbn [replicate]. rewrite app_nil_r, Hc. reflexivity.
        -- rewrite <- Hshift. apply Hbefore. lia.
      * intros Hlt. apply Hstop. lia.
    + exists O. cbn [replicate]. rewrite app_nil_r, Hc. cbn.
      repeat split; auto; lia.
    + exists O. cbn [replicate]. rewrite app_nil_r, Hc. cbn.
      repeat split; auto; lia.
    + exists O. cbn [replicate]. rewrite app_nil_r, Hc. cbn.
      repeat split; auto; lia.
Qed.

Lemma Retry_asks {R : Type} (c : call R) f classify timeout :
  asks E c f classify ->
  forall st,
    pollRun E c classify (polls E (st_trace st) timeout) st
      (pollError (Retry E timeout f tt) st).
Proof.
  intros Hf st.
  exact (retryLoop_asks c f classify Hf (polls E (st_trace st) timeout) st).
Qed.

(** A poll has one outcome. *)
Lemma pollRun_unique {R : Type} (c : call R) classify n st out out' :
  pollRun E c classify n st out -> pollRun E c classify n st out' ->
  out = out'.
Proof.
  intros (k & Hk & Hs & Hr & Hb & He) (k' & Hk' & Hs' & Hr' & Hb' & He').
  assert (k = k') as <-.
  { destruct (Nat.lt_trichotomy k k') as [Hlt|[Heq|Hgt]]; [|exact Heq|].
    - specialize (Hb' k Hlt). rewrite He in Hb' by lia. discriminate.
    - specialize (Hb k' Hgt). rewrite He' in Hb by lia. discriminate. }
  destruct out, out'. cbn in *. congruence.
Qed.

Lemma asks_retryOnError (codes : list string) (c : call error) :
  asks E c (retryOnError E codes (api E c))
    (fun e => Ok match e with
                 | Some e' => Some (retryError E e' codes)
                 | None => None
                 end).
Proof.
  intros st. unfold retryOnError, api, bind, ret.
  destruct (remote E (st_trace st) error c); reflexivity.
Qed.

End RetryLemmas.

(** ** Delete: the request and the wait for the disappearance *)

Lemma orReturn_run (m k : M error) (st : State) :
  orReturn m k st
  = match m st with
    | (Ok None, st1) => k st1
    | (Ok (Some e), st1) => (Ok (Some e), st1)
    | (Panic, st1) => (Panic, st1)
    end.
Proof.
  unfold orReturn, bind, ret. destruct (m st) as [[[e|]|] st1]; reflexivity.
Qed.

Section DeleteProofs.

Variable E : Env.

(** The delete of a CBS storage sends the delete request, again while
    the answer is a retryable error, and nothing else. *)
Lemma cbs_delete_trace st :
  exists k,
    st_trace (snd (resourceTencentCloudCbsStorageDelete E st))
    = st_trace st
      ++ replicate (S k) (ev (CbsDeleteDiskById (d_Id (st_d st)))).
Proof.
  unfold resourceTencentCloudCbsStorageDelete, Retry.
  set (c := CbsDeleteDiskById (d_Id (st_d st))).
  destruct (retryLoop_sends E c _ _
              (retryOnError_sends E [InternalError E] c)
              (polls E (st_trace st) (writeRetryTimeout E)) st)
    as (k & _ & Hs & Hr & _).
  exists k. unfold bind, Id, getD, ret. cbn. fold c.
  destruct (retryLoop _ _ _ st) as [[[u e]|] st'] eqn:Hrun; cbn in *;
    rewrite Hs; reflexivity.
Qed.

Lemma vpnGoneClassify_None r : vpnGoneClassify E r = None -> vpnGone E r.
Proof.
  destruct r as [gateways [e|]]; unfold vpnGoneClassify, vpnDescribeError;
    cbn.
  - destruct e as [code message requestId| |]; cbn; try discriminate.
    destruct (String.eqb_spec code (VPCNotFound E)); [|discriminate].
    subst. intros _. right. eauto.
  - destruct gateways; [|discriminate]. intros _. left. reflexivity.
Qed.

Lemma vpnGoneCallback_sends gatewayId :
  sends E (VpcDescribeVpnGateways [gatewayId]) (vpnGoneCallback E gatewayId)
    (vpnGoneClassify E).
Proof. intros st. reflexivity. Qed.

(** A step of the delete that ends with success: the request went out
    one or more times in a row, and the last answer was a success. *)
Lemma vpnDeleteRequest_ok gatewayId st st' :
  vpnDeleteRequest E gatewayId st = (Ok None, st') ->
  exists j,
    st' = mkState (st_trace st
                   ++ replicate (S j) (ev (VpcDeleteVpnGateway gatewayId)))
            (st_d st) (st_zoneMap st)
    /\ remote E (st_trace st
                 ++ replicate j (ev (VpcDeleteVpnGateway gatewayId)))
         error (VpcDeleteVpnGateway gatewayId) = None.
Proof.
  unfold vpnDeleteRequest, Retry.
  set (c := VpcDeleteVpnGateway gatewayId).
  destruct (retryLoop_sends E c _ _ (retryOnError_sends E [] c)
              (polls E (st_trace st) (writeRetryTimeout E)) st)
    as (j & _ & Hs & Hr & _).
  unfold bind, ret.
  destruct (retryLoop _ _ _ st) as [[[u e]|] st1] eqn:Hrun; cbn in *;
    [|discriminate].
  intros [= -> ->]. exists j. split; [assumption|].
  destruct (remote E _ error c) as [e'|]; [|reflexivity].
  cbn in Hr. destruct (retryError E e' []); discriminate.
Qed.

Lemma vpnGonePoll_ok gatewayId st st' :
  vpnGonePoll E gatewayId st = (Ok None, st') ->
  exists k,
    st' = mkState (st_trace st
                   ++ replicate (S k) (ev (VpcDescribeVpnGateways [gatewayId])))
            (st_d st) (st_zoneMap st)
    /\ vpnGone E (remote E (st_trace st
                          ++ replicate k
                               (ev (VpcDescribeVpnGateways [gatewayId])))
                  _ (VpcDescribeVpnGateways [gatewayId])).
Proof.
  unfold vpnGonePoll, Retry.
  set (c := VpcDescribeVpnGateways [gatewayId]).
  destruct (retryLoop_sends E c _ _ (vpnGoneCallback_sends gatewayId)
              (polls E (st_trace st) (readRetryTimeout E)) st)
    as (k & _ & Hs & Hr & _).
  unfold bind, ret.
  destruct (retryLoop _ _ _ st) as [[[u e]|] st1] eqn:Hrun; cbn in *;
    [|discriminate].
  intros [= -> ->]. exists k. split; [assumption|].
  apply vpnGoneClassify_None.
  destruct (vpnGoneClassify E _) as [[e|e]|]; cbn in Hr; congruence.
Qed.

(** The delete of a VPN gateway that succeeds has sent the delete
    request, got it accepted, and has then described the gateway until
    the answer said that it is gone. *)
Lemma vpn_delete_polls_until_gone st st' :
  resourceTencentCloudVpnGatewayDelete E st = (Ok None, st') ->
  let id := d_Id (st_d st) in
  exists before j k,
    st_trace st'
    = before ++ replicate (S j) (ev (VpcDeleteVpnGateway id))
      ++ replicate (S k) (ev (VpcDescribeVpnGateways [id]))
    /\ remote E (before ++ replicate j (ev (VpcDeleteVpnGateway id)))
         error (VpcDeleteVpnGateway id) = None
    /\ vpnGone E (remote E (before
                          ++ replicate (S j) (ev (VpcDeleteVpnGateway id))
                          ++ replicate k (ev (VpcDescribeVpnGateways [id])))
                  _ (VpcDescribeVpnGateways [id])).
Proof.
  unfold resourceTencentCloudVpnGatewayDelete.
  unfold bind at 1. unfold Id at 1, getD, bind, ret. cbn beta iota.
  rewrite orReturn_run.
  destruct (vpnChargeCheck E (d_Id (st_d st)) st) as [[[e|]|] st1] eqn:H1;
    try discriminate.
  rewrite orReturn_run.
  destruct (vpnTunnelCheck E (d_Id (st_d st)) st1) as [[[e|]|] st3] eqn:H3;
    try discriminate.
  rewrite orReturn_run.
  destruct (vpnDeleteRequest E (d_Id (st_d st)) st3) as [[[e|]|] st4] eqn:H4;
    try discriminate.
  rewrite orReturn_run.
  destruct (vpnGonePoll E (d_Id (st_d st)) st4) as [[[e|]|] st5] eqn:H5;
    try discriminate.
  intros [= <-].
  apply vpnDeleteRequest_ok in H4 as (j & -> & Hdel).
  apply vpnGonePoll_ok in H5 as (k & -> & Hgone).
  cbn [st_trace] in *.
  exists (st_trace st3), j, k. rewrite <- !app_assoc in *. auto.
Qed.

Lemma pollError_run {L : Type} (m : M (L * error)) (st : State) :
  (let* (_, err) := m in ret err) st = pollError m st.
Proof.
  unfold pollError, bind, ret. destruct (m st) as [[[l e]|] st']; reflexivity.
Qed.

Lemma asks_vpnGoneCallback gatewayId :
  asks E (VpcDescribeVpnGateways [gatewayId]) (vpnGoneCallback E gatewayId)
    (fun r => Ok (vpnGoneClassify E r)).
Proof. intros st. reflexivity. Qed.

Lemma vpnGonePoll_run gatewayId st :
  pollRun E (VpcDescribeVpnGateways [gatewayId])
    (fun r => Ok (vpnGoneClassify E r))
    (polls E (st_trace st) (readRetryTimeout E)) st
    (vpnGonePoll E gatewayId st).
Proof.
  unfold vpnGonePoll. rewrite pollError_run.
  apply Retry_asks, asks_vpnGoneCallback.
Qed.

Lemma vpnDeleteRequest_run gatewayId st :
  pollRun E (VpcDeleteVpnGateway gatewayId)
    (fun e => Ok match e with
                 | Some e' => Some (retryError E e' [])
                 | None => None
                 end)
    (polls E (st_trace st) (writeRetryTimeout E)) st
    (vpnDeleteRequest E gatewayId st).
Proof.
  unfold vpnDeleteRequest. rewrite pollError_run.
  apply Retry_asks, asks_retryOnError.
Qed.

Lemma cbs_delete_run st :
  pollRun E (CbsDeleteDiskById (d_Id (st_d st)))
    (fun e => Ok match e with
                 | Some e' => Some (retryError E e' [InternalError E])
                 | None => None
                 end)
    (polls E (st_trace st) (writeRetryTimeout E)) st
    (resourceTencentCloudCbsStorageDelete E st).
Proof.
  unfold resourceTencentCloudCbsStorageDelete.
  unfold bind at 1. unfold Id, getD, bind at 1, ret at 1. cbn beta iota.
  rewrite pollError_run. apply Retry_asks, asks_retryOnError.
Qed.

Lemma vpnGoneClassify_error gateways e :
  vpnGoneClassify E (gateways, Some e)
  = if hasCode (VPCNotFound E) e then None else Some (retryError E e []).
Proof.
  unfold vpnGoneClassify, vpnDescribeError, hasCode. cbn.
  destruct (asSDKError e) as [[code message]|]; reflexivity.
Qed.

(** The steps of the delete of a VPN gateway: the two checks, the
    delete request and the poll, each run when the one before it has
    ended without error; what is returned is the first error, or the
    outcome of the poll. *)
Lemma vpn_delete_run st :
  resourceTencentCloudVpnGatewayDelete E st
  = let id := d_Id (st_d st) in
    match vpnChargeCheck E id st with
    | (Ok None, st1) =>
        match vpnTunnelCheck E id st1 with
        | (Ok None, st2) =>
            match vpnDeleteRequest E id st2 with
            | (Ok None, st3) => vpnGonePoll E id st3
            | r => r
            end
        | r => r
        end
    | r => r
    end.
Proof.
  unfold resourceTencentCloudVpnGatewayDelete.
  unfold bind at 1. unfold Id at 1, getD, bind, ret. cbn beta iota zeta.
  rewrite orReturn_run.
  destruct (vpnChargeCheck E (d_Id (st_d st)) st) as [[[e|]|] st1];
    try reflexivity.
  rewrite orReturn_run.
  destruct (vpnTunnelCheck E (d_Id (st_d st)) st1) as [[[e|]|] st2];
    try reflexivity.
  rewrite orReturn_run.
  destruct (vpnDeleteRequest E (d_Id (st_d st)) st2) as [[[e|]|] st3];
    try reflexivity.
  rewrite orReturn_run.
  destruct (vpnGonePoll E (d_Id (st_d st)) st3) as [[[e|]|] st4];
    reflexivity.
Qed.

End DeleteProofs.

(** Claim C2, as amended. The delete of a VPN gateway issues the remote
    delete request and then polls the remote API: it describes the
    gateway again as long as the gateway is still listed (or the
    description fails with a retryable error) and attempts are left,
    and returns success when the result set is empty or the not-found
    code comes back. The delete of a CBS storage only issues the delete
    request, again while it fails with a retryable error, and returns
    without a poll for the disappearance. *)
Theorem delete_request_then_poll_for_vpn_gateway_only (E : Env) :
  (forall st,
     resourceTencentCloudVpnGatewayDelete E st
     = let id := d_Id (st_d st) in
       match vpnChargeCheck E id st with
       | (Ok None, st1) =>
           match vpnTunnelCheck E id st1 with
           | (Ok None, st2) =>
               match vpnDeleteRequest E id st2 with
               | (Ok None, st3) => vpnGonePoll E id st3
               | r => r
               end
           | r => r
           end
       | r => r
       end)
  /\ (forall id st,
        pollRun E (VpcDeleteVpnGateway id)
          (fun e => Ok match e with
                       | Some e' => Some (retryError E e' [])
                       | None => None
                       end)
          (polls E (st_trace st) (writeRetryTimeout E)) st
          (vpnDeleteRequest E id st))
  /\ (forall id st,
        pollRun E (VpcDescribeVpnGateways [id])
          (fun r => Ok (vpnGoneClassify E r))
          (polls E (st_trace st) (readRetryTimeout E)) st
          (vpnGonePoll E id st))
  /\ (forall gateways e,
        vpnGoneClassify E (gateways, Some e)
        = if hasCode (VPCNotFound E) e then None
          else Some (retryError E e []))
  /\ vpnGoneClassify E ([], None) = None
  /\ (forall gateway gateways,
        vpnGoneClassify E (gateway :: gateways, None)
        = Some (RetryableError (LocalError "deleting retry")))
  /\ (forall vpn vpn',
        resourceTencentCloudVpnGatewayDelete E vpn = (Ok None, vpn') ->
        exists before j k,
          st_trace vpn'
          = before
            ++ replicate (S j) (ev (VpcDeleteVpnGateway (d_Id (st_d vpn))))
            ++ replicate (S k)
                 (ev (VpcDescribeVpnGateways [d_Id (st_d vpn)]))
          /\ remote E
               (before
                ++ replicate j (ev (VpcDeleteVpnGateway (d_Id (st_d vpn)))))
               error (VpcDeleteVpnGateway (d_Id (st_d vpn))) = None
          /\ vpnGone E
               (remote E
                  (before
                   ++ replicate (S j)
                        (ev (VpcDeleteVpnGateway (d_Id (st_d vpn))))
                   ++ replicate k
                        (ev (VpcDescribeVpnGateways [d_Id (st_d vpn)])))
                  _ (VpcDescribeVpnGateways [d_Id (st_d vpn)])))
  /\ (forall cbs,
        pollRun E (CbsDeleteDiskById (d_Id (st_d cbs)))
          (fun e => Ok match e with
                       | Some e' => Some (retryError E e' [InternalError E])
                       | None => None
                       end)
          (polls E (st_trace cbs) (writeRetryTimeout E)) cbs
          (resourceTencentCloudCbsStorageDelete E cbs)).
Proof.
  split; [exact (vpn_delete_run E)|].
  split; [exact (vpnDeleteRequest_run E)|].
  split; [exact (vpnGonePoll_run E)|].
  split; [exact (vpnGoneClassify_error E)|].
  split; [reflexivity|]. split; [reflexivity|].
  split; [exact (vpn_delete_polls_until_gone E)|].
  exact (cbs_delete_run E).
Qed.

(** On a remote where the gateway is still listed at the first
    description after the delete request, the delete describes it a
    second time. *)
Lemma delete_request_then_poll_for_vpn_gateway_only_witness :
  let E := sampleEnv lingerRemote 2 in
  let id := "vpngw-8ccsnclt" in
  resourceTencentCloudVpnGatewayDelete E (start vpnGatewayData)
  = (Ok None,
     mkState
       [ev (VpcDescribeVpnGateways [id]);
        ev (VpcDescribeVpnConnections {[ "vpn-gateway-id" := id ]});
        ev (VpcDeleteVpnGateway id);
        ev (VpcDescribeVpnGateways [id]);
        ev (VpcDescribeVpnGateways [id])]
       vpnGatewayData ∅)
  /\ (exists before j k,
        before ++ replicate (S j) (ev (VpcDeleteVpnGateway id))
        ++ replicate (S k) (ev (VpcDescribeVpnGateways [id]))
        = [ev (VpcDescribeVpnGateways [id]);
           ev (VpcDescribeVpnConnections {[ "vpn-gateway-id" := id ]});
           ev (VpcDeleteVpnGateway id);
           ev (VpcDescribeVpnGateways [id]);
           ev (VpcDescribeVpnGateways [id])]).
Proof.
  intros E id.
  destruct (delete_request_then_poll_for_vpn_gateway_only E)
    as (Hrun & _ & _ & _ & _ & _ & Hok & _).
  assert (Hdelete :
            resourceTencentCloudVpnGatewayDelete E (start vpnGatewayData)
            = (Ok None,
               mkState
                 [ev (VpcDescribeVpnGateways [id]);
                  ev (VpcDescribeVpnConnections {[ "vpn-gateway-id" := id ]});
                  ev (VpcDeleteVpnGateway id);
                  ev (VpcDescribeVpnGateways [id]);
                  ev (VpcDescribeVpnGateways [id])]
                 vpnGatewayData ∅)).
  { rewrite Hrun. vm_compute. reflexivity. }
  split; [exact Hdelete|].
  destruct (Hok _ _ Hdelete) as (before & j & k & Htrace & _).
  exists before, j, k. symmetry. exact Htrace.
Defined.

(** Claim C2 as stated fails: the delete of a CBS storage returns
    success as soon as the delete request is accepted; the history holds
    that one request and no description of the disk after it. *)
Lemma cbs_delete_returns_without_poll :
  fst (resourceTencentCloudCbsStorageDelete (sampleEnv quietRemote 3)
         (start cbsStorageData)) = Ok None
  /\ st_trace (snd (resourceTencentCloudCbsStorageDelete
                      (sampleEnv quietRemote 3) (start cbsStorageData)))
     = [ev (CbsDeleteDiskById "disk-41s6jwy4")].
Proof. vm_compute. split; reflexivity. Qed.

(** ** CBS storage: the poll after a resize *)

Section CbsResize.

Variable E : Env.

Lemma cbsPollStatus_retryable transient storage r :
  cbsPollStatus E transient storage None = Ok r ->
  isRetryable r = true <-> diskIn transient storage.
Proof.
  unfold cbsPollStatus, diskIn.
  destruct storage as [disk|]; [destruct (DiskState disk) as [state|] eqn:Hs|].
  - destruct (String.eqb_spec state transient) as [->|Hne]; intros [= <-]; cbn.
    + split; [eauto|reflexivity].
    + split; [discriminate|]. intros (disk' & [= <-] & H). congruence.
  - discriminate.
  - intros [= <-]. cbn. split; [discriminate|]. intros (disk & H & _).
    discriminate.
Qed.

Lemma cbsPollStatus_success transient storage e :
  cbsPollStatus E transient storage e = Ok None ->
  e = None /\ ~ diskIn transient storage.
Proof.
  unfold cbsPollStatus, diskIn.
  destruct e as [e|]; [discriminate|].
  destruct storage as [disk|]; [destruct (DiskState disk) as [state|] eqn:Hs|].
  - destruct (String.eqb_spec state transient) as [->|Hne]; [discriminate|].
    intros _. split; [reflexivity|]. intros (disk' & [= <-] & H). congruence.
  - discriminate.
  - intros _. split; [reflexivity|]. intros (disk & H & _). discriminate.
Qed.

(** The poll ends with success only on a description, without error,
    of a disk that is not (or no longer) in the status EXPANDING. *)
Lemma cbsResizePoll_success storageId st st' :
  cbsResizePoll E storageId st = (Ok None, st') ->
  exists tr,
    st_trace st' = tr ++ [ev (CbsDescribeDiskById storageId)]
    /\ snd (remote E tr _ (CbsDescribeDiskById storageId)) = None
    /\ ~ diskIn (CBS_STORAGE_STATUS_EXPANDING E)
         (fst (remote E tr _ (CbsDescribeDiskById storageId))).
Proof.
  unfold cbsResizePoll, Retry. unfold bind at 1.
  destruct (retryLoop_last (fun _ => True)
              (cbsPollCallback E (CBS_STORAGE_STATUS_EXPANDING E) storageId)
              (fun _ _ _ => I)
              (polls E (st_trace st) (readRetryTimeout E)) tt st I)
    as ([] & st0 & _ & Hlast).
  unfold cbsPollCallback at 1 in Hlast. unfold api, bind, ret, liftResult in Hlast.
  cbn in Hlast.
  destruct (remote E (st_trace st0) _ (CbsDescribeDiskById storageId))
    as [storage e] eqn:Hremote.
  cbn in Hlast.
  destruct (cbsPollStatus E _ storage e) as [r|] eqn:Hstatus.
  - rewrite Hlast. cbn. unfold ret. intros [= Hr <-].
    exists (st_trace st0). rewrite Hremote. cbn.
    assert (r = None) as -> by (destruct r as [[]|]; cbn in Hr; congruence).
    apply cbsPollStatus_success in Hstatus. tauto.
  - rewrite Hlast. discriminate.
Qed.

(** The poll leaves the resource data alone. *)
Lemma cbsPollCallback_data transient storageId u st :
  st_d (snd (cbsPollCallback E transient storageId u st)) = st_d st.
Proof.
  unfold cbsPollCallback, api, bind, ret, liftResult. cbn.
  destruct (remote E (st_trace st) _ (CbsDescribeDiskById storageId))
    as [storage e].
  cbn. destruct (cbsPollStatus E transient storage e); reflexivity.
Qed.

Lemma cbsResizePoll_data storageId st :
  st_d (snd (cbsResizePoll E storageId st)) = st_d st.
Proof.
  unfold cbsResizePoll, Retry. unfold bind at 1.
  destruct (retryLoop_last (fun s => st_d s = st_d st)
              (cbsPollCallback E (CBS_STORAGE_STATUS_EXPANDING E) storageId))
    with (n := polls E (st_trace st) (readRetryTimeout E)) (l := tt) (st := st)
    as (u & st0 & H0 & Hlast).
  { intros l s Hs. rewrite cbsPollCallback_data. exact Hs. }
  { reflexivity. }
  pose proof (cbsPollCallback_data (CBS_STORAGE_STATUS_EXPANDING E) storageId
                u st0) as Hd.
  destruct (cbsPollCallback E _ storageId u st0) as [[[u1 r]|] st1];
    rewrite Hlast; cbn in *; congruence.
Qed.

Lemma cbs_update_run st :
  resourceTencentCloudCbsStorageUpdate E st
  = orReturn (cbsUpdateAttributes E (d_Id (st_d st)))
      (orReturn (cbsUpdateSize E (d_Id (st_d st)))
         (orReturn (cbsUpdateSnapshot E (d_Id (st_d st)))
            (orReturn (cbsUpdateTags E (d_Id (st_d st)))
               (bind (Partial false) (fun _ => ret None)))))
      (partialOn st).
Proof. reflexivity. Qed.

(** An error of the poll ends the update: it is what the update
    returns, the later steps (snapshot, tags) do not run and
    [storage_size] is not marked as applied. *)
Lemma cbs_update_aborts_on_poll_error st st1 st2 st3 o n e :
  cbsUpdateAttributes E (d_Id (st_d st)) (partialOn st) = (Ok None, st1) ->
  intChange "storage_size" (st_d st1) = Some (o, n) ->
  o < n ->
  cbsResizeRequest E (d_Id (st_d st)) n st1 = (Ok None, st2) ->
  cbsResizePoll E (d_Id (st_d st)) st2 = (Ok (Some e), st3) ->
  resourceTencentCloudCbsStorageUpdate E st = (Ok (Some e), st3)
  /\ st_d st3 = st_d st2.
Proof.
  intros Hattr (Ho & Hn & Hch)%intChange_spec Hlt Hreq Hpoll.
  split.
  - rewrite cbs_update_run.
    rewrite orReturn_run, Hattr.
    rewrite orReturn_run.
    assert (Hsize : cbsUpdateSize E (d_Id (st_d st)) st1 = (Ok (Some e), st3)).
    { unfold cbsUpdateSize. unfold bind at 1, HasChange, GetChange.
      unfold getD, bind, ret. cbn. rewrite Hch, Ho, Hn. cbn.
      assert (Hgt : (o >? n)%Z = false) by lia.
      rewrite Hgt. rewrite orReturn_run, Hreq, orReturn_run, Hpoll.
      reflexivity. }
    rewrite Hsize. reflexivity.
  - pose proof (cbsResizePoll_data (d_Id (st_d st)) st2) as Hd.
    rewrite Hpoll in Hd. exact Hd.
Qed.

Lemma asks_cbsPollCallback transient storageId :
  asks E (CbsDescribeDiskById storageId)
    (cbsPollCallback E transient storageId)
    (fun r => cbsPollStatus E transient (fst r) (snd r)).
Proof.
  intros st. unfold cbsPollCallback, api, bind, ret, liftResult. cbn.
  destruct (remote E (st_trace st) _ (CbsDescribeDiskById storageId))
    as [storage e].
  cbn. destruct (cbsPollStatus E transient storage e); reflexivity.
Qed.

Lemma cbsResizePoll_run storageId st :
  pollRun E (CbsDescribeDiskById storageId)
    (fun r => cbsPollStatus E (CBS_STORAGE_STATUS_EXPANDING E) (fst r) (snd r))
    (polls E (st_trace st) (readRetryTimeout E)) st
    (cbsResizePoll E storageId st).
Proof.
  unfold cbsResizePoll. rewrite pollError_run.
  apply Retry_asks, asks_cbsPollCallback.
Qed.

Lemma cbsResizeRequest_run storageId newValue st :
  pollRun E (CbsResizeDisk storageId newValue)
    (fun e => Ok match e with
                 | Some e' => Some (retryError E e' [])
                 | None => None
                 end)
    (polls E (st_trace st) (writeRetryTimeout E)) st
    (cbsResizeRequest E storageId newValue st).
Proof.
  unfold cbsResizeRequest. rewrite pollError_run.
  apply Retry_asks, asks_retryOnError.
Qed.

(** The update of a size that grows: the resize request, then the
    poll, then the rest of the update; an error of either ends it. *)
Lemma cbs_update_resize_run st st1 o n :
  cbsUpdateAttributes E (d_Id (st_d st)) (partialOn st) = (Ok None, st1) ->
  intChange "storage_size" (st_d st1) = Some (o, n) ->
  o < n ->
  resourceTencentCloudCbsStorageUpdate E st
  = let id := d_Id (st_d st) in
    match cbsResizeRequest E id n st1 with
    | (Ok None, st2) =>
        match cbsResizePoll E id st2 with
        | (Ok None, st3) =>
            (do* SetPartial "storage_size" in
             try* cbsUpdateSnapshot E id in
             try* cbsUpdateTags E id in
             do* Partial false in
             ret None) st3
        | r => r
        end
    | r => r
    end.
Proof.
  intros Hattr (Ho & Hn & Hch)%intChange_spec Hlt.
  rewrite cbs_update_run, orReturn_run, Hattr, orReturn_run.
  unfold cbsUpdateSize. unfold bind at 1, HasChange, GetChange.
  unfold getD, bind at 1, ret at 1. cbn beta iota. rewrite Hch.
  unfold bind at 1. cbn beta iota. unfold bind at 1, ret at 1. cbn beta iota.
  rewrite Ho, Hn. cbn [asInt intOf typeAssert]. unfold bind at 1, ret at 1.
  cbn beta iota. unfold bind at 1, ret at 1. cbn beta iota.
  assert (Hgt : (o >? n)%Z = false) by lia.
  rewrite Hgt. cbn zeta. rewrite orReturn_run.
  destruct (cbsResizeRequest E (d_Id (st_d st)) n st1) as [[[e|]|] st2];
    try reflexivity.
  rewrite orReturn_run.
  destruct (cbsResizePoll E (d_Id (st_d st)) st2) as [[[e|]|] st3];
    try reflexivity.
Qed.

End CbsResize.

(** Claim C3, as amended. In the update of [storage_size] the resize
    request is followed by a poll on [DescribeDiskById], which describes
    the disk again as long as the callback asks for it and attempts are
    left. The callback hands an error of the description to
    [retryError]; for a description without error it classifies the
    outcome as retryable exactly when the disk is there with the status
    EXPANDING, and returns success when the disk is not there or has
    left that status. An error that the poll hands back ends the
    update; after a poll that succeeds the update goes on. *)
Theorem cbs_resize_poll_waits_while_expanding (E : Env) :
  (forall storage e,
     cbsPollStatus E (CBS_STORAGE_STATUS_EXPANDING E) storage (Some e)
     = Ok (Some (retryError E e [])))
  /\ (forall storage r,
        cbsPollStatus E (CBS_STORAGE_STATUS_EXPANDING E) storage None = Ok r ->
        isRetryable r = true
        <-> diskIn (CBS_STORAGE_STATUS_EXPANDING E) storage)
  /\ cbsPollStatus E (CBS_STORAGE_STATUS_EXPANDING E) None None = Ok None
  /\ (forall disk state,
        DiskState disk = Some state ->
        cbsPollStatus E (CBS_STORAGE_STATUS_EXPANDING E) (Some disk) None
        = if String.eqb state (CBS_STORAGE_STATUS_EXPANDING E)
          then Ok (Some (RetryableError
                           (LocalError ("cbs storage status is " +:+ state))))
          else Ok None)
  /\ (forall storage e,
        cbsPollStatus E (CBS_STORAGE_STATUS_EXPANDING E) storage e = Ok None ->
        e = None /\ ~ diskIn (CBS_STORAGE_STATUS_EXPANDING E) storage)
  /\ (forall storageId st,
        pollRun E (CbsDescribeDiskById storageId)
          (fun r => cbsPollStatus E (CBS_STORAGE_STATUS_EXPANDING E)
                      (fst r) (snd r))
          (polls E (st_trace st) (readRetryTimeout E)) st
          (cbsResizePoll E storageId st))
  /\ (forall storageId newValue st,
        pollRun E (CbsResizeDisk storageId newValue)
          (fun e => Ok match e with
                       | Some e' => Some (retryError E e' [])
                       | None => None
                       end)
          (polls E (st_trace st) (writeRetryTimeout E)) st
          (cbsResizeRequest E storageId newValue st))
  /\ (forall st st1 o n,
        cbsUpdateAttributes E (d_Id (st_d st)) (partialOn st) = (Ok None, st1) ->
        intChange "storage_size" (st_d st1) = Some (o, n) ->
        o < n ->
        resourceTencentCloudCbsStorageUpdate E st
        = let id := d_Id (st_d st) in
          match cbsResizeRequest E id n st1 with
          | (Ok None, st2) =>
              match cbsResizePoll E id st2 with
              | (Ok None, st3) =>
                  (do* SetPartial "storage_size" in
                   try* cbsUpdateSnapshot E id in
                   try* cbsUpdateTags E id in
                   do* Partial false in
                   ret None) st3
              | r => r
              end
          | r => r
          end)
  /\ (forall storageId st st',
        cbsResizePoll E storageId st = (Ok None, st') ->
        exists tr,
          st_trace st' = tr ++ [ev (CbsDescribeDiskById storageId)]
          /\ snd (remote E tr _ (CbsDescribeDiskById storageId)) = None
          /\ ~ diskIn (CBS_STORAGE_STATUS_EXPANDING E)
               (fst (remote E tr _ (CbsDescribeDiskById storageId))))
  /\ (forall st st1 st2 st3 o n e,
        cbsUpdateAttributes E (d_Id (st_d st)) (partialOn st) = (Ok None, st1) ->
        intChange "storage_size" (st_d st1) = Some (o, n) ->
        o < n ->
        cbsResizeRequest E (d_Id (st_d st)) n st1 = (Ok None, st2) ->
        cbsResizePoll E (d_Id (st_d st)) st2 = (Ok (Some e), st3) ->
        resourceTencentCloudCbsStorageUpdate E st = (Ok (Some e), st3)
        /\ st_d st3 = st_d st2).
Proof.
  split; [reflexivity|].
  split; [apply cbsPollStatus_retryable|].
  split; [reflexivity|].
  split.
  { intros disk state Hstate. unfold cbsPollStatus. rewrite Hstate.
    reflexivity. }
  split; [apply cbsPollStatus_success|].
  split; [apply cbsResizePoll_run|].
  split; [apply cbsResizeRequest_run|].
  split; [apply cbs_update_resize_run|].
  split; [apply cbsResizePoll_success|].
  apply cbs_update_aborts_on_poll_error.
Qed.

(** A disk that is expanding at the first description and has left
    that status at the second: the update describes it twice and goes
    on to its end. A disk that stays in the status: the update gives
    the poll's error back. *)
Lemma cbs_resize_poll_waits_while_expanding_witness :
  resourceTencentCloudCbsStorageUpdate (sampleEnv expandOnceRemote 2)
    (start cbsGrowing)
  = (Ok None,
     mkState
       [ev (CbsResizeDisk "disk-41s6jwy4" 100);
        ev (CbsDescribeDiskById "disk-41s6jwy4");
        ev (CbsDescribeDiskById "disk-41s6jwy4")]
       (mkResourceData "disk-41s6jwy4" (d_old cbsGrowing) (d_new cbsGrowing)
          ∅ false ["storage_size"])
       ∅)
  /\ resourceTencentCloudCbsStorageUpdate (sampleEnv expandingRemote 2)
       (start cbsGrowing)
     = (Ok (Some (LocalError "cbs storage status is EXPANDING")),
        snd (resourceTencentCloudCbsStorageUpdate (sampleEnv expandingRemote 2)
               (start cbsGrowing))).
Proof.
  split.
  - destruct (cbs_resize_poll_waits_while_expanding
                (sampleEnv expandOnceRemote 2))
      as (_ & _ & _ & _ & _ & _ & _ & Hrun & _).
    rewrite (Hrun (start cbsGrowing) (partialOn (start cbsGrowing)) 50 100).
    + vm_compute. reflexivity.
    + vm_compute. reflexivity.
    + vm_compute. reflexivity.
    + lia.
  - destruct (cbs_resize_poll_waits_while_expanding
                (sampleEnv expandingRemote 2))
      as (_ & _ & _ & _ & _ & _ & _ & _ & _ & Habort).
    apply (Habort (start cbsGrowing) (partialOn (start cbsGrowing))
             (snd (cbsResizeRequest (sampleEnv expandingRemote 2)
                     "disk-41s6jwy4" 100 (partialOn (start cbsGrowing))))
             _ 50 100).
    + vm_compute; reflexivity.
    + vm_compute; reflexivity.
    + lia.
    + vm_compute; reflexivity.
    + vm_compute; reflexivity.
Defined.

(** Claim C3 as stated fails: a description of the disk that fails with
    an error that [retryError] takes for a transient one is classified
    as retryable although no disk in the status EXPANDING has been
    returned, and the poll describes the disk again. *)
Lemma cbs_poll_retries_on_describe_error :
  let E := sampleEnv describeFailsRemote 1 in
  fst (answer E (CbsDescribeDiskById "disk-41s6jwy4") (start cbsGrowing) 0)
  = None
  /\ cbsPollCallback E "EXPANDING" "disk-41s6jwy4" tt (start cbsGrowing)
     = (Ok (tt, Some (RetryableError (NetError "Gateway Time-out"))),
        sent (CbsDescribeDiskById "disk-41s6jwy4") (start cbsGrowing))
  /\ cbsResizePoll E "disk-41s6jwy4" (start cbsGrowing)
     = (Ok (Some (NetError "Gateway Time-out")),
        mkState
          [ev (CbsDescribeDiskById "disk-41s6jwy4");
           ev (CbsDescribeDiskById "disk-41s6jwy4")]
          cbsGrowing ∅).
Proof. vm_compute. repeat split; reflexivity. Qed.

(** ** Read: a resource that is gone *)

Section ReadAbsent.

Variable E : Env.

(** CBS storage: a description without disk and without error ends the
    poll at once; the id is cleared and nil is returned. *)
Lemma cbs_read_absent st :
  remote E (st_trace st) _ (CbsDescribeDiskById (d_Id (st_d st)))
  = (None, None) ->
  resourceTencentCloudCbsStorageRead E st
  = (Ok None,
     cleared (sent (CbsDescribeDiskById (d_Id (st_d st))) st)).
Proof.
  intros Hr. unfold resourceTencentCloudCbsStorageRead, Retry.
  unfold bind at 1. unfold Id, getD, bind at 1, ret. cbn beta iota.
  unfold bind at 1. rewrite retryLoop_step.
  unfold api at 1, bind at 1. cbn. rewrite Hr. reflexivity.
Qed.

(** Key pair: the same. *)
Lemma key_pair_read_absent st :
  remote E (st_trace st) _ (CvmDescribeKeyPairById (d_Id (st_d st)))
  = (None, None) ->
  resourceTencentCloudKeyPairRead E st
  = (Ok None,
     cleared (sent (CvmDescribeKeyPairById (d_Id (st_d st))) st)).
Proof.
  intros Hr. unfold resourceTencentCloudKeyPairRead, Retry.
  unfold bind at 1. unfold Id, getD, bind at 1, ret. cbn beta iota.
  unfold bind at 1. rewrite retryLoop_step.
  unfold keyPairDescribe at 1, api at 1, bind at 1. cbn. rewrite Hr.
  reflexivity.
Qed.

(** Redis instance: an empty result set, or an instance in the status
    ISOLATE or TODELETE, clears the id and gives nil. The check of the
    instance is taken by its answer. *)
Lemma redis_read_absent st r st1 :
  CheckRedisCreateOk E (d_Id (st_d st))
    (mkState (st_trace st) (st_d st) ∅) = (Ok r, st1) ->
  redisAbsent E r ->
  resourceTencentCloudRedisInstanceRead E st = (Ok None, cleared st1).
Proof.
  intros Hcheck Habsent. unfold resourceTencentCloudRedisInstanceRead, Retry.
  unfold bind at 1. unfold putZoneMap at 1. cbn beta iota.
  unfold bind at 1. rewrite retryLoop_step.
  unfold redisReadCallback at 1. unfold bind at 1, Id at 1, getD, bind at 1, ret.
  cbn beta iota. cbn [st_d]. unfold bind at 1. rewrite Hcheck.
  cbn [rv_info rv_e rv_has rv_onlineHas].
  destruct Habsent as [(Hi & He & Hh)|(info & status & Hi & Hs & Hst)].
  - rewrite Hi, He, Hh. reflexivity.
  - rewrite Hi. unfold bind at 1. unfold deref. rewrite Hs. unfold ret at 1.
    assert (Htest : Z.eqb status (REDIS_STATUS_ISOLATE E)
                    || Z.eqb status (REDIS_STATUS_TODELETE E) = true).
    { destruct Hst as [->| ->]; rewrite Z.eqb_refl; [reflexivity|].
      apply orb_true_r. }
    rewrite Htest. reflexivity.
Qed.

(** VPN gateway: an empty result set clears the id and gives nil. *)
Lemma vpn_read_absent st :
  remote E (st_trace st) _ (VpcDescribeVpnGateways [d_Id (st_d st)])
  = ([], None) ->
  resourceTencentCloudVpnGatewayRead E st
  = (Ok None,
     cleared (sent (VpcDescribeVpnGateways [d_Id (st_d st)]) st)).
Proof.
  intros Hr. unfold resourceTencentCloudVpnGatewayRead, Retry.
  unfold bind at 1. unfold Id, getD, bind at 1, ret. cbn beta iota.
  unfold bind at 1. rewrite retryLoop_step.
  unfold vpnReadCallback at 1, api at 1, bind at 1. cbn. rewrite Hr.
  reflexivity.
Qed.

(** VPN gateway, the not-found code: the callback ends the poll with
    success and leaves [response] nil, and [Read] then reads through
    that nil pointer. The id is not cleared and nothing is returned. *)
Lemma vpn_read_not_found st gateways message requestId :
  remote E (st_trace st) _ (VpcDescribeVpnGateways [d_Id (st_d st)])
  = (gateways, Some (SDKError (VPCNotFound E) message requestId)) ->
  resourceTencentCloudVpnGatewayRead E st
  = (Panic, sent (VpcDescribeVpnGateways [d_Id (st_d st)]) st).
Proof.
  intros Hr. unfold resourceTencentCloudVpnGatewayRead, Retry.
  unfold bind at 1. unfold Id, getD, bind at 1, ret. cbn beta iota.
  unfold bind at 1. rewrite retryLoop_step.
  unfold vpnReadCallback at 1, api at 1, bind at 1. cbn. rewrite Hr. cbn.
  unfold vpnDescribeError. cbn. rewrite String.eqb_refl. reflexivity.
Qed.

End ReadAbsent.

(** Claim C4, at the input where the code departs from it. When the
    remote answers the description of a VPN gateway with the not-found
    code, [Read] does not clear the id and return nil: it panics on the
    nil response. *)
Theorem vpn_gateway_read_panics_on_not_found
  (E : Env) (st : State) (gateways : list VpnGateway)
  (message requestId : string) :
  remote E (st_trace st) _ (VpcDescribeVpnGateways [d_Id (st_d st)])
  = (gateways, Some (SDKError (VPCNotFound E) message requestId)) ->
  fst (resourceTencentCloudVpnGatewayRead E st) = Panic
  /\ d_Id (st_d (snd (resourceTencentCloudVpnGatewayRead E st)))
     = d_Id (st_d st).
Proof.
  intros Hr. rewrite (vpn_read_not_found E st _ _ _ Hr). split; reflexivity.
Qed.

Lemma vpn_gateway_read_panics_on_not_found_witness :
  fst (resourceTencentCloudVpnGatewayRead (sampleEnv vpnNotFoundRemote 0)
         (start vpnGatewayData)) = Panic
  /\ d_Id (st_d (snd (resourceTencentCloudVpnGatewayRead
                        (sampleEnv vpnNotFoundRemote 0)
                        (start vpnGatewayData))))
     = "vpngw-8ccsnclt".
Proof.
  apply (vpn_gateway_read_panics_on_not_found (sampleEnv vpnNotFoundRemote 0)
           (start vpnGatewayData) [] "gateway not found" "req-1").
  vm_compute; reflexivity.
Defined.

(** The reads of the other resources on a resource that is gone, run on
    the samples. *)
Example redis_read_isolated :
  fst (resourceTencentCloudRedisInstanceRead (sampleEnv isolatedRemote 0)
         (start redisData)) = Ok None
  /\ d_Id (st_d (snd (resourceTencentCloudRedisInstanceRead
                        (sampleEnv isolatedRemote 0) (start redisData)))) = "".
Proof. vm_compute. split; reflexivity. Qed.

Example cbs_read_gone :
  fst (resourceTencentCloudCbsStorageRead (sampleEnv quietRemote 0)
         (start cbsStorageData)) = Ok None
  /\ d_Id (st_d (snd (resourceTencentCloudCbsStorageRead
                        (sampleEnv quietRemote 0) (start cbsStorageData)))) = "".
Proof. vm_compute. split; reflexivity. Qed.

(** ** Delete: the not-found code *)

Section DeleteNotFound.

Variable E : Env.

Lemma routeEntryDeleteClassify_spec e :
  routeEntryDeleteClassify E (Some e)
  = if hasCode (VPCNotFound E) e then None else Some (RetryableError e).
Proof.
  unfold routeEntryDeleteClassify, hasCode.
  destruct (asSDKError e) as [[code m]|]; reflexivity.
Qed.

Lemma keyPairUnbindClassify_spec e :
  keyPairUnbindClassify E (Some e)
  = if hasCode (CVM_NOT_FOUND_ERROR E) e then None
    else Some (retryError E e []).
Proof.
  unfold keyPairUnbindClassify, hasCode.
  destruct (asSDKError e) as [[code m]|]; reflexivity.
Qed.

Lemma routeEntryDeleteCallback_sends routeTableId entryId :
  sends E (VpcDeleteRoutes routeTableId entryId)
    (routeEntryDeleteCallback E routeTableId entryId)
    (routeEntryDeleteClassify E).
Proof. intros st. reflexivity. Qed.

Lemma keyPairUnbindCallback_sends keyId instanceIds :
  sends E (CvmUnbindKeyPair keyId instanceIds)
    (keyPairUnbindCallback E keyId instanceIds)
    (keyPairUnbindClassify E).
Proof. intros st. reflexivity. Qed.

(** A step whose request is answered with the not-found code at the
    first attempt is a success after that one attempt. *)
Lemma route_delete_not_found routeTableId entryId st e :
  remote E (st_trace st) _ (VpcDeleteRoutes routeTableId entryId) = Some e ->
  hasCode (VPCNotFound E) e = true ->
  routeEntryDeleteRequest E routeTableId entryId st
  = (Ok None, sent (VpcDeleteRoutes routeTableId entryId) st).
Proof.
  intros Hr Hcode. unfold routeEntryDeleteRequest, Retry.
  unfold bind at 1. rewrite retryLoop_step.
  rewrite routeEntryDeleteCallback_sends, Hr, routeEntryDeleteClassify_spec,
    Hcode.
  reflexivity.
Qed.

Lemma key_pair_unbind_not_found keyId instanceIds st e :
  remote E (st_trace st) _ (CvmUnbindKeyPair keyId instanceIds) = Some e ->
  hasCode (CVM_NOT_FOUND_ERROR E) e = true ->
  keyPairUnbind E keyId instanceIds st
  = (Ok None, sent (CvmUnbindKeyPair keyId instanceIds) st).
Proof.
  intros Hr Hcode. unfold keyPairUnbind, Retry.
  unfold bind at 1. rewrite retryLoop_step.
  rewrite keyPairUnbindCallback_sends, Hr, keyPairUnbindClassify_spec, Hcode.
  reflexivity.
Qed.

(** [DeleteRoutes]: errors with another code are all retried, and when
    the duration is used up the last one is returned. *)
Lemma route_delete_other_errors routeTableId entryId st :
  (forall tr, exists e,
      remote E tr _ (VpcDeleteRoutes routeTableId entryId) = Some e
      /\ hasCode (VPCNotFound E) e = false) ->
  routeEntryDeleteRequest E routeTableId entryId st
  = (Ok (remote E
           (st_trace st
            ++ replicate (polls E (st_trace st) (writeRetryTimeout E))
                 (ev (VpcDeleteRoutes routeTableId entryId)))
           _ (VpcDeleteRoutes routeTableId entryId)),
     mkState
       (st_trace st
        ++ replicate (S (polls E (st_trace st) (writeRetryTimeout E)))
             (ev (VpcDeleteRoutes routeTableId entryId)))
       (st_d st) (st_zoneMap st)).
Proof.
  intros Hall. unfold routeEntryDeleteRequest, Retry, bind. cbn beta.
  set (n := polls E (st_trace st) (writeRetryTimeout E)).
  set (c := VpcDeleteRoutes routeTableId entryId).
  destruct (retryLoop_sends E c _ _
              (routeEntryDeleteCallback_sends routeTableId entryId) n st)
    as (k & Hk & Hs & Hr & _ & Hstop).
  assert (Hretry : forall tr,
             isRetryable (routeEntryDeleteClassify E (remote E tr _ c)) = true).
  { intros tr. destruct (Hall tr) as (e & He & Hcode). unfold c.
    rewrite He, routeEntryDeleteClassify_spec, Hcode. reflexivity. }
  assert (k = n) as ->.
  { destruct (Nat.eq_dec k n) as [|Hne]; [assumption|].
    assert (Hlt : (k < n)%nat) by lia.
    specialize (Hstop Hlt). rewrite Hretry in Hstop. discriminate. }
  destruct (retryLoop n (routeEntryDeleteCallback E routeTableId entryId) tt st)
    as [[[u err]|] st1] eqn:Hrun; cbn [fst snd] in Hs, Hr; [|discriminate].
  subst st1. injection Hr as -> ->.
  destruct (Hall (st_trace st ++ replicate n (ev c))) as (e & He & Hcode).
  subst c n. cbn [ret]. rewrite He, routeEntryDeleteClassify_spec, Hcode.
  reflexivity.
Qed.

(** [UnbindKeyPair]: an error with another code goes to [retryError];
    when that calls it non-retryable it is returned at once. *)
Lemma key_pair_unbind_non_retryable keyId instanceIds st e e' :
  remote E (st_trace st) _ (CvmUnbindKeyPair keyId instanceIds) = Some e ->
  hasCode (CVM_NOT_FOUND_ERROR E) e = false ->
  retryError E e [] = NonRetryableError e' ->
  keyPairUnbind E keyId instanceIds st
  = (Ok (Some e'), sent (CvmUnbindKeyPair keyId instanceIds) st).
Proof.
  intros Hr Hcode Hclass. unfold keyPairUnbind, Retry.
  unfold bind at 1. rewrite retryLoop_step.
  rewrite keyPairUnbindCallback_sends, Hr, keyPairUnbindClassify_spec, Hcode,
    Hclass.
  reflexivity.
Qed.

Lemma routeEntryDeleteRequest_run routeTableId entryId st :
  pollRun E (VpcDeleteRoutes routeTableId entryId)
    (fun e => Ok (routeEntryDeleteClassify E e))
    (polls E (st_trace st) (writeRetryTimeout E)) st
    (routeEntryDeleteRequest E routeTableId entryId st).
Proof.
  unfold routeEntryDeleteRequest. rewrite pollError_run.
  apply Retry_asks. intros st0. reflexivity.
Qed.

Lemma keyPairUnbind_run keyId instanceIds st :
  pollRun E (CvmUnbindKeyPair keyId instanceIds)
    (fun e => Ok (keyPairUnbindClassify E e))
    (polls E (st_trace st) (writeRetryTimeout E)) st
    (keyPairUnbind E keyId instanceIds st).
Proof.
  unfold keyPairUnbind. rewrite pollError_run.
  apply Retry_asks. intros st0. reflexivity.
Qed.

(** A poll whose first answer asks for another attempt, with an attempt
    left, sends its request a second time. *)
Lemma pollRun_again {R : Type} (c : call R) classify n st out :
  pollRun E c classify n st out ->
  again (classify (remote E (st_trace st) R c)) = true ->
  (0 < n)%nat ->
  exists k,
    snd out
    = mkState (st_trace st ++ ev c :: ev c :: replicate k (ev c)) (st_d st)
        (st_zoneMap st).
Proof.
  intros (k & Hk & Hs & _ & _ & Hstop) Hagain Hn.
  destruct k as [|k].
  - unfold answer in Hstop. cbn [replicate] in Hstop.
    rewrite app_nil_r, Hagain in Hstop. specialize (Hstop Hn). discriminate.
  - exists k. exact Hs.
Qed.

(** The delete of a key pair that is bound to instances: the step that
    unbinds it, and after its success the delete request. *)
Lemma key_pair_delete_run st st1 keyPair e0 :
  Retry E (readRetryTimeout E) (keyPairDescribe E (d_Id (st_d st)))
    (None, None) st
  = (Ok ((Some keyPair, e0), None), st1) ->
  AssociatedInstanceIds keyPair <> [] ->
  resourceTencentCloudKeyPairDelete E st
  = let keyId := d_Id (st_d st) in
    match keyPairUnbind E keyId (AssociatedInstanceIds keyPair) st1 with
    | (Ok None, st2) =>
        pollError
          (Retry E (writeRetryTimeout E)
             (retryOnError E
                [KYE_PAIR_INVALID_ERROR E; KEY_PAIR_NOT_SUPPORT_ERROR E]
                (api E (CvmDeleteKeyPair keyId)))
             tt) st2
    | r => r
    end.
Proof.
  intros Hdescribe Hbound. unfold resourceTencentCloudKeyPairDelete.
  unfold bind at 1. unfold Id at 1, getD, bind at 1, ret at 1. cbn beta iota.
  unfold bind at 1. rewrite Hdescribe. cbn beta iota. cbn [fst].
  destruct (AssociatedInstanceIds keyPair) as [|i ids] eqn:Hids;
    [contradiction|].
  cbn [length Nat.ltb Nat.leb]. rewrite orReturn_run. cbn zeta.
  destruct (keyPairUnbind E (d_Id (st_d st)) (i :: ids) st1)
    as [[[e|]|] st2]; try reflexivity.
  apply pollError_run.
Qed.

End DeleteNotFound.

(** Claim C5, as amended. A [DeleteRoutes] that fails with the code
    VPCNotFound and an [UnbindKeyPair] that fails with the code
    CVM_NOT_FOUND_ERROR count as success: the step returns nil, and the
    delete of the key pair goes on to the delete request. Every other
    error of [DeleteRoutes] is classified as retryable: the request is
    sent again while attempts are left, and the last error is returned
    when they are used up. Every other error of [UnbindKeyPair] is
    classified by [retryError]: the request is sent again when
    [retryError] takes the error for a transient one and an attempt is
    left, and the error is returned at once when [retryError] calls it
    non-retryable. *)
Theorem delete_not_found_is_success (E : Env) :
  (forall e,
     routeEntryDeleteClassify E (Some e)
     = if hasCode (VPCNotFound E) e then None else Some (RetryableError e))
  /\ (forall e,
        keyPairUnbindClassify E (Some e)
        = if hasCode (CVM_NOT_FOUND_ERROR E) e then None
          else Some (retryError E e []))
  /\ routeEntryDeleteClassify E None = None
  /\ keyPairUnbindClassify E None = None
  /\ (forall routeTableId entryId st,
        pollRun E (VpcDeleteRoutes routeTableId entryId)
          (fun e => Ok (routeEntryDeleteClassify E e))
          (polls E (st_trace st) (writeRetryTimeout E)) st
          (routeEntryDeleteRequest E routeTableId entryId st))
  /\ (forall keyId instanceIds st,
        pollRun E (CvmUnbindKeyPair keyId instanceIds)
          (fun e => Ok (keyPairUnbindClassify E e))
          (polls E (st_trace st) (writeRetryTimeout E)) st
          (keyPairUnbind E keyId instanceIds st))
  /\ (forall routeTableId entryId st e,
        remote E (st_trace st) _ (VpcDeleteRoutes routeTableId entryId)
        = Some e ->
        hasCode (VPCNotFound E) e = true ->
        routeEntryDeleteRequest E routeTableId entryId st
        = (Ok None, sent (VpcDeleteRoutes routeTableId entryId) st))
  /\ (forall keyId instanceIds st e,
        remote E (st_trace st) _ (CvmUnbindKeyPair keyId instanceIds)
        = Some e ->
        hasCode (CVM_NOT_FOUND_ERROR E) e = true ->
        keyPairUnbind E keyId instanceIds st
        = (Ok None, sent (CvmUnbindKeyPair keyId instanceIds) st))
  /\ (forall routeTableId entryId st,
        (forall tr, exists e,
            remote E tr _ (VpcDeleteRoutes routeTableId entryId) = Some e
            /\ hasCode (VPCNotFound E) e = false) ->
        routeEntryDeleteRequest E routeTableId entryId st
        = (Ok (remote E
                 (st_trace st
                  ++ replicate (polls E (st_trace st) (writeRetryTimeout E))
                       (ev (VpcDeleteRoutes routeTableId entryId)))
                 _ (VpcDeleteRoutes routeTableId entryId)),
           mkState
             (st_trace st
              ++ replicate (S (polls E (st_trace st) (writeRetryTimeout E)))
                   (ev (VpcDeleteRoutes routeTableId entryId)))
             (st_d st) (st_zoneMap st)))
  /\ (forall keyId instanceIds st e e',
        remote E (st_trace st) _ (CvmUnbindKeyPair keyId instanceIds)
        = Some e ->
        hasCode (CVM_NOT_FOUND_ERROR E) e = false ->
        retryError E e [] = NonRetryableError e' ->
        keyPairUnbind E keyId instanceIds st
        = (Ok (Some e'), sent (CvmUnbindKeyPair keyId instanceIds) st))
  /\ (forall keyId instanceIds st e e',
        remote E (st_trace st) _ (CvmUnbindKeyPair keyId instanceIds)
        = Some e ->
        hasCode (CVM_NOT_FOUND_ERROR E) e = false ->
        retryError E e [] = RetryableError e' ->
        (0 < polls E (st_trace st) (writeRetryTimeout E))%nat ->
        exists k,
          snd (keyPairUnbind E keyId instanceIds st)
          = mkState
              (st_trace st
               ++ ev (CvmUnbindKeyPair keyId instanceIds)
                  :: ev (CvmUnbindKeyPair keyId instanceIds)
                  :: replicate k (ev (CvmUnbindKeyPair keyId instanceIds)))
              (st_d st) (st_zoneMap st))
  /\ (forall st st1 keyPair e0,
        Retry E (readRetryTimeout E) (keyPairDescribe E (d_Id (st_d st)))
          (None, None) st
        = (Ok ((Some keyPair, e0), None), st1) ->
        AssociatedInstanceIds keyPair <> [] ->
        resourceTencentCloudKeyPairDelete E st
        = let keyId := d_Id (st_d st) in
          match keyPairUnbind E keyId (AssociatedInstanceIds keyPair) st1 with
          | (Ok None, st2) =>
              pollError
                (Retry E (writeRetryTimeout E)
                   (retryOnError E
                      [KYE_PAIR_INVALID_ERROR E; KEY_PAIR_NOT_SUPPORT_ERROR E]
                      (api E (CvmDeleteKeyPair keyId)))
                   tt) st2
          | r => r
          end).
Proof.
  split; [apply routeEntryDeleteClassify_spec|].
  split; [apply keyPairUnbindClassify_spec|].
  split; [reflexivity|]. split; [reflexivity|].
  split; [apply routeEntryDeleteRequest_run|].
  split; [apply keyPairUnbind_run|].
  split; [apply route_delete_not_found|].
  split; [apply key_pair_unbind_not_found|].
  split; [apply route_delete_other_errors|].
  split; [apply key_pair_unbind_non_retryable|].
  split.
  - intros keyId instanceIds st e e' Hr Hcode Hclass Hn.
    apply (pollRun_again E _ _ _ _ _ (keyPairUnbind_run E keyId instanceIds st));
      [|exact Hn].
    rewrite Hr, keyPairUnbindClassify_spec, Hcode, Hclass. reflexivity.
  - apply key_pair_delete_run.
Qed.

(** A remote that answers the first attempt with a transient error and
    the second with the not-found code: both steps send their request
    twice and return nil, and the delete of the key pair goes on to
    [DeleteKeyPair]. A remote that always refuses: the errors are
    returned. *)
Lemma delete_not_found_is_success_witness :
  let E := sampleEnv notFoundAtSecondRemote 2 in
  routeEntryDeleteRequest E "rtb-6xwg3sfy" 7 (start vpnGatewayData)
  = (Ok None,
     mkState (replicate 2 (ev (VpcDeleteRoutes "rtb-6xwg3sfy" 7)))
       vpnGatewayData ∅)
  /\ resourceTencentCloudKeyPairDelete E (start keyPairData)
     = (Ok None,
        mkState
          [ev (CvmDescribeKeyPairById "skey-17634f05");
           ev (CvmUnbindKeyPair "skey-17634f05" ["ins-2qol3a80"]);
           ev (CvmUnbindKeyPair "skey-17634f05" ["ins-2qol3a80"]);
           ev (CvmDeleteKeyPair "skey-17634f05")]
          keyPairData ∅)
  /\ routeEntryDeleteRequest (sampleEnv routeDeniedRemote 2) "rtb-6xwg3sfy" 7
       (start vpnGatewayData)
     = (Ok (Some unbindDenied),
        mkState (replicate 3 (ev (VpcDeleteRoutes "rtb-6xwg3sfy" 7)))
          vpnGatewayData ∅)
  /\ keyPairUnbind (sampleEnv unbindDeniedRemote 2) "skey-17634f05"
       ["ins-2qol3a80"] (start keyPairData)
     = (Ok (Some unbindDenied),
        sent (CvmUnbindKeyPair "skey-17634f05" ["ins-2qol3a80"])
          (start keyPairData)).
Proof.
  intros E.
  destruct (delete_not_found_is_success E)
    as (_ & _ & _ & _ & Hpoll & _ & _ & _ & _ & _ & _ & Hdelete).
  destruct (delete_not_found_is_success (sampleEnv routeDeniedRemote 2))
    as (_ & _ & _ & _ & _ & _ & _ & _ & Hroute & _).
  destruct (delete_not_found_is_success (sampleEnv unbindDeniedRemote 2))
    as (_ & _ & _ & _ & _ & _ & _ & _ & _ & Hkey & _).
  split; [|split; [|split]].
  - apply (pollRun_unique E _ _ _ _ _ _
             (Hpoll "rtb-6xwg3sfy" 7 (start vpnGatewayData))).
    exists 1%nat. vm_compute. repeat split; try reflexivity; try lia.
    + intros [|j] Hj; [reflexivity|lia].
  - rewrite (Hdelete (start keyPairData)
               (sent (CvmDescribeKeyPairById "skey-17634f05")
                  (start keyPairData))
               boundKeyPair None).
    + vm_compute. reflexivity.
    + vm_compute. reflexivity.
    + discriminate.
  - apply (Hroute "rtb-6xwg3sfy" 7 (start vpnGatewayData)).
    intros tr. exists unbindDenied. split; reflexivity.
  - apply (Hkey "skey-17634f05" ["ins-2qol3a80"] (start keyPairData)
             unbindDenied unbindDenied); reflexivity.
Defined.

(** Claim C5 as stated fails for the key pair: an error of
    [UnbindKeyPair] with a code that [retryError] does not take for a
    transient one is classified as non-retryable, and the delete returns
    it after a single attempt although two more were allowed. *)
Lemma key_pair_unbind_error_not_retried :
  keyPairUnbindClassify (sampleEnv unbindDeniedRemote 2) (Some unbindDenied)
  = Some (NonRetryableError unbindDenied)
  /\ fst (resourceTencentCloudKeyPairDelete (sampleEnv unbindDeniedRemote 2)
            (start keyPairData))
     = Ok (Some unbindDenied)
  /\ st_trace (snd (resourceTencentCloudKeyPairDelete
                      (sampleEnv unbindDeniedRemote 2) (start keyPairData)))
     = [ev (CvmDescribeKeyPairById "skey-17634f05");
        ev (CvmUnbindKeyPair "skey-17634f05" ["ins-2qol3a80"])].
Proof. vm_compute. repeat split; reflexivity. Qed.

(** ** Computations that leave a part of the state alone *)

Create HintDb keeps.

Section Preserves.

Context {X : Type} (f : State -> X).

Lemma preserves_ret {A : Type} (a : A) : preserves f (ret a).
Proof. intros st. reflexivity. Qed.

Lemma preserves_panic {A : Type} : preserves f (@panic A).
Proof. intros st. reflexivity. Qed.

Lemma preserves_bind {A B : Type} (m : M A) (k : A -> M B) :
  preserves f m -> (forall a, preserves f (k a)) -> preserves f (bind m k).
Proof.
  intros Hm Hk st. unfold bind. specialize (Hm st).
  destruct (m st) as [[a|] st1]; cbn in *; [|assumption].
  rewrite Hk. assumption.
Qed.

Lemma preserves_deref {A : Type} (p : option A) : preserves f (deref p).
Proof. destruct p; intros st; reflexivity. Qed.

Lemma preserves_typeAssert {A : Type} (p : option A) :
  preserves f (typeAssert p).
Proof. destruct p; intros st; reflexivity. Qed.

Lemma preserves_Get k : preserves f (Get k).
Proof. intros st. reflexivity. Qed.

Lemma preserves_getZoneMap : preserves f getZoneMap.
Proof. intros st. reflexivity. Qed.

Lemma preserves_liftResult {A : Type} (r : result A) :
  preserves f (liftResult r).
Proof. intros st. reflexivity. Qed.

Lemma preserves_retryLoop {L : Type} (g : L -> M (L * option RetryError)) :
  (forall l, preserves f (g l)) ->
  forall n l, preserves f (retryLoop n g l).
Proof.
  intros Hg. induction n as [|n IH]; intros l st; rewrite retryLoop_step;
    specialize (Hg l st);
    destruct (g l st) as [[[l' [[e|e]|]]|] st1]; cbn in *; try assumption.
  rewrite IH. assumption.
Qed.

Lemma preserves_Retry (E : Env) {L : Type} timeout
  (g : L -> M (L * option RetryError)) l :
  (forall l, preserves f (g l)) -> preserves f (Retry E timeout g l).
Proof. intros Hg st. unfold Retry. apply preserves_retryLoop. exact Hg. Qed.

End Preserves.

#[local] Hint Resolve preserves_ret preserves_panic preserves_deref
  preserves_typeAssert preserves_Get preserves_getZoneMap
  preserves_liftResult : keeps.

Ltac keeps :=
  repeat first
    [ solve [auto with keeps]
    | apply preserves_bind
    | match goal with
      | |- forall _, _ => intro
      | |- preserves _ (match ?x with _ => _ end) => destruct x
      | |- preserves _ (let '(_, _) := ?x in _) => destruct x
      end ].

Lemma preserves_GetString {X : Type} (f : State -> X) k :
  preserves f (GetString k).
Proof. unfold GetString, asString. keeps. Qed.

Lemma preserves_GetInt {X : Type} (f : State -> X) k : preserves f (GetInt k).
Proof. unfold GetInt, asInt. keeps. Qed.

Lemma preserves_GetList {X : Type} (f : State -> X) k :
  preserves f (GetList k).
Proof. unfold GetList, asList. keeps. Qed.

Lemma preserves_GetMap {X : Type} (f : State -> X) k : preserves f (GetMap k).
Proof. unfold GetMap, asMap. keeps. Qed.

#[local] Hint Resolve preserves_GetString preserves_GetInt preserves_GetList
  preserves_GetMap : keeps.

(** A request leaves the resource data alone. *)
Lemma keepsData_api (E : Env) {R : Type} (c : call R) : keepsData (api E c).
Proof. intros st. reflexivity. Qed.

#[local] Hint Resolve keepsData_api : keeps.

(** ** Redis instance: create *)

Section RedisCreate.

Variable E : Env.

Lemma keepsData_describeAgain request r : keepsData (describeAgain E request r).
Proof. unfold describeAgain. keeps. Qed.

Lemma keepsData_CheckRedisCreateOk redisId :
  keepsData (CheckRedisCreateOk E redisId).
Proof.
  unfold CheckRedisCreateOk.
  repeat (apply preserves_bind;
          [first [apply keepsData_api | apply keepsData_describeAgain]|intros]).
  keeps.
  all: try (destruct (_ =? _)%Z; keeps).
  all: try (destruct (_ || _); keeps).
Qed.

Lemma keepsData_redisCreateCallback dealId u :
  keepsData (redisCreateCallback E dealId u).
Proof.
  unfold redisCreateCallback. apply preserves_bind;
    [apply keepsData_CheckRedisCreateOk|keeps].
Qed.

Lemma keepsData_redisCreatePoll dealId : keepsData (redisCreatePoll E dealId).
Proof.
  unfold redisCreatePoll. apply preserves_bind.
  - apply preserves_Retry. apply keepsData_redisCreateCallback.
  - keeps.
Qed.

Lemma keepsData_redisCreateRequest : keepsData (redisCreateRequest E).
Proof.
  unfold redisCreateRequest.
  repeat (apply preserves_bind; [solve [auto with keeps]|intros]).
  destruct (_ && _); keeps.
  all: try (destruct (_ =? _)%string; keeps).
Qed.

(** The instance counts as created for an answer without error that
    has the instance and has it online, and for no other answer. *)
Lemma redisCreateClassify_success r :
  redisCreateClassify r = None
  <-> ok_errRet r = None /\ ok_has r = true /\ ok_online r = true.
Proof.
  unfold redisCreateClassify.
  destruct (ok_errRet r), (ok_has r), (ok_online r); cbn;
    split; try discriminate; try tauto; intros (? & ? & ?); discriminate.
Qed.

(** An answer [online] of the check is an instance in the status ONLINE. *)
Lemma CheckRedisCreateOk_online redisId st r st' :
  CheckRedisCreateOk E redisId st = (Ok r, st') ->
  ok_online r = true ->
  exists info,
    ok_info r = Some info /\ Status info = Some (REDIS_STATUS_ONLINE E)
    /\ ok_has r = true /\ ok_errRet r = None.
Proof.
  unfold CheckRedisCreateOk. unfold bind.
  destruct (api E _ st) as [[r0|] s0]; [|discriminate].
  destruct (describeAgain E _ r0 s0) as [[r1|] s1]; [|discriminate].
  destruct (describeAgain E _ r1 s1) as [[r2|] s2]; [|discriminate].
  destruct (describeAgain E _ r2 s2) as [[[response err]|] s3]; [|discriminate].
  destruct err as [e|]; [intros [= <- <-]; discriminate|].
  destruct (RespInstanceSet response) as [|info [|info' rest]].
  - intros [= <- <-]; discriminate.
  - unfold deref. destruct (Status info) as [status|] eqn:Hs; [|discriminate].
    unfold ret. destruct (Z.eqb_spec status (REDIS_STATUS_ONLINE E)).
    + intros [= <- <-] _. subst. eauto.
    + destruct (_ || _); intros [= <- <-]; discriminate.
  - intros [= <- <-]; discriminate.
Qed.

(** The poll ends with success only when its last check has found the
    instance online. *)
Lemma redisCreatePoll_success dealId st st' :
  redisCreatePoll E dealId st = (Ok None, st') ->
  exists st0 r info,
    CheckRedisCreateOk E dealId st0 = (Ok r, st')
    /\ ok_errRet r = None /\ ok_has r = true /\ ok_online r = true
    /\ ok_info r = Some info /\ Status info = Some (REDIS_STATUS_ONLINE E).
Proof.
  unfold redisCreatePoll, Retry. unfold bind at 1.
  destruct (retryLoop_last (fun _ => True) (redisCreateCallback E dealId)
              (fun _ _ _ => I)
              (polls E (st_trace st) (20 * readRetryTimeout E)) tt st I)
    as ([] & st0 & _ & Hlast).
  unfold redisCreateCallback at 1, bind at 1 in Hlast.
  destruct (CheckRedisCreateOk E dealId st0) as [[r|] st1] eqn:Hcheck.
  - cbn beta iota in Hlast. rewrite Hlast. cbn beta iota. unfold ret.
    intros [= Hr <-].
    assert (Hnone : redisCreateClassify r = None)
      by (destruct (redisCreateClassify r) as [[]|]; cbn in Hr; congruence).
    apply redisCreateClassify_success in Hnone as (He & Hh & Ho).
    destruct (CheckRedisCreateOk_online _ _ _ _ Hcheck Ho)
      as (info & Hi & Hs & _).
    exists st0, r, info. repeat split; assumption.
  - rewrite Hlast. discriminate.
Qed.

(** While every check finds the instance still in creation, the poll
    uses up its duration and returns the error of the last attempt. *)
Lemma retryLoop_always_retryable {L : Type}
  (f : L -> M (L * option RetryError)) e :
  (forall l s, exists l' s', f l s = (Ok (l', Some (RetryableError e)), s')) ->
  forall n l st, exists l' s', retryLoop n f l st = (Ok (l', Some e), s').
Proof.
  intros Hf. induction n as [|n IH]; intros l st; rewrite retryLoop_step;
    destruct (Hf l st) as (l' & s' & ->); eauto.
Qed.

Lemma redisCreatePoll_timeout dealId st :
  (forall s, exists r s',
      CheckRedisCreateOk E dealId s = (Ok r, s')
      /\ ok_errRet r = None /\ ok_has r = true /\ ok_online r = false) ->
  fst (redisCreatePoll E dealId st)
  = Ok (Some (LocalError "create redis task is processing")).
Proof.
  intros Hproc. unfold redisCreatePoll, Retry. unfold bind at 1.
  destruct (retryLoop_always_retryable (redisCreateCallback E dealId)
              (LocalError "create redis task is processing"))
    with (n := polls E (st_trace st) (20 * readRetryTimeout E)) (l := tt)
         (st := st) as (l' & s' & ->).
  { intros [] s. destruct (Hproc s) as (r & s1 & Hc & He & Hh & Ho).
    exists tt, s1. unfold redisCreateCallback, bind. rewrite Hc.
    unfold redisCreateClassify. rewrite He, Hh, Ho. reflexivity. }
  reflexivity.
Qed.

Lemma redis_create_run st :
  resourceTencentCloudRedisInstanceCreate E st
  = (let* tags := GetMap "tags" in
     let* (dealId, err) := redisCreateRequest E in
     match err with
     | Some _ => ret err
     | None =>
         orReturn (redisCreatePoll E dealId)
           (let* _ := SetId dealId in
            orReturn
              (if Nat.ltb 0 (size tags) then
                 api E (TagModifyTags
                          (BuildTagResourceName E "redis" "instance" (Region E)
                             dealId) tags [])
               else ret None)
              (resourceTencentCloudRedisInstanceRead E))
     end)
      (mkState (st_trace st) (st_d st) ∅).
Proof. reflexivity. Qed.

(** An error of the poll is what [Create] returns, and the id of the
    resource is as before. *)
Lemma redis_create_poll_error st tags dealId st1 st2 e :
  mapOf (attr (st_d st) "tags") = Some tags ->
  redisCreateRequest E (mkState (st_trace st) (st_d st) ∅)
  = (Ok (dealId, None), st1) ->
  redisCreatePoll E dealId st1 = (Ok (Some e), st2) ->
  resourceTencentCloudRedisInstanceCreate E st = (Ok (Some e), st2)
  /\ d_Id (st_d st2) = d_Id (st_d st).
Proof.
  intros Htags Hreq Hpoll. split.
  - rewrite redis_create_run. unfold bind at 1.
    unfold GetMap, Get, asMap, getD, bind, ret. cbn [st_d]. rewrite Htags.
    cbn [typeAssert ret]. rewrite Hreq. rewrite orReturn_run, Hpoll.
    reflexivity.
  - pose proof (keepsData_redisCreateRequest (mkState (st_trace st) (st_d st) ∅))
      as H1.
    pose proof (keepsData_redisCreatePoll dealId st1) as H2.
    rewrite Hreq in H1. rewrite Hpoll in H2. cbn in *. congruence.
Qed.

(** The id changes only after a poll that ended with success. *)
Lemma redis_create_id_after_poll st :
  d_Id (st_d (snd (resourceTencentCloudRedisInstanceCreate E st)))
  <> d_Id (st_d st) ->
  exists dealId st1 st2,
    redisCreateRequest E (mkState (st_trace st) (st_d st) ∅)
    = (Ok (dealId, None), st1)
    /\ redisCreatePoll E dealId st1 = (Ok None, st2).
Proof.
  assert (Hsame : forall s : State,
             st_d s = st_d st ->
             d_Id (st_d s) <> d_Id (st_d st) ->
             exists dealId st1 st2,
               redisCreateRequest E (mkState (st_trace st) (st_d st) ∅)
               = (Ok (dealId, None), st1)
               /\ redisCreatePoll E dealId st1 = (Ok None, st2)).
  { intros s Hs Hne. exfalso. apply Hne. rewrite Hs. reflexivity. }
  rewrite redis_create_run. unfold bind at 1.
  pose proof (preserves_GetMap st_d "tags"
                (mkState (st_trace st) (st_d st) ∅))
    as Htags.
  destruct (GetMap "tags" _) as [[tags|] s0] eqn:Hget; cbn in Htags;
    [|apply Hsame; assumption].
  assert (s0 = mkState (st_trace st) (st_d st) ∅) as ->.
  { revert Hget. unfold GetMap, Get, asMap, getD, bind, ret. cbn.
    destruct (mapOf _); cbn; [intros [= _ <-]; reflexivity|discriminate]. }
  unfold bind at 1.
  pose proof (keepsData_redisCreateRequest (mkState (st_trace st) (st_d st) ∅))
    as Hreq.
  destruct (redisCreateRequest E _) as [[[dealId err]|] st1] eqn:Hrun;
    cbn in Hreq; [|apply Hsame; assumption].
  destruct err as [e|]; [apply Hsame; assumption|].
  rewrite orReturn_run.
  pose proof (keepsData_redisCreatePoll dealId st1) as Hpoll.
  destruct (redisCreatePoll E dealId st1) as [[[e|]|] st2] eqn:Hp;
    cbn in Hpoll;
    [apply Hsame; cbn in *; congruence| |apply Hsame; cbn in *; congruence].
  intros _. eauto.
Qed.

(** One attempt of the poll of [Create]: the check, and what the
    classification of its answer leads to. *)
Lemma redisCreateLoop_step n dealId st :
  pollError (retryLoop n (redisCreateCallback E dealId) tt) st
  = match CheckRedisCreateOk E dealId st with
    | (Ok r, st1) =>
        match redisCreateClassify r with
        | None => (Ok None, st1)
        | Some (NonRetryableError e) => (Ok (Some e), st1)
        | Some (RetryableError e) =>
            match n with
            | O => (Ok (Some e), st1)
            | S n' =>
                pollError (retryLoop n' (redisCreateCallback E dealId) tt) st1
            end
        end
    | (Panic, st1) => (Panic, st1)
    end.
Proof.
  unfold pollError at 1, bind at 1. rewrite retryLoop_step.
  unfold redisCreateCallback at 1, bind at 1.
  destruct (CheckRedisCreateOk E dealId st) as [[r|] st1]; [|reflexivity].
  unfold ret at 1. destruct (redisCreateClassify r) as [[e|e]|];
    try reflexivity.
  destruct n; reflexivity.
Qed.

Lemma redisCreatePoll_loop dealId st :
  redisCreatePoll E dealId st
  = pollError
      (retryLoop (polls E (st_trace st) (20 * readRetryTimeout E))
         (redisCreateCallback E dealId) tt) st.
Proof. unfold redisCreatePoll. rewrite pollError_run. reflexivity. Qed.

(** The check of an instance whose description comes back at the
    first request, without error or with an error of the SDK. *)
Lemma CheckRedisCreateOk_answer redisId st response :
  remote E (st_trace st) _
    (RedisDescribeInstances
       (mkDescribeInstancesRequest None None (Some redisId) None []))
  = (response, None) ->
  CheckRedisCreateOk E redisId st
  = (match RespInstanceSet response with
     | [] => Ok (mkCreateOk false false None None)
     | [info] =>
         match Status info with
         | None => Panic
         | Some status =>
             Ok (if Z.eqb status (REDIS_STATUS_ONLINE E)
                 then mkCreateOk true true (Some info) None
                 else if Z.eqb status (REDIS_STATUS_INIT E)
                         || Z.eqb status (REDIS_STATUS_PROCESSING E)
                 then mkCreateOk true false (Some info) None
                 else mkCreateOk true false (Some info)
                        (Some (LocalError
                                 ("redis instance delivery failure, status is "
                                  +:+ fmt_d status))))
         end
     | set =>
         Ok (mkCreateOk false false None
               (Some (LocalError
                        ("redis DescribeInstances one id get "
                         +:+ fmt_d (Z.of_nat (length set))
                         +:+ " redis info"))))
     end,
     sent (RedisDescribeInstances
             (mkDescribeInstancesRequest None None (Some redisId) None []))
       st).
Proof.
  intros Hr. unfold CheckRedisCreateOk, describeAgain, bind, api, ret.
  cbn. rewrite Hr. cbn.
  destruct (RespInstanceSet response) as [|info [|info' rest]];
    try reflexivity.
  unfold deref, ret, panic. destruct (Status info) as [status|]; [|reflexivity].
  destruct (Z.eqb status (REDIS_STATUS_ONLINE E)); [reflexivity|].
  destruct (_ || _); reflexivity.
Qed.

Lemma CheckRedisCreateOk_sdk_error redisId st response code message requestId :
  remote E (st_trace st) _
    (RedisDescribeInstances
       (mkDescribeInstancesRequest None None (Some redisId) None []))
  = (response, Some (SDKError code message requestId)) ->
  CheckRedisCreateOk E redisId st
  = (Ok (mkCreateOk false false None
           (Some (SDKError code message requestId))),
     sent (RedisDescribeInstances
             (mkDescribeInstancesRequest None None (Some redisId) None []))
       st).
Proof.
  intros Hr. unfold CheckRedisCreateOk, describeAgain, bind, api, ret.
  cbn. rewrite Hr. reflexivity.
Qed.

(** [Create]: the request, the poll, and after a poll that succeeded
    the id, the tags and [Read]. *)
Lemma redis_create_steps st tags :
  mapOf (attr (st_d st) "tags") = Some tags ->
  resourceTencentCloudRedisInstanceCreate E st
  = match redisCreateRequest E (mkState (st_trace st) (st_d st) ∅) with
    | (Ok (dealId, None), st1) =>
        match redisCreatePoll E dealId st1 with
        | (Ok None, st2) =>
            (do* SetId dealId in
             try* (if Nat.ltb 0 (size tags) then
                     api E (TagModifyTags
                              (BuildTagResourceName E "redis" "instance"
                                 (Region E) dealId) tags [])
                   else ret None) in
             resourceTencentCloudRedisInstanceRead E) st2
        | r => r
        end
    | (Ok (_, Some e), st1) => (Ok (Some e), st1)
    | (Panic, st1) => (Panic, st1)
    end.
Proof.
  intros Htags. rewrite redis_create_run. unfold bind at 1.
  unfold GetMap, Get, asMap, getD, bind at 1, bind at 1, ret at 1.
  cbn [st_d]. rewrite Htags. cbn [typeAssert]. unfold ret at 1.
  unfold bind at 1.
  destruct (redisCreateRequest E _) as [[[dealId [e|]]|] st1];
    try reflexivity.
  rewrite orReturn_run.
  destruct (redisCreatePoll E dealId st1) as [[[e|]|] st2]; reflexivity.
Qed.

(** When the tags cannot be set after the poll, [Create] returns that
    error, and the id of the new instance is in the resource data. *)
Lemma redis_create_tag_error st tags dealId st1 st2 e :
  mapOf (attr (st_d st) "tags") = Some tags ->
  redisCreateRequest E (mkState (st_trace st) (st_d st) ∅)
  = (Ok (dealId, None), st1) ->
  redisCreatePoll E dealId st1 = (Ok None, st2) ->
  size tags <> O ->
  remote E (st_trace st2) _
    (TagModifyTags (BuildTagResourceName E "redis" "instance" (Region E) dealId)
       tags [])
  = Some e ->
  fst (resourceTencentCloudRedisInstanceCreate E st) = Ok (Some e)
  /\ d_Id (st_d (snd (resourceTencentCloudRedisInstanceCreate E st))) = dealId.
Proof.
  intros Htags Hreq Hpoll Hsize Hremote.
  rewrite (redis_create_steps st tags Htags), Hreq, Hpoll.
  destruct (size tags) as [|n]; [contradiction|]. cbn [Nat.ltb Nat.leb].
  unfold orReturn, bind, SetId, getD, putD, api, ret.
  cbn -[resourceTencentCloudRedisInstanceRead]. rewrite Hremote.
  split; reflexivity.
Qed.

End RedisCreate.

(** Claim C6. [Create] of a Redis instance sends the create request and
    polls with [CheckRedisCreateOk]: every attempt runs the check; an
    answer that has the instance online ends the poll with success, an
    answer with an error or without the instance ends it with an error,
    and an instance in creation leads to another attempt while attempts
    are left, else to an error. [Create] sets the id after a poll that
    succeeded, and only then; on an error of the request or of the poll
    it returns that error and leaves the id of the resource as it was. *)
Theorem redis_create_commits_after_online (E : Env) :
  (forall r,
     redisCreateClassify r = None
     <-> ok_errRet r = None /\ ok_has r = true /\ ok_online r = true)
  /\ (forall r e,
        ok_errRet r = Some e ->
        redisCreateClassify r = Some (NonRetryableError e))
  /\ (forall r,
        ok_errRet r = None -> ok_has r = false ->
        redisCreateClassify r
        = Some (NonRetryableError (LocalError "redis instance not exists.")))
  /\ (forall r,
        ok_errRet r = None -> ok_has r = true -> ok_online r = false ->
        redisCreateClassify r
        = Some (RetryableError (LocalError "create redis task is processing")))
  /\ (forall redisId st response,
        remote E (st_trace st) _
          (RedisDescribeInstances
             (mkDescribeInstancesRequest None None (Some redisId) None []))
        = (response, None) ->
        CheckRedisCreateOk E redisId st
        = (match RespInstanceSet response with
           | [] => Ok (mkCreateOk false false None None)
           | [info] =>
               match Status info with
               | None => Panic
               | Some status =>
                   Ok (if Z.eqb status (REDIS_STATUS_ONLINE E)
                       then mkCreateOk true true (Some info) None
                       else if Z.eqb status (REDIS_STATUS_INIT E)
                               || Z.eqb status (REDIS_STATUS_PROCESSING E)
                       then mkCreateOk true false (Some info) None
                       else mkCreateOk true false (Some info)
                              (Some (LocalError
                                       ("redis instance delivery failure, status is "
                                        +:+ fmt_d status))))
               end
           | set =>
               Ok (mkCreateOk false false None
                     (Some (LocalError
                              ("redis DescribeInstances one id get "
                               +:+ fmt_d (Z.of_nat (length set))
                               +:+ " redis info"))))
           end,
           sent (RedisDescribeInstances
                   (mkDescribeInstancesRequest None None (Some redisId) None
                      []))
             st))
  /\ (forall redisId st response code message requestId,
        remote E (st_trace st) _
          (RedisDescribeInstances
             (mkDescribeInstancesRequest None None (Some redisId) None []))
        = (response, Some (SDKError code message requestId)) ->
        CheckRedisCreateOk E redisId st
        = (Ok (mkCreateOk false false None
                 (Some (SDKError code message requestId))),
           sent (RedisDescribeInstances
                   (mkDescribeInstancesRequest None None (Some redisId) None
                      []))
             st))
  /\ (forall dealId st,
        redisCreatePoll E dealId st
        = pollError
            (retryLoop (polls E (st_trace st) (20 * readRetryTimeout E))
               (redisCreateCallback E dealId) tt) st)
  /\ (forall n dealId st,
        pollError (retryLoop n (redisCreateCallback E dealId) tt) st
        = match CheckRedisCreateOk E dealId st with
          | (Ok r, st1) =>
              match redisCreateClassify r with
              | None => (Ok None, st1)
              | Some (NonRetryableError e) => (Ok (Some e), st1)
              | Some (RetryableError e) =>
                  match n with
                  | O => (Ok (Some e), st1)
                  | S n' =>
                      pollError
                        (retryLoop n' (redisCreateCallback E dealId) tt) st1
                  end
              end
          | (Panic, st1) => (Panic, st1)
          end)
  /\ (forall st tags,
        mapOf (attr (st_d st) "tags") = Some tags ->
        resourceTencentCloudRedisInstanceCreate E st
        = match redisCreateRequest E (mkState (st_trace st) (st_d st) ∅) with
          | (Ok (dealId, None), st1) =>
              match redisCreatePoll E dealId st1 with
              | (Ok None, st2) =>
                  (do* SetId dealId in
                   try* (if Nat.ltb 0 (size tags) then
                           api E (TagModifyTags
                                    (BuildTagResourceName E "redis" "instance"
                                       (Region E) dealId) tags [])
                         else ret None) in
                   resourceTencentCloudRedisInstanceRead E) st2
              | r => r
              end
          | (Ok (_, Some e), st1) => (Ok (Some e), st1)
          | (Panic, st1) => (Panic, st1)
          end)
  /\ (forall st tags dealId st1 st2 e,
        mapOf (attr (st_d st) "tags") = Some tags ->
        redisCreateRequest E (mkState (st_trace st) (st_d st) ∅)
        = (Ok (dealId, None), st1) ->
        redisCreatePoll E dealId st1 = (Ok None, st2) ->
        size tags <> O ->
        remote E (st_trace st2) _
          (TagModifyTags
             (BuildTagResourceName E "redis" "instance" (Region E) dealId)
             tags [])
        = Some e ->
        fst (resourceTencentCloudRedisInstanceCreate E st) = Ok (Some e)
        /\ d_Id (st_d (snd (resourceTencentCloudRedisInstanceCreate E st)))
           = dealId)
  /\ (forall dealId st,
        (forall s, exists r s',
            CheckRedisCreateOk E dealId s = (Ok r, s')
            /\ ok_errRet r = None /\ ok_has r = true /\ ok_online r = false) ->
        fst (redisCreatePoll E dealId st)
        = Ok (Some (LocalError "create redis task is processing")))
  /\ (forall st tags dealId st1 st2 e,
        mapOf (attr (st_d st) "tags") = Some tags ->
        redisCreateRequest E (mkState (st_trace st) (st_d st) ∅)
        = (Ok (dealId, None), st1) ->
        redisCreatePoll E dealId st1 = (Ok (Some e), st2) ->
        resourceTencentCloudRedisInstanceCreate E st = (Ok (Some e), st2)
        /\ d_Id (st_d st2) = d_Id (st_d st))
  /\ (forall st,
        d_Id (st_d (snd (resourceTencentCloudRedisInstanceCreate E st)))
        <> d_Id (st_d st) ->
        exists dealId st1 st2 st0 r info,
          redisCreateRequest E (mkState (st_trace st) (st_d st) ∅)
          = (Ok (dealId, None), st1)
          /\ redisCreatePoll E dealId st1 = (Ok None, st2)
          /\ CheckRedisCreateOk E dealId st0 = (Ok r, st2)
          /\ ok_errRet r = None /\ ok_has r = true /\ ok_online r = true
          /\ ok_info r = Some info
          /\ Status info = Some (REDIS_STATUS_ONLINE E)).
Proof.
  split; [apply redisCreateClassify_success|].
  split.
  { intros r e He. unfold redisCreateClassify. rewrite He. reflexivity. }
  split.
  { intros r He Hh. unfold redisCreateClassify. rewrite He, Hh. reflexivity. }
  split.
  { intros r He Hh Ho. unfold redisCreateClassify. rewrite He, Hh, Ho.
    reflexivity. }
  split; [apply CheckRedisCreateOk_answer|].
  split; [apply CheckRedisCreateOk_sdk_error|].
  split; [apply redisCreatePoll_loop|].
  split; [intros n dealId st; apply redisCreateLoop_step|].
  split; [apply redis_create_steps|].
  split; [apply redis_create_tag_error|].
  split; [apply redisCreatePoll_timeout|].
  split; [apply redis_create_poll_error|].
  intros st Hid.
  destruct (redis_create_id_after_poll E st Hid)
    as (dealId & st1 & st2 & Hreq & Hpoll).
  destruct (redisCreatePoll_success E dealId st1 st2 Hpoll)
    as (st0 & r & info & H).
  exists dealId, st1, st2, st0, r, info. tauto.
Qed.

(** An instance that is in creation at the first check and online at
    the second: [Create] checks twice, sets the id and reads the
    instance. An instance that stays in creation: [Create] returns the
    error of the poll and sets no id. *)
Lemma redis_create_commits_after_online_witness :
  let E := sampleEnv onlineAtSecondRemote 2 in
  let describe :=
    ev (RedisDescribeInstances
          (mkDescribeInstancesRequest None None (Some "crs-sample") None [])) in
  (fst (resourceTencentCloudRedisInstanceCreate E (start redisToCreate))
   = Ok None
   /\ d_Id (st_d (snd (resourceTencentCloudRedisInstanceCreate E
                         (start redisToCreate))))
      = "crs-sample"
   /\ st_trace (snd (resourceTencentCloudRedisInstanceCreate E
                       (start redisToCreate)))
      = [ev (RedisCreateInstances "ap-guangzhou-3" "master_slave_redis"
               "test12345789" "" "" "terrform_test" 8192 0 6379 []);
         describe; describe; describe; ev CvmDescribeZones;
         ev (RedisDescribeInstanceSecurityGroup "crs-sample")])
  /\ fst (resourceTencentCloudRedisInstanceCreate (sampleEnv processingRemote 2)
            (start redisToCreate))
     = Ok (Some (LocalError "create redis task is processing"))
  /\ d_Id (st_d (snd (resourceTencentCloudRedisInstanceCreate
                        (sampleEnv processingRemote 2) (start redisToCreate))))
     = "".
Proof.
  intros E describe. split.
  - destruct (redis_create_commits_after_online E)
      as (_ & _ & _ & _ & _ & _ & _ & _ & Hsteps & _).
    rewrite (Hsteps (start redisToCreate) ∅ eq_refl).
    vm_compute. repeat split; reflexivity.
  - destruct (redis_create_commits_after_online (sampleEnv processingRemote 2))
      as (_ & _ & _ & _ & _ & _ & _ & _ & _ & _ & _ & Herr & _).
    destruct (Herr (start redisToCreate) ∅ "crs-sample"
                (snd (redisCreateRequest (sampleEnv processingRemote 2)
                        (start redisToCreate)))
                (snd (redisCreatePoll (sampleEnv processingRemote 2)
                        "crs-sample"
                        (snd (redisCreateRequest (sampleEnv processingRemote 2)
                                (start redisToCreate)))))
                (LocalError "create redis task is processing"))
      as [Hrun Hid].
    + vm_compute; reflexivity.
    + vm_compute; reflexivity.
    + vm_compute; reflexivity.
    + rewrite Hrun. split; [reflexivity|]. exact Hid.
Defined.

(** ** Redis service: the zone cache *)

Section RedisZones.

Variable E : Env.

Lemma redisRequests_sent {R : Type} (c : call R) st :
  redisRequests (sent c st)
  = redisRequests st ++ option_list (describeRequestOf (ev c)).
Proof.
  unfold redisRequests, sent. cbn [st_trace]. rewrite omap_app. cbn.
  destruct (describeRequestOf (ev c)); reflexivity.
Qed.

Lemma keepsRequests_api {R : Type} (c : call R) :
  describeRequestOf (ev c) = None -> preserves redisRequests (api E c).
Proof.
  intros Hc st. unfold api. cbn [snd].
  change (mkState _ _ _) with (sent c st).
  rewrite redisRequests_sent, Hc. apply app_nil_r.
Qed.

Lemma keepsRequests_putZoneMap m : preserves redisRequests (putZoneMap m).
Proof. intros st. reflexivity. Qed.

Lemma keepsRequests_fillZoneMap zoneSet :
  preserves redisRequests (fillZoneMap zoneSet).
Proof.
  induction zoneSet as [|item rest IH]; cbn [fillZoneMap]; [keeps|].
  apply preserves_bind; [keeps|]. intros zoneIdText.
  destruct (ParseInt zoneIdText); [|keeps].
  apply preserves_bind; [keeps|]. intros zone.
  apply preserves_bind; [keeps|]. intros m.
  apply preserves_bind; [apply keepsRequests_putZoneMap|]. intros _. exact IH.
Qed.

Lemma keepsRequests_fullZoneId : preserves redisRequests (fullZoneId E).
Proof.
  unfold fullZoneId. apply preserves_bind; [keeps|]. intros m.
  destruct (negb _); [keeps|].
  apply preserves_bind; [apply keepsRequests_api; reflexivity|].
  intros [zoneSet [e|]]; [keeps|]. apply keepsRequests_fillZoneMap.
Qed.

Lemma keepsRequests_getZoneId name : preserves redisRequests (getZoneId E name).
Proof.
  unfold getZoneId. apply preserves_bind; [apply keepsRequests_fullZoneId|].
  intros [e|]; [keeps|]. apply preserves_bind; [keeps|]. intros m.
  destruct (List.find _ _); keeps.
Qed.

Lemma keepsRequests_getZoneName id :
  preserves redisRequests (getZoneName E id).
Proof.
  unfold getZoneName. apply preserves_bind; [apply keepsRequests_fullZoneId|].
  intros [e|]; [keeps|]. apply preserves_bind; [keeps|]. intros m.
  destruct (String.eqb _ _); keeps.
Qed.

(** A cache that holds a zone is not filled again. *)
Lemma fullZoneId_filled st id name :
  st_zoneMap st !! id = Some name -> fullZoneId E st = (Ok None, st).
Proof.
  intros Hm. unfold fullZoneId, bind, getZoneMap, ret.
  assert (Hsize : size (st_zoneMap st) <> O).
  { intros H0%map_size_empty_iff. rewrite H0, lookup_empty in Hm.
    discriminate. }
  destruct (size (st_zoneMap st)); [contradiction|reflexivity].
Qed.

Lemma getZoneName_cached st id name :
  st_zoneMap st !! id = Some name -> name <> "" ->
  getZoneName E id st = (Ok (name, None), st).
Proof.
  intros Hm Hne. unfold getZoneName. unfold bind at 1.
  rewrite (fullZoneId_filled st id name Hm).
  unfold bind, getZoneMap, ret. rewrite Hm. cbn.
  destruct (String.eqb_spec name ""); [contradiction|reflexivity].
Qed.

(** The zone id that [getZoneId] finds is in the cache under the name
    that was looked up. *)
Lemma getZoneId_found name st id st' :
  (forall l, range_order E l ≡ₚ l) ->
  getZoneId E name st = (Ok (id, None), st') ->
  st_zoneMap st' !! id = Some name.
Proof.
  intros Hperm. unfold getZoneId. unfold bind at 1.
  destruct (fullZoneId E st) as [[[e|]|] st1]; try discriminate.
  unfold bind, getZoneMap, ret.
  destruct (List.find _ _) as [[k v]|] eqn:Hfind; [|discriminate].
  intros [= <- <-].
  apply find_some in Hfind as [Hin Hname].
  apply String.eqb_eq in Hname. cbn in Hname. subst v.
  apply list_elem_of_In in Hin. rewrite (Hperm _) in Hin.
  apply elem_of_map_to_list in Hin. exact Hin.
Qed.

End RedisZones.

(** ** Redis service: the instances of a page *)

Section RedisItems.

Variable E : Env.

Lemma keepsRequests_item zoneId item :
  preserves redisRequests (describeInstancesItem E zoneId item).
Proof.
  unfold describeInstancesItem.
  apply preserves_bind; [destruct (Z.eqb _ _); keeps|]. intros [|]; [keeps|].
  apply preserves_bind; [keeps|]; intros ?.
  apply preserves_bind; [keeps|]; intros ?.
  apply preserves_bind; [keeps|]; intros ?.
  apply preserves_bind; [apply keepsRequests_getZoneName|].
  intros [name [e|]]; [keeps|].
  repeat (apply preserves_bind; [solve [keeps]|]; intros ?).
  destruct (redisDetailTags _ _); keeps.
Qed.

Lemma keepsRequests_items zoneId needLimit items instances :
  preserves redisRequests
    (describeInstancesItems E zoneId needLimit items instances).
Proof.
  revert instances. induction items as [|item rest IH]; intros instances;
    cbn [describeInstancesItems]; [keeps|].
  apply preserves_bind; [apply keepsRequests_item|].
  intros [| | |instance]; keeps.
Qed.

(** With a zone filter whose zone is in the cache, an instance gets
    through only with the name of that zone, and the state stays as it
    is. *)
Lemma describeInstancesItem_zone zoneId zoneName item st out st' :
  zoneId <> -1 ->
  st_zoneMap st !! zoneId = Some zoneName ->
  zoneName <> "" ->
  describeInstancesItem E zoneId item st = (out, st') ->
  st' = st
  /\ forall instance, out = Ok (ItemDetail instance) ->
                      rd_Zone instance = zoneName.
Proof.
  intros Hid Hm Hne. unfold describeInstancesItem.
  destruct (Z.eqb_spec zoneId (-1)) as [|_]; [contradiction|].
  assert (Hend : forall (o : result itemOutcome),
             (forall i, o <> Ok (ItemDetail i)) ->
             (o, st) = (out, st') ->
             st' = st
             /\ forall instance, out = Ok (ItemDetail instance) ->
                                 rd_Zone instance = zoneName).
  { intros o Ho [= <- <-]. split; [reflexivity|]. intros i Hi.
    exfalso. exact (Ho i Hi). }
  unfold bind, deref, ret, panic.
  destruct (ZoneId item) as [z|]; [|apply Hend; discriminate].
  destruct (Z.eqb_spec z zoneId) as [->|_]; cbn [negb];
    [|apply Hend; discriminate].
  destruct (Type_ item) as [type|]; [|apply Hend; discriminate].
  destruct (Status item) as [status|]; [|apply Hend; discriminate].
  rewrite (getZoneName_cached E st zoneId zoneName Hm Hne).
  destruct (Createtime item); [|apply Hend; discriminate].
  destruct (WanIp item); [|apply Hend; discriminate].
  destruct (Size item); [|apply Hend; discriminate].
  destruct (InstanceName item); [|apply Hend; discriminate].
  destruct (Port item); [|apply Hend; discriminate].
  destruct (RedisProjectId item); [|apply Hend; discriminate].
  destruct (InstanceId item); [|apply Hend; discriminate].
  destruct (UniqSubnetId item); [|apply Hend; discriminate].
  destruct (UniqVpcId item); [|apply Hend; discriminate].
  destruct (redisDetailTags _ _); [|apply Hend; discriminate].
  intros [= <- <-]. split; [reflexivity|]. intros i [= <-]. reflexivity.
Qed.

(** The list returned from inside the loop, or handed to the next item,
    never goes beyond a positive limit. *)
Lemma describeInstancesItems_limit zoneId needLimit items :
  1 <= needLimit ->
  forall instances st r st',
    Z.of_nat (length instances) < needLimit ->
    describeInstancesItems E zoneId needLimit items instances st
    = (Ok r, st') ->
    match r with
    | inl instances' => Z.of_nat (length instances') < needLimit
    | inr (instances', _) => Z.of_nat (length instances') <= needLimit
    end.
Proof.
  intros Hlimit. induction items as [|item rest IH];
    intros instances st r st' Hlen; cbn [describeInstancesItems].
  - intros [= <- <-]. exact Hlen.
  - unfold bind at 1.
    destruct (describeInstancesItem E zoneId item st)
      as [[[| e | e |instance]|] st1]; try discriminate.
    + apply IH. exact Hlen.
    + intros [= <- <-]. lia.
    + intros [= <- <-]. cbn. lia.
    + destruct (_ && _) eqn:Htest.
      * intros [= <- <-]. rewrite length_app. cbn. lia.
      * apply IH. rewrite length_app in *. cbn in *.
        apply andb_false_iff in Htest as [Htest%Z.ltb_ge|Htest%Z.leb_gt]; lia.
Qed.

(** With the zone filter, every instance of the list has the name of
    the zone, and the zone cache is not touched. *)
Lemma describeInstancesItems_zone zoneId zoneName needLimit items :
  zoneId <> -1 -> zoneName <> "" ->
  forall instances st r st',
    st_zoneMap st !! zoneId = Some zoneName ->
    Forall (fun i => rd_Zone i = zoneName) instances ->
    describeInstancesItems E zoneId needLimit items instances st = (r, st') ->
    st' = st
    /\ match r with
       | Ok (inl instances') | Ok (inr (instances', _)) =>
           Forall (fun i => rd_Zone i = zoneName) instances'
       | Panic => True
       end.
Proof.
  intros Hid Hne. induction items as [|item rest IH];
    intros instances st r st' Hm Hall; cbn [describeInstancesItems].
  - intros [= <- <-]. auto.
  - unfold bind at 1.
    destruct (describeInstancesItem E zoneId item st) as [out st1] eqn:Hitem.
    destruct (describeInstancesItem_zone zoneId zoneName item st out st1
                Hid Hm Hne Hitem) as [-> Hzone].
    destruct out as [[| e | e |instance]|].
    + apply IH; assumption.
    + intros [= <- <-]. auto.
    + intros [= <- <-]. auto.
    + assert (Hall' : Forall (fun i => rd_Zone i = zoneName)
                        (instances ++ [instance])).
      { apply Forall_app. split; [assumption|].
        constructor; [|constructor]. apply Hzone. reflexivity. }
      destruct (_ && _).
      * intros [= <- <-]. auto.
      * apply IH; assumption.
    + intros [= <- <-]. auto.
Qed.

End RedisItems.

(** ** Redis service: the pages *)

Lemma wrap64_small z : - 2 ^ 63 <= z < 2 ^ 63 -> wrap64 z = z.
Proof. intros H. unfold wrap64. rewrite Z.mod_small; lia. Qed.

Lemma wrap64_range z : - 2 ^ 63 <= wrap64 z < 2 ^ 63.
Proof.
  unfold wrap64.
  pose proof (Z.mod_pos_bound (z + 2 ^ 63) (2 ^ 64) ltac:(lia)). lia.
Qed.

Lemma wrapU64_next i :
  wrapU64 (wrapU64 (redisPageLimit * Z.of_nat i) + redisPageLimit)
  = wrapU64 (redisPageLimit * Z.of_nat (S i)).
Proof.
  unfold wrapU64, redisPageLimit. rewrite Zplus_mod_idemp_l.
  f_equal. lia.
Qed.

Lemma pageRequests_S searchKey projectId m :
  pageRequests searchKey projectId (S m)
  = pageRequests searchKey projectId m
    ++ [describeInstancesRequest searchKey projectId
          (wrapU64 (redisPageLimit * Z.of_nat m))].
Proof. unfold pageRequests. rewrite seq_S, map_app. reflexivity. Qed.

Section RedisPages.

Variable E : Env.
Variables (zoneId needLimit : Z) (searchKey : string) (projectId : Z).

(** The list that leaves the loop of a page without error has reached
    the limit. *)
Lemma describeInstancesItems_exit items :
  forall instances st l st',
    describeInstancesItems E zoneId needLimit items instances st
    = (Ok (inr (l, None)), st') ->
    0 < needLimit <= Z.of_nat (length l).
Proof.
  induction items as [|item rest IH]; intros instances st l st';
    cbn [describeInstancesItems].
  - discriminate.
  - unfold bind at 1.
    destruct (describeInstancesItem E zoneId item st)
      as [[[| e | e |instance]|] st1]; try discriminate.
    + apply IH.
    + destruct (_ && _) eqn:Htest.
      * intros [= <- <-].
        apply andb_true_iff in Htest as [H1%Z.ltb_lt H2%Z.leb_le]. lia.
      * apply IH.
Qed.

(** One pass of the loop, by cases. *)
Lemma describeInstancesPage_run s st :
  describeInstancesPage E zoneId needLimit searchKey projectId s st
  = let c := RedisDescribeInstances
               (describeInstancesRequest searchKey projectId (pg_offset s)) in
    let response := fst (remote E (st_trace st) _ c) in
    match snd (remote E (st_trace st) _ c) with
    | Some e => (Ok (inr (pg_instances s, Some e)), sent c st)
    | None =>
        match (if pg_leftNumberInit s then Some (pg_leftNumber s)
               else TotalCount response) with
        | None => (Panic, sent c st)
        | Some leftNumber =>
            match describeInstancesItems E zoneId needLimit
                    (RespInstanceSet response) (pg_instances s) (sent c st)
            with
            | (Ok (inr x), st') => (Ok (inr x), st')
            | (Ok (inl instances), st') =>
                if (wrap64 (leftNumber - redisPageLimit) <? 0)%Z
                then (Ok (inr (instances, None)), st')
                else (Ok (inl (mkPageState
                                 (wrapU64 (pg_offset s + redisPageLimit))
                                 (wrap64 (leftNumber - redisPageLimit)) true
                                 instances)), st')
            | (Panic, st') => (Panic, st')
            end
        end
    end.
Proof.
  unfold describeInstancesPage. unfold bind at 1, api. cbn beta iota zeta.
  fold (sent (RedisDescribeInstances
                (describeInstancesRequest searchKey projectId (pg_offset s)))
          st).
  destruct (remote E (st_trace st) _ _) as [response [e|]]; [reflexivity|].
  cbn [fst snd]. unfold bind at 1.
  destruct (pg_leftNumberInit s); cbn [ret deref].
  - unfold ret at 1. unfold bind at 1.
    destruct (describeInstancesItems E _ _ _ _ _) as [[[instances|x]|] st'];
      try reflexivity.
    destruct (_ <? _)%Z; reflexivity.
  - unfold deref. destruct (TotalCount response); [|reflexivity].
    unfold ret at 1. unfold bind at 1.
    destruct (describeInstancesItems E _ _ _ _ _) as [[[instances|x]|] st'];
      try reflexivity.
    destruct (_ <? _)%Z; reflexivity.
Qed.

(** The rule of the loop: an invariant [I] of the variables and the
    state, indexed by the fuel that is left, gives [Q] of the result. *)
Lemma describeInstancesLoop_rule
  (I : nat -> pageState -> State -> Prop)
  (Q : result (option (list TencentCloudRedisDetail * error)) -> State -> Prop) :
  (forall fuel s st,
      I fuel s st ->
      match describeInstancesPage E zoneId needLimit searchKey projectId s st
      with
      | (Ok (inl s'), st') =>
          match fuel with
          | O => Q (Ok None) st'
          | S fuel' => I fuel' s' st'
          end
      | (Ok (inr x), st') => Q (Ok (Some x)) st'
      | (Panic, st') => Q Panic st'
      end) ->
  forall fuel s st,
    I fuel s st ->
    Q (fst (describeInstancesLoop E fuel zoneId needLimit searchKey projectId
              s st))
      (snd (describeInstancesLoop E fuel zoneId needLimit searchKey projectId
              s st)).
Proof.
  intros Hstep. induction fuel as [|fuel IH]; intros s st HI;
    specialize (Hstep _ s st HI); cbn [describeInstancesLoop]; unfold bind;
    destruct (describeInstancesPage E _ _ _ _ s st) as [[[s'|x]|] st'];
    cbn; auto.
Qed.

End RedisPages.

Section RedisPageFacts.

Variable E : Env.
Variables (zoneId needLimit : Z) (searchKey : string) (projectId : Z).

Local Abbreviation page := (describeInstancesPage E zoneId needLimit searchKey
                          projectId).
Local Abbreviation request := (describeInstancesRequest searchKey projectId).

Lemma describeInstancesPage_requests s st :
  redisRequests (snd (page s st))
  = redisRequests st ++ [request (pg_offset s)].
Proof.
  rewrite describeInstancesPage_run. cbv zeta.
  set (c := RedisDescribeInstances (request (pg_offset s))).
  assert (Hsent : redisRequests (sent c st)
                  = redisRequests st ++ [request (pg_offset s)])
    by (rewrite redisRequests_sent; reflexivity).
  destruct (snd (remote E (st_trace st) _ c)); [exact Hsent|].
  destruct (if pg_leftNumberInit s then _ else _); [|exact Hsent].
  pose proof (keepsRequests_items E zoneId needLimit
                (RespInstanceSet (fst (remote E (st_trace st) _ c)))
                (pg_instances s) (sent c st)) as Hitems.
  destruct (describeInstancesItems E _ _ _ _ _) as [[[instances|x]|] st'];
    cbn [snd] in *; try congruence.
  destruct (_ <? _)%Z; cbn [snd]; congruence.
Qed.

Lemma describeInstancesPage_limit s st r st' :
  1 <= needLimit ->
  Z.of_nat (length (pg_instances s)) < needLimit ->
  page s st = (Ok r, st') ->
  match r with
  | inl s' => Z.of_nat (length (pg_instances s')) < needLimit
  | inr (l, _) => Z.of_nat (length l) <= needLimit
  end.
Proof.
  intros Hlimit Hlen. rewrite describeInstancesPage_run. cbv zeta.
  destruct (snd (remote E _ _ _)); [intros [= <- <-]; lia|].
  destruct (if pg_leftNumberInit s then _ else _); [|discriminate].
  destruct (describeInstancesItems E _ _ _ _ _) as [[x|] st1] eqn:Hitems;
    [|discriminate].
  pose proof (describeInstancesItems_limit E zoneId needLimit _ Hlimit _ _ _ _
                Hlen Hitems) as Hx.
  destruct x as [instances|[l e]].
  - destruct (_ <? _)%Z; intros [= <- <-]; cbn; lia.
  - intros [= <- <-]. exact Hx.
Qed.

Lemma describeInstancesPage_zone zoneName s st r st' :
  zoneId <> -1 -> zoneName <> "" ->
  st_zoneMap st !! zoneId = Some zoneName ->
  Forall (fun i => rd_Zone i = zoneName) (pg_instances s) ->
  page s st = (r, st') ->
  st_zoneMap st' !! zoneId = Some zoneName
  /\ match r with
     | Ok (inl s') => Forall (fun i => rd_Zone i = zoneName) (pg_instances s')
     | Ok (inr (l, _)) => Forall (fun i => rd_Zone i = zoneName) l
     | Panic => True
     end.
Proof.
  intros Hid Hne Hm Hall. rewrite describeInstancesPage_run. cbv zeta.
  set (c := RedisDescribeInstances (request (pg_offset s))).
  destruct (snd (remote E _ _ _)); [intros [= <- <-]; auto|].
  destruct (if pg_leftNumberInit s then _ else _); [|intros [= <- <-]; auto].
  destruct (describeInstancesItems E _ _ _ _ _) as [x st1] eqn:Hitems.
  destruct (describeInstancesItems_zone E zoneId zoneName needLimit _ Hid Hne
              _ (sent c st) _ _ Hm Hall Hitems) as [-> Hx].
  destruct x as [[instances|[l e]]|].
  - destruct (_ <? _)%Z; intros [= <- <-]; auto.
  - intros [= <- <-]. auto.
  - intros [= <- <-]. auto.
Qed.

(** The jump back to the label: the offset has advanced by the page
    size, and the count of the instances that are left, the old one less
    the page size, is not negative. *)
Lemma describeInstancesPage_continue s st s' st' :
  page s st = (Ok (inl s'), st') ->
  exists leftNumber,
    announced E searchKey projectId s st = Some leftNumber
    /\ pg_leftNumber s' = wrap64 (leftNumber - redisPageLimit)
    /\ 0 <= pg_leftNumber s'
    /\ pg_leftNumberInit s' = true
    /\ pg_offset s' = wrapU64 (pg_offset s + redisPageLimit).
Proof.
  rewrite describeInstancesPage_run. cbv zeta. unfold announced.
  destruct (snd (remote E _ _ _)); [discriminate|].
  destruct (if pg_leftNumberInit s then _ else _) as [leftNumber|];
    [|discriminate].
  destruct (describeInstancesItems E _ _ _ _ _) as [[[instances|x]|] st1];
    try discriminate.
  destruct (_ <? _)%Z eqn:Htest; [discriminate|]. intros [= <- <-].
  exists leftNumber. cbn. apply Z.ltb_ge in Htest. auto.
Qed.

(** The return without error and below the limit: the count of the
    instances that are left has gone below zero. *)
Lemma describeInstancesPage_exhausted s st l st' :
  page s st = (Ok (inr (l, None)), st') ->
  ~ limitReached needLimit l ->
  exists leftNumber,
    announced E searchKey projectId s st = Some leftNumber
    /\ wrap64 (leftNumber - redisPageLimit) < 0.
Proof.
  rewrite describeInstancesPage_run. cbv zeta. unfold announced.
  destruct (snd (remote E _ _ _)); [discriminate|].
  destruct (if pg_leftNumberInit s then _ else _) as [leftNumber|];
    [|discriminate].
  destruct (describeInstancesItems E _ _ _ _ _) as [[[instances|x]|] st1]
    eqn:Hitems; try discriminate.
  - destruct (_ <? _)%Z eqn:Htest; [|discriminate]. intros _ _.
    exists leftNumber. apply Z.ltb_lt in Htest. auto.
  - intros [= -> <-] Hnot. exfalso. apply Hnot.
    exact (describeInstancesItems_exit E zoneId needLimit _ _ _ _ _ Hitems).
Qed.

(** *** The loop *)

Local Abbreviation loop fuel := (describeInstancesLoop E fuel zoneId needLimit
                               searchKey projectId).

(** The fuel is enough: the loop ends with a return. *)
Lemma describeInstancesLoop_total fuel s st :
  pg_leftNumberInit s = true ->
  0 <= pg_leftNumber s <= Z.of_nat fuel ->
  pg_leftNumber s < 2 ^ 63 ->
  fst (loop fuel s st) <> Ok None.
Proof.
  intros Hinit Hleft Hmax.
  apply (describeInstancesLoop_rule E zoneId needLimit searchKey projectId
           (fun fuel s _ => pg_leftNumberInit s = true
                            /\ 0 <= pg_leftNumber s <= Z.of_nat fuel
                            /\ pg_leftNumber s < 2 ^ 63)
           (fun r _ => r <> Ok None)); [|auto].
  clear. intros fuel s st (Hinit & Hleft & Hmax).
  destruct (page s st) as [[[s'|x]|] st'] eqn:Hpage; try discriminate.
  destruct (describeInstancesPage_continue _ _ _ _ Hpage)
    as (leftNumber & Hann & Hl & Hpos & Hi & _).
  unfold announced in Hann. rewrite Hinit in Hann. injection Hann as <-.
  rewrite wrap64_small in Hl by (unfold redisPageLimit; lia).
  unfold redisPageLimit in Hl.
  destruct fuel as [|fuel]; [lia|].
  repeat split; try assumption; lia.
Qed.

(** A positive limit bounds the list that the loop returns. *)
Lemma describeInstancesLoop_limit fuel s st :
  1 <= needLimit ->
  Z.of_nat (length (pg_instances s)) < needLimit ->
  match fst (loop fuel s st) with
  | Ok (Some (l, _)) => Z.of_nat (length l) <= needLimit
  | _ => True
  end.
Proof.
  intros Hlimit Hlen.
  apply (describeInstancesLoop_rule E zoneId needLimit searchKey projectId
           (fun _ s _ => Z.of_nat (length (pg_instances s)) < needLimit)
           (fun r _ => match r with
                       | Ok (Some (l, _)) => Z.of_nat (length l) <= needLimit
                       | _ => True
                       end)); [|assumption].
  clear - Hlimit. intros fuel s st Hlen.
  destruct (page s st) as [[r|] st'] eqn:Hpage; [|exact I].
  pose proof (describeInstancesPage_limit _ _ _ _ Hlimit Hlen Hpage) as Hr.
  destruct r as [s'|[l e]]; [|exact Hr].
  destruct fuel; [exact I|exact Hr].
Qed.

(** With the zone filter the loop returns instances of that zone only. *)
Lemma describeInstancesLoop_zone zoneName fuel s st :
  zoneId <> -1 -> zoneName <> "" ->
  st_zoneMap st !! zoneId = Some zoneName ->
  Forall (fun i => rd_Zone i = zoneName) (pg_instances s) ->
  match fst (loop fuel s st) with
  | Ok (Some (l, _)) => Forall (fun i => rd_Zone i = zoneName) l
  | _ => True
  end.
Proof.
  intros Hid Hne Hm Hall.
  apply (describeInstancesLoop_rule E zoneId needLimit searchKey projectId
           (fun _ s st =>
              st_zoneMap st !! zoneId = Some zoneName
              /\ Forall (fun i => rd_Zone i = zoneName) (pg_instances s))
           (fun r _ => match r with
                       | Ok (Some (l, _)) =>
                           Forall (fun i => rd_Zone i = zoneName) l
                       | _ => True
                       end)); [|auto].
  clear - Hid Hne. intros fuel s st [Hm Hall].
  destruct (page s st) as [r st'] eqn:Hpage.
  destruct (describeInstancesPage_zone zoneName _ _ _ _ Hid Hne Hm Hall Hpage)
    as [Hm' Hr].
  destruct r as [[s'|[l e]]|]; [|exact Hr|exact I].
  destruct fuel; [exact I|auto].
Qed.

(** The requests of the loop. After [i] pages, of which the first one
    announced [total] instances, the loop asks for the pages from [i]
    on, each at the offset of twice its number, and stops at the latest
    with the page of number [total / 2]; it stops there when it neither
    fails nor fills the limit. *)
Lemma describeInstancesLoop_requests base total fuel s st i :
  0 <= total < 2 ^ 63 ->
  pg_leftNumberInit s = true ->
  pg_leftNumber s = total - redisPageLimit * Z.of_nat i ->
  0 <= pg_leftNumber s ->
  pg_offset s = wrapU64 (redisPageLimit * Z.of_nat i) ->
  redisRequests st = base ++ pageRequests searchKey projectId i ->
  exists m,
    (0 < m)%nat
    /\ redisRequests (snd (loop fuel s st))
       = base ++ pageRequests searchKey projectId m
    /\ Z.of_nat m <= total / 2 + 1
    /\ forall l,
         fst (loop fuel s st) = Ok (Some (l, None)) ->
         ~ limitReached needLimit l ->
         Z.of_nat m = total / 2 + 1.
Proof.
  intros Htotal Hinit Hleft Hpos Hoff Hreq.
  apply (describeInstancesLoop_rule E zoneId needLimit searchKey projectId
           (fun _ s st =>
              exists i,
                pg_leftNumberInit s = true
                /\ pg_leftNumber s = total - redisPageLimit * Z.of_nat i
                /\ 0 <= pg_leftNumber s
                /\ pg_offset s = wrapU64 (redisPageLimit * Z.of_nat i)
                /\ redisRequests st = base ++ pageRequests searchKey projectId i)
           (fun r st' =>
              exists m,
                (0 < m)%nat
                /\ redisRequests st' = base ++ pageRequests searchKey projectId m
                /\ Z.of_nat m <= total / 2 + 1
                /\ forall l,
                     r = Ok (Some (l, None)) ->
                     ~ limitReached needLimit l ->
                     Z.of_nat m = total / 2 + 1)); [|eauto 10].
  clear - Htotal. intros fuel s st (i & Hinit & Hleft & Hpos & Hoff & Hreq).
  pose proof (describeInstancesPage_requests s st) as Hpage_req.
  rewrite Hreq, Hoff, <- app_assoc, <- pageRequests_S in Hpage_req.
  unfold redisPageLimit in *.
  assert (Hbound : Z.of_nat (S i) <= total / 2 + 1).
  { assert (Z.of_nat i <= total / 2) by (apply Z.div_le_lower_bound; lia).
    lia. }
  destruct (page s st) as [[[s'|[l e]]|] st'] eqn:Hpage; cbn [snd] in Hpage_req.
  - destruct (describeInstancesPage_continue _ _ _ _ Hpage)
      as (leftNumber & Hann & Hl & Hpos' & Hi & Ho).
    unfold announced in Hann. rewrite Hinit in Hann. injection Hann as <-.
    rewrite wrap64_small in Hl by (unfold redisPageLimit; lia).
    unfold redisPageLimit in *.
    destruct fuel as [|fuel].
    + exists (S i). repeat split; try assumption; try lia. discriminate.
    + exists (S i). repeat split; try assumption; try lia.
      rewrite Ho, Hoff. apply wrapU64_next.
  - exists (S i). repeat split; try assumption; try lia.
    intros l' [= -> ->] Hnot.
    destruct (describeInstancesPage_exhausted _ _ _ _ Hpage Hnot)
      as (leftNumber & Hann & Hneg).
    unfold announced in Hann. rewrite Hinit in Hann. injection Hann as <-.
    rewrite wrap64_small in Hneg by (unfold redisPageLimit; lia).
    unfold redisPageLimit in *.
    assert (total / 2 < Z.of_nat (S i)) by (apply Z.div_lt_upper_bound; lia).
    lia.
  - exists (S i). repeat split; try assumption; try lia. discriminate.
Qed.

End RedisPageFacts.

(** ** Redis service: [DescribeInstances] *)

Section RedisDescribeInstances.

Variable E : Env.
Variables (zoneName searchKey : string) (projectId needLimit : Z).

Local Abbreviation run := (DescribeInstances E zoneName searchKey projectId
                             needLimit).
Local Abbreviation firstPage := (mkPageState 0 0 false []).

Lemma DescribeInstances_run st :
  run st
  = match zoneLookup E zoneName st with
    | (Ok (zoneId, Some e), st0) => (Ok (Some ([], Some e)), st0)
    | (Ok (zoneId, None), st0) =>
        match describeInstancesPage E zoneId needLimit searchKey projectId
                firstPage st0 with
        | (Ok (inr x), st1) => (Ok (Some x), st1)
        | (Ok (inl s), st1) =>
            describeInstancesLoop E (Z.to_nat (pg_leftNumber s)) zoneId
              needLimit searchKey projectId s st1
        | (Panic, st1) => (Panic, st1)
        end
    | (Panic, st0) => (Panic, st0)
    end.
Proof.
  unfold DescribeInstances, zoneLookup. unfold bind at 1.
  destruct (zoneName =? "")%string.
  - unfold ret. cbv beta iota. unfold bind.
    destruct (describeInstancesPage E _ _ _ _ _ st) as [[[s|x]|] st1];
      reflexivity.
  - destruct (getZoneId E zoneName st) as [[[zoneId [e|]]|] st0];
      try reflexivity.
    unfold bind.
    destruct (describeInstancesPage E _ _ _ _ _ st0) as [[[s|x]|] st1];
      reflexivity.
Qed.

Lemma keepsRequests_zoneLookup : preserves redisRequests (zoneLookup E zoneName).
Proof.
  unfold zoneLookup. destruct (_ =? _)%string; [keeps|].
  apply keepsRequests_getZoneId.
Qed.

(** The loop always returns. *)
Lemma DescribeInstances_total st : fst (run st) <> Ok None.
Proof.
  rewrite DescribeInstances_run.
  destruct (zoneLookup E zoneName st) as [[[zoneId [e|]]|] st0];
    try discriminate.
  destruct (describeInstancesPage E _ _ _ _ _ st0) as [[[s|x]|] st1] eqn:Hpage;
    try discriminate.
  destruct (describeInstancesPage_continue _ _ _ _ _ _ _ _ _ Hpage)
    as (leftNumber & _ & Hl & Hpos & Hinit & _).
  apply describeInstancesLoop_total; [assumption|lia|].
  rewrite Hl. apply wrap64_range.
Qed.

(** With a limit of one or more, no more instances are returned. *)
Lemma DescribeInstances_limit st l e :
  1 <= needLimit ->
  fst (run st) = Ok (Some (l, e)) ->
  Z.of_nat (length l) <= needLimit.
Proof.
  intros Hlimit. rewrite DescribeInstances_run.
  destruct (zoneLookup E zoneName st) as [[[zoneId [e0|]]|] st0];
    try discriminate.
  - intros [= <- <-]. cbn. lia.
  - assert (Hlen : Z.of_nat (length (pg_instances firstPage)) < needLimit)
      by (cbn; lia).
    destruct (describeInstancesPage E _ _ _ _ _ st0) as [[r|] st1] eqn:Hpage;
      [|discriminate].
    pose proof (describeInstancesPage_limit _ _ _ _ _ _ _ _ _ Hlimit Hlen Hpage)
      as Hr.
    destruct r as [s|[l0 e0]].
    + pose proof (describeInstancesLoop_limit E zoneId needLimit searchKey
                    projectId (Z.to_nat (pg_leftNumber s)) s st1 Hlimit Hr)
        as Hloop.
      intros Heq. rewrite Heq in Hloop. exact Hloop.
    + intros [= <- <-]. exact Hr.
Qed.

(** With the name of a zone whose id is not [-1], the instances that
    are returned are all of that zone. *)
Lemma DescribeInstances_zone st l e :
  (forall l, range_order E l ≡ₚ l) ->
  zoneName <> "" ->
  fst (zoneLookup E zoneName st) <> Ok (-1, None) ->
  fst (run st) = Ok (Some (l, e)) ->
  Forall (fun i => rd_Zone i = zoneName) l.
Proof.
  intros Hperm Hname Hid. rewrite DescribeInstances_run.
  destruct (zoneLookup E zoneName st) as [[[zoneId [e0|]]|] st0] eqn:Hlookup;
    try discriminate.
  - intros [= <- <-]. constructor.
  - assert (Hzone : zoneId <> -1) by (intros ->; apply Hid; reflexivity).
    assert (Hm : st_zoneMap st0 !! zoneId = Some zoneName).
    { unfold zoneLookup in Hlookup.
      destruct (String.eqb_spec zoneName ""); [contradiction|].
      exact (getZoneId_found E zoneName st zoneId st0 Hperm Hlookup). }
    destruct (describeInstancesPage E _ _ _ _ _ st0) as [r st1] eqn:Hpage.
    destruct (describeInstancesPage_zone E zoneId needLimit searchKey projectId
                zoneName firstPage st0 r st1 Hzone Hname Hm (Forall_nil_2 _)
                Hpage)
      as [Hm1 Hr].
    destruct r as [[s|[l0 e0]]|]; [| |discriminate].
    + pose proof (describeInstancesLoop_zone E zoneId needLimit searchKey
                    projectId zoneName (Z.to_nat (pg_leftNumber s)) s st1
                    Hzone Hname Hm1 Hr) as Hloop.
      intros Heq. rewrite Heq in Hloop. exact Hloop.
    + intros [= <- <-]. exact Hr.
Qed.

End RedisDescribeInstances.

Section RedisDescribeInstancesRequests.

Variable E : Env.
Variables (zoneName searchKey : string) (projectId needLimit : Z).

Local Abbreviation run := (DescribeInstances E zoneName searchKey projectId
                             needLimit).
Local Abbreviation firstPage := (mkPageState 0 0 false []).
Local Abbreviation firstRequest :=
  (RedisDescribeInstances (describeInstancesRequest searchKey projectId 0)).

(** Whatever the first page announces, the requests of the loop are
    those of consecutive pages. *)
Lemma describeInstancesLoop_offsets zoneId base fuel s st i :
  pg_offset s = wrapU64 (redisPageLimit * Z.of_nat i) ->
  redisRequests st = base ++ pageRequests searchKey projectId i ->
  exists m,
    redisRequests (snd (describeInstancesLoop E fuel zoneId needLimit
                          searchKey projectId s st))
    = base ++ pageRequests searchKey projectId m.
Proof.
  intros Hoff Hreq.
  apply (describeInstancesLoop_rule E zoneId needLimit searchKey projectId
           (fun _ s st =>
              exists i,
                pg_offset s = wrapU64 (redisPageLimit * Z.of_nat i)
                /\ redisRequests st = base ++ pageRequests searchKey projectId i)
           (fun _ st' =>
              exists m,
                redisRequests st' = base ++ pageRequests searchKey projectId m));
    [|eauto].
  clear. intros fuel s st (i & Hoff & Hreq).
  pose proof (describeInstancesPage_requests E zoneId needLimit searchKey
                projectId s st) as Hpage_req.
  rewrite Hreq, Hoff, <- app_assoc, <- pageRequests_S in Hpage_req.
  destruct (describeInstancesPage E _ _ _ _ s st) as [[[s'|x]|] st'] eqn:Hpage;
    cbn [snd] in Hpage_req; eauto.
  destruct (describeInstancesPage_continue _ _ _ _ _ _ _ _ _ Hpage)
    as (_ & _ & _ & _ & _ & Ho).
  destruct fuel; [eauto|]. exists (S i). split; [|assumption].
  rewrite Ho, Hoff. apply wrapU64_next.
Qed.

Lemma DescribeInstances_requests st :
  exists m,
    redisRequests (snd (run st))
    = redisRequests st ++ pageRequests searchKey projectId m.
Proof.
  rewrite DescribeInstances_run.
  pose proof (keepsRequests_zoneLookup E zoneName st) as Hlookup.
  destruct (zoneLookup E zoneName st) as [[[zoneId [e|]]|] st0];
    cbn [snd] in Hlookup.
  - exists O. cbn. rewrite app_nil_r. assumption.
  - pose proof (describeInstancesPage_requests E zoneId needLimit searchKey
                  projectId firstPage st0) as Hpage_req.
    rewrite Hlookup in Hpage_req.
    change [describeInstancesRequest searchKey projectId
              (pg_offset firstPage)]
      with (pageRequests searchKey projectId 1) in Hpage_req.
    destruct (describeInstancesPage E _ _ _ _ _ st0) as [[[s|x]|] st1] eqn:Hpage;
      cbn [snd] in Hpage_req; eauto.
    destruct (describeInstancesPage_continue _ _ _ _ _ _ _ _ _ Hpage)
      as (_ & _ & _ & _ & _ & Ho).
    apply (describeInstancesLoop_offsets zoneId _ _ s st1 1); assumption.
  - exists O. cbn. rewrite app_nil_r. assumption.
Qed.

(** When the first page announces [total] instances, the pages are
    requested up to the number [total / 2] at most, and up to that
    number when the function neither fails nor fills the limit. *)
Lemma DescribeInstances_stop st zoneId st0 total :
  zoneLookup E zoneName st = (Ok (zoneId, None), st0) ->
  snd (remote E (st_trace st0) _ firstRequest) = None ->
  TotalCount (fst (remote E (st_trace st0) _ firstRequest)) = Some total ->
  0 <= total < 2 ^ 63 ->
  exists m,
    (0 < m)%nat
    /\ redisRequests (snd (run st))
       = redisRequests st ++ pageRequests searchKey projectId m
    /\ Z.of_nat m <= total / 2 + 1
    /\ forall l,
         fst (run st) = Ok (Some (l, None)) ->
         ~ limitReached needLimit l ->
         Z.of_nat m = total / 2 + 1.
Proof.
  intros Hlookup Herr Htotal Hrange. rewrite DescribeInstances_run.
  pose proof (keepsRequests_zoneLookup E zoneName st) as Hkeep.
  rewrite Hlookup in *. cbn [snd] in Hkeep.
  pose proof (describeInstancesPage_requests E zoneId needLimit searchKey
                projectId firstPage st0) as Hpage_req.
  rewrite Hkeep in Hpage_req.
  change [describeInstancesRequest searchKey projectId (pg_offset firstPage)]
    with (pageRequests searchKey projectId 1) in Hpage_req.
  assert (Hann : announced E searchKey projectId firstPage st0 = Some total)
    by exact Htotal.
  assert (Hone : Z.of_nat 1 <= total / 2 + 1).
  { assert (0 <= total / 2) by (apply Z.div_pos; lia). lia. }
  destruct (describeInstancesPage E _ _ _ _ _ st0) as [[[s|[l e]]|] st1]
    eqn:Hpage; cbn [snd] in Hpage_req.
  - destruct (describeInstancesPage_continue _ _ _ _ _ _ _ _ _ Hpage)
      as (leftNumber & Hann' & Hl & Hpos & Hinit & Ho).
    rewrite Hann in Hann'. injection Hann' as <-.
    assert (Hwrap : - 2 ^ 63 <= total - redisPageLimit < 2 ^ 63)
      by (unfold redisPageLimit; lia).
    rewrite wrap64_small in Hl by exact Hwrap.
    apply (describeInstancesLoop_requests E zoneId needLimit searchKey
             projectId (redisRequests st) total _ s st1 1); assumption.
  - exists 1%nat. repeat split; try assumption; try lia.
    intros l' [= -> ->] Hnot.
    destruct (describeInstancesPage_exhausted _ _ _ _ _ _ _ _ _ Hpage Hnot)
      as (leftNumber & Hann' & Hneg).
    rewrite Hann in Hann'. injection Hann' as <-.
    assert (Htwo : total < 2).
    { destruct (Z.lt_ge_cases total 2) as [|Hge]; [assumption|].
      rewrite wrap64_small in Hneg by (unfold redisPageLimit; lia).
      unfold redisPageLimit in Hneg. lia. }
    assert (total / 2 = 0) by (apply Z.div_small; lia). lia.
  - exists 1%nat. repeat split; try assumption; try lia. discriminate.
Qed.

(** A request of the sequence has the page size 2 and the offset of
    twice its number. *)
Lemma pageRequests_lookup m i req :
  pageRequests searchKey projectId m !! i = Some req ->
  req_Limit req = Some 2 /\ req_Offset req = Some (wrapU64 (2 * Z.of_nat i)).
Proof.
  unfold pageRequests. rewrite list_lookup_fmap.
  destruct (seq 0 m !! i) as [j|] eqn:Hj; [|discriminate].
  apply lookup_seq in Hj as [-> _]. intros [= <-]. split; reflexivity.
Qed.

End RedisDescribeInstancesRequests.

(** Claim C7, at the input where the code departs from it.
    [DescribeInstances] of the Redis service always returns, and asks
    for pages of size 2 at the offsets 0, 2, 4 and so on. It goes on as
    long as the count of the instances that are left (the [TotalCount]
    of the first answer, less 2 for every page asked) is not negative:
    it does not stop when that count has come down to 0. When the first
    answer announces an even number of instances, 2 or more, and the
    call neither fails nor fills its limit, the page at the offset
    [TotalCount] is asked for after the pages that hold all the
    instances. With a limit of 1 or more the call returns that many
    instances at most, and with the name of a zone, whose id is not the
    -1 that stands for the absence of a zone, every instance that it
    returns is of that zone. *)
Theorem redis_describe_instances_extra_page
  (E : Env) (zoneName searchKey : string) (projectId needLimit : Z)
  (st : State) :
  (forall l, range_order E l ≡ₚ l) ->
  fst (DescribeInstances E zoneName searchKey projectId needLimit st)
  <> Ok None
  /\ (exists m,
        redisRequests
          (snd (DescribeInstances E zoneName searchKey projectId needLimit st))
        = redisRequests st ++ pageRequests searchKey projectId m
        /\ forall i req,
             pageRequests searchKey projectId m !! i = Some req ->
             req_Limit req = Some 2
             /\ req_Offset req = Some (wrapU64 (2 * Z.of_nat i)))
  /\ (forall zoneId st0 total l,
        zoneLookup E zoneName st = (Ok (zoneId, None), st0) ->
        snd (remote E (st_trace st0) _
               (RedisDescribeInstances
                  (describeInstancesRequest searchKey projectId 0))) = None ->
        TotalCount
          (fst (remote E (st_trace st0) _
                  (RedisDescribeInstances
                     (describeInstancesRequest searchKey projectId 0))))
        = Some total ->
        0 < total < 2 ^ 63 ->
        total mod 2 = 0 ->
        fst (DescribeInstances E zoneName searchKey projectId needLimit st)
        = Ok (Some (l, None)) ->
        ~ limitReached needLimit l ->
        redisRequests
          (snd (DescribeInstances E zoneName searchKey projectId needLimit st))
        = redisRequests st
          ++ pageRequests searchKey projectId (Z.to_nat (total / 2))
          ++ [describeInstancesRequest searchKey projectId total])
  /\ (forall zoneId st0 total,
        zoneLookup E zoneName st = (Ok (zoneId, None), st0) ->
        snd (remote E (st_trace st0) _
               (RedisDescribeInstances
                  (describeInstancesRequest searchKey projectId 0))) = None ->
        TotalCount
          (fst (remote E (st_trace st0) _
                  (RedisDescribeInstances
                     (describeInstancesRequest searchKey projectId 0))))
        = Some total ->
        0 <= total < 2 ^ 63 ->
        exists m,
          (0 < m)%nat
          /\ redisRequests
               (snd (DescribeInstances E zoneName searchKey projectId
                       needLimit st))
             = redisRequests st ++ pageRequests searchKey projectId m
          /\ Z.of_nat m <= total / 2 + 1
          /\ forall l,
               fst (DescribeInstances E zoneName searchKey projectId
                      needLimit st) = Ok (Some (l, None)) ->
               ~ limitReached needLimit l ->
               Z.of_nat m = total / 2 + 1)
  /\ (forall l e,
        1 <= needLimit ->
        fst (DescribeInstances E zoneName searchKey projectId needLimit st)
        = Ok (Some (l, e)) ->
        Z.of_nat (length l) <= needLimit)
  /\ (forall l e,
        zoneName <> "" ->
        fst (zoneLookup E zoneName st) <> Ok (-1, None) ->
        fst (DescribeInstances E zoneName searchKey projectId needLimit st)
        = Ok (Some (l, e)) ->
        Forall (fun i => rd_Zone i = zoneName) l).
Proof.
  intros Hperm. split; [|split; [|split; [|split; [|split]]]].
  - apply DescribeInstances_total.
  - destruct (DescribeInstances_requests E zoneName searchKey projectId
                needLimit st) as [m Hm].
    exists m. split; [exact Hm|]. apply pageRequests_lookup.
  - intros zoneId st0 total l Hlookup Herr Htotal Hrange Heven Hrun Hnot.
    destruct (DescribeInstances_stop E zoneName searchKey projectId needLimit
                st zoneId st0 total Hlookup Herr Htotal ltac:(lia))
      as (m & _ & Hreq & _ & Hexact).
    specialize (Hexact l Hrun Hnot).
    assert (Hhalf : 0 <= total / 2) by (apply Z.div_pos; lia).
    pose proof (Z.div_mod total 2 ltac:(lia)) as Hdiv.
    rewrite Heven, Z.add_0_r in Hdiv.
    remember (total / 2) as half eqn:Ehalf.
    assert (Hm : m = S (Z.to_nat half)) by lia.
    rewrite Hreq, Hm, pageRequests_S. do 3 f_equal.
    unfold wrapU64, redisPageLimit. rewrite Z2Nat.id by exact Hhalf.
    rewrite <- Hdiv, Z.mod_small by lia. reflexivity.
  - apply DescribeInstances_stop.
  - intros l e Hlimit Hrun.
    exact (DescribeInstances_limit E zoneName searchKey projectId needLimit
             st l e Hlimit Hrun).
  - intros l e Hname Hid Hrun.
    exact (DescribeInstances_zone E zoneName searchKey projectId needLimit
             st l e Hperm Hname Hid Hrun).
Qed.

(** Two instances, both on the first page: the page at the offset 2 is
    asked for all the same. Three instances: two pages, as the count
    requires. *)
Lemma redis_describe_instances_extra_page_witness :
  let E := sampleEnv (pagedRemote twoZones 2 twoInstances) 0 in
  let r := DescribeInstances E "ap-guangzhou-3" "" (-1) 5 (start redisData) in
  let E3 := sampleEnv (pagedRemote twoZones 3 threeInstances) 0 in
  let r3 := DescribeInstances E3 "ap-guangzhou-3" "" (-1) 5 (start redisData) in
  fst r <> Ok None
  /\ redisRequests (snd r)
     = [describeInstancesRequest "" (-1) 0; describeInstancesRequest "" (-1) 2]
  /\ map rd_RedisId (returned (fst r)) = ["crs-a"]
  /\ Forall (fun i => rd_Zone i = "ap-guangzhou-3") (returned (fst r))
  /\ Z.of_nat (length (returned (fst r))) <= 5
  /\ Forall (fun i => rd_Zone i = "ap-guangzhou-3") (returned (fst r3))
  /\ map rd_RedisId (returned (fst r3)) = ["crs-a"; "crs-c"]
  /\ redisRequests (snd r3) = pageRequests "" (-1) 2.
Proof.
  intros E r E3 r3.
  destruct (redis_describe_instances_extra_page E "ap-guangzhou-3" "" (-1) 5
              (start redisData))
    as (Htotal & _ & Hextra & _ & Hlimit & Hzone).
  { intros l. reflexivity. }
  destruct (redis_describe_instances_extra_page E3 "ap-guangzhou-3" "" (-1) 5
              (start redisData))
    as (_ & _ & _ & _ & _ & Hzone3).
  { intros l. reflexivity. }
  assert (Hrun : fst r = Ok (Some (returned (fst r), None)))
    by (vm_compute; reflexivity).
  assert (Hrun3 : fst r3 = Ok (Some (returned (fst r3), None)))
    by (vm_compute; reflexivity).
  split; [exact Htotal|]. split; [|split; [|split; [|split; [|split; [|split]]]]].
  - apply (Hextra 100003
             (snd (zoneLookup E "ap-guangzhou-3" (start redisData)))
             2 (returned (fst r)));
      [vm_compute; reflexivity | vm_compute; reflexivity
      | vm_compute; reflexivity | lia | reflexivity | exact Hrun |].
    intros [_ Hfull]. apply Hfull. vm_compute. reflexivity.
  - vm_compute. reflexivity.
  - apply (Hzone (returned (fst r)) None); [discriminate| |exact Hrun].
    vm_compute. discriminate.
  - apply (Hlimit (returned (fst r)) None); [lia|exact Hrun].
  - apply (Hzone3 (returned (fst r3)) None); [discriminate| |exact Hrun3].
    vm_compute. discriminate.
  - vm_compute. reflexivity.
  - vm_compute. reflexivity.
Defined.

Section ProviderCredentials.

Variable P : ProviderEnv.

Lemma ProviderSchema_secret_id :
  ProviderSchema !! "secret_id"
  = Some (mkSchema true false (Some (EnvDefaultFunc PROVIDER_SECRET_ID None))
            false "").
Proof. vm_compute. reflexivity. Qed.

Lemma ProviderSchema_secret_key :
  ProviderSchema !! "secret_key"
  = Some (mkSchema true false (Some (EnvDefaultFunc PROVIDER_SECRET_KEY None))
            true "").
Proof. vm_compute. reflexivity. Qed.

Lemma ProviderSchema_region :
  ProviderSchema !! "region"
  = Some (mkSchema true false (Some (EnvDefaultFunc PROVIDER_REGION None))
            false "ap-guangzhou").
Proof. vm_compute. reflexivity. Qed.

Lemma runDefaultFunc_nil (k : string) (env : string -> string) :
  runDefaultFunc (EnvDefaultFunc k None) env
  = if String.eqb (env k) "" then None else Some (env k).
Proof. reflexivity. Qed.

Lemma default_runDefaultFunc_nil (k : string) (env : string -> string) :
  default "" (runDefaultFunc (EnvDefaultFunc k None) env) = env k.
Proof.
  rewrite runDefaultFunc_nil.
  destruct (String.eqb_spec (env k) "") as [Hempty|Hfull]; cbn; congruence.
Qed.

(** A field whose schema has [EnvDefaultFunc var nil]: left out of the
    configuration, it is read from the environment variable [var]. *)
Lemma providerField_env (config : gmap string string)
  (env : string -> string) (field var : string) (sch : Schema) :
  ProviderSchema !! field = Some sch ->
  DefaultFunc sch = Some (EnvDefaultFunc var None) ->
  config !! field = None ->
  providerField config env field
  = if String.eqb (env var) "" then None else Some (env var).
Proof.
  intros Hsch Hdefault Hconfig. unfold providerField.
  rewrite Hconfig, Hsch, Hdefault. apply runDefaultFunc_nil.
Qed.

(** The string that [providerConfigure] reads for such a field. *)
Lemma providerString_env (config : gmap string string)
  (field var : string) (sch : Schema) :
  ProviderSchema !! field = Some sch ->
  DefaultFunc sch = Some (EnvDefaultFunc var None) ->
  config !! field = None ->
  providerString P config field = getenv P var.
Proof.
  intros Hsch Hdefault Hconfig. unfold providerString, providerField.
  rewrite Hconfig, Hsch, Hdefault. apply default_runDefaultFunc_nil.
Qed.

Lemma providerString_set (config : gmap string string) (field v : string) :
  config !! field = Some v -> providerString P config field = v.
Proof.
  intros Hconfig. unfold providerString, providerField.
  rewrite Hconfig. reflexivity.
Qed.

(** The duration of the session. *)
Lemma sessionDuration_spec (configured : Z) :
  (configured <> 0 -> sessionDuration P configured = inl configured)
  /\ (configured = 0 ->
      getenv P "TENCENTCLOUD_ASSUME_ROLE_SESSION_DURATION" = "" ->
      sessionDuration P configured = inl 0)
  /\ (forall n,
        configured = 0 ->
        getenv P "TENCENTCLOUD_ASSUME_ROLE_SESSION_DURATION" <> "" ->
        ParseInt (getenv P "TENCENTCLOUD_ASSUME_ROLE_SESSION_DURATION")
        = Some n ->
        sessionDuration P configured = inl (if Z.eqb n 0 then 7200 else n))
  /\ (configured = 0 ->
      getenv P "TENCENTCLOUD_ASSUME_ROLE_SESSION_DURATION" <> "" ->
      ParseInt (getenv P "TENCENTCLOUD_ASSUME_ROLE_SESSION_DURATION") = None ->
      sessionDuration P configured
      = inr (atoiError P
               (getenv P "TENCENTCLOUD_ASSUME_ROLE_SESSION_DURATION"))).
Proof.
  unfold sessionDuration, PROVIDER_ASSUME_ROLE_SESSION_DURATION.
  split; [|split; [|split]].
  - intros Hc. destruct (Z.eqb_spec configured 0); [contradiction|reflexivity].
  - intros -> Henv. cbn. rewrite Henv. reflexivity.
  - intros n -> Henv Hparse. cbn.
    destruct (String.eqb_spec
                (getenv P "TENCENTCLOUD_ASSUME_ROLE_SESSION_DURATION") "");
      [contradiction|].
    rewrite Hparse. reflexivity.
  - intros -> Henv Hparse. cbn.
    destruct (String.eqb_spec
                (getenv P "TENCENTCLOUD_ASSUME_ROLE_SESSION_DURATION") "");
      [contradiction|].
    rewrite Hparse. reflexivity.
Qed.

(** Without exactly one [assume_role] block the standard client is
    returned. *)
Lemma providerConfigure_standard (config : gmap string string)
  (assumeRoleList : list AssumeRoleBlock) :
  length assumeRoleList <> 1%nat ->
  providerConfigure P config assumeRoleList
  = Ok (Some (standardClient P config), None).
Proof.
  intros Hlen. destruct assumeRoleList as [|b [|b' l]]; try reflexivity.
  cbn in Hlen. contradiction.
Qed.

End ProviderCredentials.

(** Claim C8. The fields secret_id, secret_key and region of the provider
    schema are declared Required, each with the default
    [EnvDefaultFunc] of TENCENTCLOUD_SECRET_ID, TENCENTCLOUD_SECRET_KEY
    and TENCENTCLOUD_REGION, with no fallback value. A field that the
    configuration leaves out is read from its environment variable (and
    has no value when the variable is empty), a field that the
    configuration sets keeps the configured value. The standard client
    of [providerConfigure] holds what is read for the fields, so the
    values of the variables for those that are left out, and is what
    [providerConfigure] returns without an [assume_role] block. With
    such a block it is the standard client, so these credentials, that
    sends the [AssumeRole] request; an error of the duration or of the
    request is returned, and else the client that is returned has the
    temporary credentials of the answer with the region, the protocol
    and the domain of the standard client. *)
Theorem provider_credentials_from_environment
  (P : ProviderEnv) (config : gmap string string) (field var : string) :
  In (field, var)
    [("secret_id", "TENCENTCLOUD_SECRET_ID");
     ("secret_key", "TENCENTCLOUD_SECRET_KEY");
     ("region", "TENCENTCLOUD_REGION")] ->
  (exists sch,
     ProviderSchema !! field = Some sch
     /\ Required sch = true
     /\ Optional sch = false
     /\ DefaultFunc sch = Some (EnvDefaultFunc var None))
  /\ (forall v, config !! field = Some v ->
        providerField config (getenv P) field = Some v
        /\ providerString P config field = v)
  /\ (config !! field = None ->
      (getenv P var <> "" ->
       providerField config (getenv P) field = Some (getenv P var))
      /\ (getenv P var = "" ->
          providerField config (getenv P) field = None)
      /\ providerString P config field = getenv P var)
  /\ standardClient P config
     = mkTencentCloudClient
         (mkCredential (providerString P config "secret_id")
            (providerString P config "secret_key")
            (providerString P config "security_token"))
         (providerString P config "region")
         (providerString P config "protocol")
         (providerString P config "domain")
  /\ (forall assumeRoleList,
        length assumeRoleList <> 1%nat ->
        providerConfigure P config assumeRoleList
        = Ok (Some (standardClient P config), None))
  /\ (forall assumeRole,
        providerConfigure P config [assumeRole]
        = match sessionDuration P (session_duration assumeRole) with
          | inr e => Ok (None, Some e)
          | inl duration =>
              match AssumeRole P (standardClient P config)
                      (assumeRoleRequest P assumeRole duration) with
              | (_, Some e) => Ok (None, Some e)
              | (Some (mkStsCredentials (Some token) (Some tmpSecretId)
                         (Some tmpSecretKey)), None) =>
                  Ok (Some (mkTencentCloudClient
                              (mkCredential tmpSecretId tmpSecretKey token)
                              (providerString P config "region")
                              (providerString P config "protocol")
                              (providerString P config "domain")),
                      None)
              | _ => Panic
              end
          end)
  /\ (forall configured,
        (configured <> 0 -> sessionDuration P configured = inl configured)
        /\ (configured = 0 ->
            getenv P "TENCENTCLOUD_ASSUME_ROLE_SESSION_DURATION" = "" ->
            sessionDuration P configured = inl 0)
        /\ (forall n,
              configured = 0 ->
              getenv P "TENCENTCLOUD_ASSUME_ROLE_SESSION_DURATION" <> "" ->
              ParseInt (getenv P "TENCENTCLOUD_ASSUME_ROLE_SESSION_DURATION")
              = Some n ->
              sessionDuration P configured
              = inl (if Z.eqb n 0 then 7200 else n))
        /\ (configured = 0 ->
            getenv P "TENCENTCLOUD_ASSUME_ROLE_SESSION_DURATION" <> "" ->
            ParseInt (getenv P "TENCENTCLOUD_ASSUME_ROLE_SESSION_DURATION")
            = None ->
            sessionDuration P configured
            = inr (atoiError P
                     (getenv P "TENCENTCLOUD_ASSUME_ROLE_SESSION_DURATION"))))
  /\ (forall assumeRole duration,
        assumeRoleRequest P assumeRole duration
        = mkAssumeRoleRequest (Some (role_arn assumeRole))
            (Some (session_name assumeRole))
            (Some (IntUint64 P duration))
            (if String.eqb (policy assumeRole) "" then None
             else Some (QueryEscape P (policy assumeRole)))).
Proof.
  intros Hfield.
  assert (Hsch : exists sch,
             ProviderSchema !! field = Some sch
             /\ Required sch = true
             /\ Optional sch = false
             /\ DefaultFunc sch = Some (EnvDefaultFunc var None)).
  { cbn in Hfield.
    destruct Hfield as [Hf|[Hf|[Hf|[]]]]; inversion Hf; subst;
      eexists; (split; [vm_compute; reflexivity|]); repeat split. }
  split; [exact Hsch|].
  destruct Hsch as (sch & Hlookup & _ & _ & Hdefault).
  split; [|split; [|split; [|split; [|split; [|split]]]]].
  - intros v Hconfig. split; [|apply providerString_set; exact Hconfig].
    unfold providerField. rewrite Hconfig. reflexivity.
  - intros Hconfig.
    rewrite (providerField_env config (getenv P) field var sch Hlookup
               Hdefault Hconfig).
    split; [|split].
    + intros Henv. destruct (String.eqb_spec (getenv P var) ""); congruence.
    + intros Henv. rewrite Henv. reflexivity.
    + exact (providerString_env P config field var sch Hlookup Hdefault
               Hconfig).
  - reflexivity.
  - apply providerConfigure_standard.
  - intros assumeRole. unfold providerConfigure.
    destruct (sessionDuration P (session_duration assumeRole)) as [d|e];
      [|reflexivity].
    destruct (AssumeRole P _ _) as [[[[t|] [i|] [k|]]|] [e|]]; reflexivity.
  - apply sessionDuration_spec.
  - reflexivity.
Qed.

(** The secret key of the environment, with nothing configured: the
    standard client holds it; the STS service of the sample knows it,
    and the client that is returned for a block of [assume_role] holds
    the temporary credentials in the region of the environment. With a
    secret key that the configuration sets the request is refused. *)
Lemma provider_credentials_from_environment_witness :
  let P := sampleProviderEnv in
  let configured : gmap string string := {[ "secret_key" := "other-key" ]} in
  providerField ∅ (getenv P) "secret_key" = Some "sample-key"
  /\ providerConfigure P ∅ []
     = Ok (Some (mkTencentCloudClient
                   (mkCredential "sample-id" "sample-key" "")
                   "ap-guangzhou" "HTTPS" ""), None)
  /\ providerConfigure P ∅ [sampleAssumeRole]
     = Ok (Some (mkTencentCloudClient
                   (mkCredential "tmp-id" "tmp-key" "tmp-token")
                   "ap-guangzhou" "HTTPS" ""), None)
  /\ assumeRoleRequest P sampleAssumeRole 3600
     = mkAssumeRoleRequest
         (Some "qcs::cam::uin/100000000001:roleName/terraform")
         (Some "terraform") (Some 3600) None
  /\ sessionDuration P 0 = inl 3600
  /\ providerString P configured "secret_key" = "other-key"
  /\ providerConfigure P configured [sampleAssumeRole]
     = Ok (None, Some (SDKError "AuthFailure" "unknown secret key" "req-7")).
Proof.
  intros P configured.
  destruct (provider_credentials_from_environment P ∅
              "secret_key" "TENCENTCLOUD_SECRET_KEY")
    as (_ & _ & Hunset & Hclient & Hstandard & Hassume & Hduration & Hrequest).
  { cbn. right. left. reflexivity. }
  destruct (provider_credentials_from_environment P configured
              "secret_key" "TENCENTCLOUD_SECRET_KEY")
    as (_ & Hset & _ & _ & _ & Hrefused & _).
  { cbn. right. left. reflexivity. }
  destruct Hunset as (Henv & _ & _); [reflexivity|].
  destruct (Hduration 0) as (_ & _ & Hparsed & _).
  split; [apply Henv; vm_compute; discriminate|].
  split; [rewrite (Hstandard []) by (cbn; lia); vm_compute; reflexivity|].
  split; [rewrite (Hassume sampleAssumeRole); vm_compute; reflexivity|].
  split; [rewrite Hrequest; vm_compute; reflexivity|].
  split; [rewrite (Hparsed 3600); try reflexivity; vm_compute; discriminate|].
  split; [apply (Hset "other-key"); reflexivity|].
  rewrite (Hrefused sampleAssumeRole). vm_compute. reflexivity.
Defined.

(** ** The id of a route table entry *)

Section RouteEntryId.

Variable E : Env.

Lemma Split_lacks (sep : ascii) (s : string) :
  lacks sep s = true -> Split s sep = [s].
Proof.
  induction s as [|a r IH]; cbn [Split lacks]; [reflexivity|].
  intros Hfree. apply andb_prop in Hfree as [Ha Hr].
  apply negb_true_iff in Ha. rewrite Ha, (IH Hr). reflexivity.
Qed.

Lemma Split_append (sep : ascii) (s1 s2 : string) :
  lacks sep s1 = true ->
  Split (s1 +:+ String sep s2) sep = s1 :: Split s2 sep.
Proof.
  induction s1 as [|a r IH].
  - intros _. change ("" +:+ String sep s2) with (String sep s2).
    cbn [Split]. rewrite Ascii.eqb_refl. reflexivity.
  - change (String a r +:+ String sep s2)
      with (String a (r +:+ String sep s2)).
    cbn [Split lacks]. intros Hfree. apply andb_prop in Hfree as [Ha Hr].
    apply negb_true_iff in Ha. rewrite Ha, (IH Hr). reflexivity.
Qed.

Lemma lacks_string_of_uint (d : Decimal.uint) :
  lacks "." (NilEmpty.string_of_uint d) = true.
Proof. induction d; cbn; auto. Qed.

Lemma fmt_d_digits (n : Z) :
  0 <= n ->
  exists d, fmt_d n = NilEmpty.string_of_uint d
            /\ d <> Decimal.Nil
            /\ Z.of_N (N.of_uint d) = n.
Proof.
  intros Hn. destruct n as [|p|p]; [| |lia].
  - exists (Decimal.D0 Decimal.Nil). repeat split; discriminate.
  - exists (Pos.to_uint p). split; [|split].
    + unfold fmt_d. cbn.
      destruct (Pos.to_uint p) eqn:Hp; try reflexivity.
      exfalso. exact (DecimalPos.Unsigned.to_uint_nonnil p Hp).
    + apply DecimalPos.Unsigned.to_uint_nonnil.
    + unfold N.of_uint. rewrite DecimalPos.Unsigned.of_to. reflexivity.
Qed.

Lemma fmt_d_lacks (n : Z) : 0 <= n -> lacks "." (fmt_d n) = true.
Proof.
  intros Hn. destruct (fmt_d_digits n Hn) as (d & Hd & _ & _).
  rewrite Hd. apply lacks_string_of_uint.
Qed.

Lemma ParseUint_fmt_d (n : Z) :
  0 <= n < 2 ^ 64 -> ParseUint (fmt_d n) = Some n.
Proof.
  intros [Hn Hmax]. destruct (fmt_d_digits n Hn) as (d & Hd & Hnil & Hval).
  rewrite Hd. unfold ParseUint.
  rewrite NilEmpty.usu, Hval.
  apply Z.ltb_lt in Hmax. rewrite Hmax.
  destruct d; try reflexivity. contradiction.
Qed.

Lemma routeEntryResourceId_split (entryId : Z) (routeTableId : string) :
  0 <= entryId ->
  lacks "." routeTableId = true ->
  Split (routeEntryResourceId entryId routeTableId) "."
  = [fmt_d entryId; routeTableId].
Proof.
  intros Hn Hfree. unfold routeEntryResourceId.
  change ("." +:+ routeTableId) with (String "." routeTableId).
  rewrite Split_append by (apply fmt_d_lacks; exact Hn).
  rewrite Split_lacks by exact Hfree. reflexivity.
Qed.

(** [Read] and [Delete] on an id that splits in two. *)
Lemma route_read_run (st : State) (entry routeTable : string) :
  Split (d_Id (st_d st)) "." = [entry; routeTable] ->
  resourceTencentCloudVpcRouteEntryRead E st
  = (let* (_, err) :=
       Retry E (readRetryTimeout E)
         (routeEntryReadCallback E entry routeTable) tt in
     ret err) st.
Proof.
  intros Hsplit. unfold resourceTencentCloudVpcRouteEntryRead, Id, getD.
  unfold bind at 1 2. cbn. unfold ret at 1. cbn. rewrite Hsplit. reflexivity.
Qed.

Lemma route_delete_run (st : State) (entry routeTable : string) (entryId : Z) :
  Split (d_Id (st_d st)) "." = [entry; routeTable] ->
  ParseUint entry = Some entryId ->
  resourceTencentCloudVpcRouteEntryDelete E st
  = routeEntryDeleteRequest E routeTable entryId st.
Proof.
  intros Hsplit Hparse. unfold resourceTencentCloudVpcRouteEntryDelete, Id, getD.
  unfold bind at 1 2. cbn. unfold ret at 1. cbn. rewrite Hsplit, Hparse.
  reflexivity.
Qed.

(** [Read] and [Delete] on an id that does not split in two. *)
Lemma route_read_bad_id (st : State) :
  length (Split (d_Id (st_d st)) ".") <> 2%nat ->
  resourceTencentCloudVpcRouteEntryRead E st
  = (Ok (Some (LocalError
                 "entry id be destroyed, we can not get route table id")),
     st).
Proof.
  intros Hlen. unfold resourceTencentCloudVpcRouteEntryRead, Id, getD.
  unfold bind at 1 2. cbn. unfold ret at 1. cbn.
  destruct (Split (d_Id (st_d st)) ".") as [|a [|b [|c l]]];
    cbn in *; try reflexivity; congruence.
Qed.

Lemma route_delete_bad_id (st : State) :
  length (Split (d_Id (st_d st)) ".") <> 2%nat ->
  resourceTencentCloudVpcRouteEntryDelete E st
  = (Ok (Some (LocalError
                 "entry id be destroyed, we can not get route table id")),
     st).
Proof.
  intros Hlen. unfold resourceTencentCloudVpcRouteEntryDelete, Id, getD.
  unfold bind at 1 2. cbn. unfold ret at 1. cbn.
  destruct (Split (d_Id (st_d st)) ".") as [|a [|b [|c l]]];
    cbn in *; try reflexivity; congruence.
Qed.

(** The id that a successful [Create] leaves. *)
Lemma route_create_id (st : State) :
  fst (resourceTencentCloudVpcRouteEntryCreate E st) = Ok None ->
  exists entryId routeTableId,
    stringOf (attr (st_d st) "route_table_id") = Some routeTableId
    /\ routeTableId <> ""
    /\ d_Id (st_d (snd (resourceTencentCloudVpcRouteEntryCreate E st)))
       = routeEntryResourceId entryId routeTableId.
Proof.
  unfold resourceTencentCloudVpcRouteEntryCreate. run_data.
  destruct (stringOf (attr (st_d st) "description")) as [desc|];
    cbn; [|discriminate].
  destruct (stringOf (attr (st_d st) "route_table_id")) as [rt|];
    cbn; [|discriminate].
  destruct (stringOf (attr (st_d st) "destination_cidr_block")) as [cidr|];
    cbn; [|discriminate].
  destruct (stringOf (attr (st_d st) "next_type")) as [ty|];
    cbn; [|discriminate].
  destruct (stringOf (attr (st_d st) "next_hub")) as [hub|];
    cbn; [|discriminate].
  rewrite !nonzero_or_empty.
  destruct (String.eqb_spec rt "") as [Hrt|Hrt]; cbn; [discriminate|].
  destruct (_ || _ || _); cbn; [discriminate|].
  destruct (_ && _); cbn; [discriminate|].
  unfold api. cbn.
  destruct (remote E (st_trace st) _ _) as [entryId [e|]]; cbn;
    [discriminate|].
  intros _. exists entryId, rt. auto.
Qed.

(** [Create] with its fields set: the request is sent, an error is
    returned, and the entry id that comes back makes the id of the
    resource. *)
Lemma route_create_run st desc rt cidr ty hub :
  stringOf (attr (st_d st) "description") = Some desc ->
  stringOf (attr (st_d st) "route_table_id") = Some rt ->
  stringOf (attr (st_d st) "destination_cidr_block") = Some cidr ->
  stringOf (attr (st_d st) "next_type") = Some ty ->
  stringOf (attr (st_d st) "next_hub") = Some hub ->
  rt <> "" -> cidr <> "" -> ty <> "" -> hub <> "" ->
  (ty = GATE_WAY_TYPE_EIP E -> hub = "0") ->
  resourceTencentCloudVpcRouteEntryCreate E st
  = match remote E (st_trace st) _ (VpcCreateRoutes rt cidr ty hub desc) with
    | (entryId, None) =>
        (Ok None,
         withId (routeEntryResourceId entryId rt)
           (sent (VpcCreateRoutes rt cidr ty hub desc) st))
    | (_, Some e) =>
        (Ok (Some e), sent (VpcCreateRoutes rt cidr ty hub desc) st)
    end.
Proof.
  intros Hd Hr Hc Ht Hh Hrt Hcidr Hty Hhub Heip.
  unfold resourceTencentCloudVpcRouteEntryCreate.
  run_data.
  repeat (rewrite ?Hd, ?Hr, ?Hc, ?Ht, ?Hh; run_data).
  rewrite !nonzero_or_empty.
  destruct (String.eqb_spec rt "") as [|_]; [contradiction|].
  destruct (String.eqb_spec cidr "") as [|_]; [contradiction|].
  destruct (String.eqb_spec ty "") as [|_]; [contradiction|].
  destruct (String.eqb_spec hub "") as [|_]; [contradiction|].
  cbn.
  assert (Hguard : String.eqb ty (GATE_WAY_TYPE_EIP E)
                   && negb (String.eqb hub "0") = false).
  { destruct (String.eqb_spec ty (GATE_WAY_TYPE_EIP E)) as [Heq|]; [|reflexivity].
    rewrite (Heip Heq). reflexivity. }
  rewrite Hguard. unfold api. cbn.
  destruct (remote E (st_trace st) _ _) as [entryId [e|]]; reflexivity.
Qed.

End RouteEntryId.

(** Claim C9. [Create] sends the request for the route and makes the
    id of the resource from the entry id that comes back and the id of
    the route table, as "<entryId>.<routeTableId>". For an entry id
    within uint64 and a route table id without a dot that id splits at
    the dots into exactly two parts, of which the first parses back to
    the entry id and the second is the route table id, so that on the
    state that [Create] leaves [Read] goes on to describe that route
    table and [Delete] to delete that entry of it. On an id that does
    not split into exactly two parts [Read] and [Delete] return an
    error and send nothing. *)
Theorem route_entry_id_round_trip (E : Env) :
  (forall st desc rt cidr ty hub,
     stringOf (attr (st_d st) "description") = Some desc ->
     stringOf (attr (st_d st) "route_table_id") = Some rt ->
     stringOf (attr (st_d st) "destination_cidr_block") = Some cidr ->
     stringOf (attr (st_d st) "next_type") = Some ty ->
     stringOf (attr (st_d st) "next_hub") = Some hub ->
     rt <> "" -> cidr <> "" -> ty <> "" -> hub <> "" ->
     (ty = GATE_WAY_TYPE_EIP E -> hub = "0") ->
     resourceTencentCloudVpcRouteEntryCreate E st
     = match remote E (st_trace st) _ (VpcCreateRoutes rt cidr ty hub desc) with
       | (entryId, None) =>
           (Ok None,
            withId (routeEntryResourceId entryId rt)
              (sent (VpcCreateRoutes rt cidr ty hub desc) st))
       | (_, Some e) =>
           (Ok (Some e), sent (VpcCreateRoutes rt cidr ty hub desc) st)
       end)
  /\ (forall entryId routeTableId,
        routeEntryResourceId entryId routeTableId
        = fmt_d entryId +:+ "." +:+ routeTableId)
  /\ (forall entryId routeTableId,
        0 <= entryId < 2 ^ 64 ->
        lacks "." routeTableId = true ->
        Split (routeEntryResourceId entryId routeTableId) "."
        = [fmt_d entryId; routeTableId]
        /\ ParseUint (fmt_d entryId) = Some entryId)
  /\ (forall st desc rt cidr ty hub entryId,
        stringOf (attr (st_d st) "description") = Some desc ->
        stringOf (attr (st_d st) "route_table_id") = Some rt ->
        stringOf (attr (st_d st) "destination_cidr_block") = Some cidr ->
        stringOf (attr (st_d st) "next_type") = Some ty ->
        stringOf (attr (st_d st) "next_hub") = Some hub ->
        rt <> "" -> cidr <> "" -> ty <> "" -> hub <> "" ->
        (ty = GATE_WAY_TYPE_EIP E -> hub = "0") ->
        remote E (st_trace st) _ (VpcCreateRoutes rt cidr ty hub desc)
        = (entryId, None) ->
        0 <= entryId < 2 ^ 64 ->
        lacks "." rt = true ->
        let created := snd (resourceTencentCloudVpcRouteEntryCreate E st) in
        fst (resourceTencentCloudVpcRouteEntryCreate E st) = Ok None
        /\ d_Id (st_d created) = routeEntryResourceId entryId rt
        /\ resourceTencentCloudVpcRouteEntryRead E created
           = pollError
               (Retry E (readRetryTimeout E)
                  (routeEntryReadCallback E (fmt_d entryId) rt) tt) created
        /\ resourceTencentCloudVpcRouteEntryDelete E created
           = routeEntryDeleteRequest E rt entryId created)
  /\ (forall bad,
        length (Split (d_Id (st_d bad)) ".") <> 2%nat ->
        resourceTencentCloudVpcRouteEntryRead E bad
        = (Ok (Some (LocalError
                       "entry id be destroyed, we can not get route table id")),
           bad)
        /\ resourceTencentCloudVpcRouteEntryDelete E bad
           = (Ok (Some (LocalError
                          "entry id be destroyed, we can not get route table id")),
              bad)).
Proof.
  split; [apply route_create_run|].
  split; [reflexivity|].
  split.
  { intros entryId routeTableId Hrange Hfree. split.
    - apply routeEntryResourceId_split; [lia|exact Hfree].
    - apply ParseUint_fmt_d. exact Hrange. }
  split.
  { intros st desc rt cidr ty hub entryId Hd Hr Hc Ht Hh Hrt Hcidr Hty Hhub
      Heip Hremote Hrange Hfree.
    rewrite (route_create_run E st desc rt cidr ty hub Hd Hr Hc Ht Hh Hrt
               Hcidr Hty Hhub Heip), Hremote.
    cbn [fst snd].
    assert (Hsplit : Split (routeEntryResourceId entryId rt) "."
                     = [fmt_d entryId; rt])
      by (apply routeEntryResourceId_split; [lia|exact Hfree]).
    split; [reflexivity|]. split; [reflexivity|]. split.
    - rewrite (route_read_run E _ (fmt_d entryId) rt) by exact Hsplit.
      apply pollError_run.
    - apply (route_delete_run E _ (fmt_d entryId)); [exact Hsplit|].
      apply ParseUint_fmt_d. exact Hrange. }
  intros bad Hbad. split.
  - apply route_read_bad_id. exact Hbad.
  - apply route_delete_bad_id. exact Hbad.
Qed.

(** A route that [Create] makes with the entry id 1 in the table
    rtb-6xwg3sfy: the id is "1.rtb-6xwg3sfy", and [Delete] on the state
    that [Create] leaves asks for the deletion of the entry 1 of that
    table. An id with two dots is refused. *)
Lemma route_entry_id_round_trip_witness :
  let E := sampleEnv quietRemote 0 in
  let create := VpcCreateRoutes "rtb-6xwg3sfy" "10.4.4.0/24" "CVM" "10.16.1.7"
                  "ci-test-route-table-entry" in
  let created := snd (resourceTencentCloudVpcRouteEntryCreate E
                        (start routeToCreate)) in
  let bad := start (resourceData "7.rtb.6xwg3sfy" [] []) in
  resourceTencentCloudVpcRouteEntryCreate E (start routeToCreate)
  = (Ok None, withId "1.rtb-6xwg3sfy" (sent create (start routeToCreate)))
  /\ resourceTencentCloudVpcRouteEntryDelete E created
     = (Ok None, sent (VpcDeleteRoutes "rtb-6xwg3sfy" 1) created)
  /\ st_trace (snd (resourceTencentCloudVpcRouteEntryRead E created))
     = [ev create; ev (VpcDescribeRouteTable "rtb-6xwg3sfy")]
  /\ (Split "18446744073709551615.rtb-6xwg3sfy" "."
      = ["18446744073709551615"; "rtb-6xwg3sfy"]
      /\ ParseUint "18446744073709551615" = Some 18446744073709551615)
  /\ resourceTencentCloudVpcRouteEntryRead E bad
     = (Ok (Some (LocalError
                    "entry id be destroyed, we can not get route table id")),
        bad).
Proof.
  intros E create created bad.
  destruct (route_entry_id_round_trip E)
    as (Hcreate & _ & Hsplit & Hround & Hbad).
  assert (Hrun : resourceTencentCloudVpcRouteEntryCreate E (start routeToCreate)
                 = (Ok None,
                    withId "1.rtb-6xwg3sfy"
                      (sent create (start routeToCreate)))).
  { rewrite (Hcreate (start routeToCreate) "ci-test-route-table-entry"
               "rtb-6xwg3sfy" "10.4.4.0/24" "CVM" "10.16.1.7");
      try reflexivity; try discriminate. }
  destruct (Hround (start routeToCreate) "ci-test-route-table-entry"
              "rtb-6xwg3sfy" "10.4.4.0/24" "CVM" "10.16.1.7" 1)
    as (_ & _ & Hread & Hdelete);
    try reflexivity; try discriminate; try lia.
  split; [exact Hrun|]. split; [|split; [|split]].
  - unfold created. rewrite Hdelete. vm_compute. reflexivity.
  - unfold created. rewrite Hread. vm_compute. reflexivity.
  - apply (Hsplit 18446744073709551615 "rtb-6xwg3sfy"); [lia|reflexivity].
  - apply Hbad. vm_compute. discriminate.
Defined.

(** ** The normal form of a public key *)

Section SplitFields.

Variable sep : ascii.

Lemma Split_length (s : string) :
  length (Split s sep) = S (countByte sep s).
Proof.
  unfold countByte. induction s as [|a r IH]; [reflexivity|].
  cbn [Split list_ascii_of_string List.filter].
  destruct (Ascii.eqb a sep); cbn [length]; [congruence|].
  destruct (Split r sep); cbn [length] in *; [discriminate|exact IH].
Qed.

Lemma Split_fields (s : string) :
  Forall (fun x => lacks sep x = true) (Split s sep).
Proof.
  induction s as [|a r IH]; cbn [Split].
  - repeat constructor.
  - destruct (Ascii.eqb a sep) eqn:Ha.
    + constructor; [reflexivity|exact IH].
    + destruct (Split r sep) as [|h t].
      * repeat constructor. cbn. rewrite Ha. reflexivity.
      * inversion IH as [|x l Hh Ht]; subst. constructor; [|exact Ht].
        cbn. rewrite Ha, Hh. reflexivity.
Qed.

Lemma countByte_lacks (s : string) : lacks sep s = true -> countByte sep s = 0%nat.
Proof.
  unfold countByte. induction s as [|a r IH]; [reflexivity|].
  cbn [lacks list_ascii_of_string List.filter]. intros Hfree.
  apply andb_prop in Hfree as [Ha Hr]. apply negb_true_iff in Ha.
  rewrite Ha. exact (IH Hr).
Qed.

Lemma countByte_append (s1 s2 : string) :
  countByte sep (s1 +:+ s2) = (countByte sep s1 + countByte sep s2)%nat.
Proof.
  unfold countByte. induction s1 as [|a r IH]; [reflexivity|].
  change (String a r +:+ s2) with (String a (r +:+ s2)).
  cbn [list_ascii_of_string List.filter].
  destruct (Ascii.eqb a sep); cbn [length]; rewrite IH; reflexivity.
Qed.

Lemma countByte_sep : countByte sep (String sep EmptyString) = 1%nat.
Proof.
  unfold countByte. cbn [list_ascii_of_string List.filter].
  rewrite Ascii.eqb_refl. reflexivity.
Qed.

End SplitFields.

Section TrimHead.

Variable p1 : ascii -> bool.
Variable p2 : ascii -> ascii -> bool.
Variable p3 : ascii -> ascii -> ascii -> bool.

Lemma stuck_trimHead (l : list ascii) :
  stuck p1 p2 p3 l = true -> trimHead p1 p2 p3 l = l.
Proof.
  destruct l as [|a [|b [|c r]]]; cbn; try reflexivity.
  - destruct (p1 a); [discriminate|reflexivity].
  - destruct (p1 a); [discriminate|]. destruct (p2 a b); [discriminate|].
    reflexivity.
  - destruct (p1 a); [discriminate|]. destruct (p2 a b); [discriminate|].
    destruct (p3 a b c); [discriminate|]. reflexivity.
Qed.

Lemma stuck_prefix (q r : list ascii) :
  stuck p1 p2 p3 (q ++ r) = true -> stuck p1 p2 p3 q = true.
Proof.
  destruct q as [|a [|b [|c q]]]; cbn; try reflexivity.
  - intros H. apply andb_prop in H as [Ha _]. rewrite Ha. reflexivity.
  - intros H. apply andb_prop in H as [Ha H]. rewrite Ha.
    destruct r as [|c r]; cbn in *; [exact H|].
    apply andb_prop in H as [Hb _]. rewrite Hb. reflexivity.
  - auto.
Qed.

(** What [trimHead] leaves is a tail of the sequence, with no white
    space at its head. *)
Lemma trimHead_spec (n : nat) (l : list ascii) :
  (length l <= n)%nat ->
  (exists p, l = p ++ trimHead p1 p2 p3 l)
  /\ stuck p1 p2 p3 (trimHead p1 p2 p3 l) = true.
Proof.
  revert l. induction n as [|n IH]; intros l Hlen.
  - destruct l; [|cbn in Hlen; lia]. split; [exists []|]; reflexivity.
  - destruct l as [|a r]; [split; [exists []|]; reflexivity|].
    cbn [length] in Hlen. cbn [trimHead].
    destruct (p1 a) eqn:Ha.
    { destruct (IH r ltac:(lia)) as [[p Hp] Hs].
      split; [|exact Hs]. exists (a :: p). cbn. congruence. }
    destruct r as [|b r2].
    { split; [exists []; reflexivity|]. cbn. rewrite Ha. reflexivity. }
    cbn [length] in Hlen.
    destruct (p2 a b) eqn:Hb.
    { destruct (IH r2 ltac:(lia)) as [[p Hp] Hs].
      split; [|exact Hs]. exists (a :: b :: p). cbn. congruence. }
    destruct r2 as [|c r3].
    { split; [exists []; reflexivity|]. cbn. rewrite Ha, Hb. reflexivity. }
    cbn [length] in Hlen.
    destruct (p3 a b c) eqn:Hc.
    { destruct (IH r3 ltac:(lia)) as [[p Hp] Hs].
      split; [|exact Hs]. exists (a :: b :: c :: p). cbn. congruence. }
    split; [exists []; reflexivity|]. cbn. rewrite Ha, Hb, Hc. reflexivity.
Qed.

(** What [trimHead] drops is white space throughout. *)
Lemma trimHead_cut_upto (n : nat) (l : list ascii) :
  (length l <= n)%nat ->
  exists p, l = p ++ trimHead p1 p2 p3 l /\ blank p1 p2 p3 p = true.
Proof.
  revert l. induction n as [|n IH]; intros l Hlen.
  - destruct l; [|cbn in Hlen; lia]. exists []. split; reflexivity.
  - destruct l as [|a r]; [exists []; split; reflexivity|].
    cbn [length] in Hlen. cbn [trimHead].
    destruct (p1 a) eqn:Ha.
    { destruct (IH r ltac:(lia)) as (p & Hp & Hb).
      exists (a :: p). split; [cbn; congruence|].
      cbn [blank]. rewrite Ha, Hb. reflexivity. }
    destruct r as [|b r2]; [exists []; split; reflexivity|].
    cbn [length] in Hlen.
    destruct (p2 a b) eqn:Hb.
    { destruct (IH r2 ltac:(lia)) as (p & Hp & Hbl).
      exists (a :: b :: p). split; [cbn; congruence|].
      cbn [blank]. rewrite Ha, Hb, Hbl. reflexivity. }
    destruct r2 as [|c r3]; [exists []; split; reflexivity|].
    cbn [length] in Hlen.
    destruct (p3 a b c) eqn:Hc.
    { destruct (IH r3 ltac:(lia)) as (p & Hp & Hbl).
      exists (a :: b :: c :: p). split; [cbn; congruence|].
      cbn [blank]. rewrite Ha, Hb, Hc, Hbl. reflexivity. }
    exists []. split; reflexivity.
Qed.

Lemma trimHead_cut (l : list ascii) :
  exists p, l = p ++ trimHead p1 p2 p3 l /\ blank p1 p2 p3 p = true.
Proof. exact (trimHead_cut_upto (length l) l (Nat.le_refl _)). Qed.

Lemma trimHead_tail (l : list ascii) :
  exists p, l = p ++ trimHead p1 p2 p3 l.
Proof. exact (proj1 (trimHead_spec (length l) l (Nat.le_refl _))). Qed.

Lemma trimHead_stuck (l : list ascii) :
  stuck p1 p2 p3 (trimHead p1 p2 p3 l) = true.
Proof. exact (proj2 (trimHead_spec (length l) l (Nat.le_refl _))). Qed.

End TrimHead.

Section TrimSpaceFacts.

Lemma filter_length_rev (f : ascii -> bool) (l : list ascii) :
  length (List.filter f (rev l)) = length (List.filter f l).
Proof.
  induction l as [|a r IH]; [reflexivity|].
  cbn [rev]. rewrite List.filter_app, length_app, IH. cbn [List.filter].
  destruct (f a); cbn [length]; lia.
Qed.

Lemma filter_length_tail (f : ascii -> bool) (p q : list ascii) :
  (length (List.filter f q) <= length (List.filter f (p ++ q)))%nat.
Proof. rewrite List.filter_app, length_app. lia. Qed.

Lemma trimLeftBytes_filter (f : ascii -> bool) (l : list ascii) :
  (length (List.filter f (trimLeftBytes l)) <= length (List.filter f l))%nat.
Proof.
  unfold trimLeftBytes.
  destruct (trimHead_tail isSpace1 isSpace2 isSpace3 l) as [p Hp].
  rewrite Hp at 2. apply filter_length_tail.
Qed.

Lemma trimRightBytes_filter (f : ascii -> bool) (l : list ascii) :
  (length (List.filter f (trimRightBytes l)) <= length (List.filter f l))%nat.
Proof.
  unfold trimRightBytes. rewrite filter_length_rev.
  rewrite <- (filter_length_rev f l).
  destruct (trimHead_tail isSpace1 (fun a b => isSpace2 b a)
              (fun a b c => isSpace3 c b a) (rev l)) as [p Hp].
  rewrite Hp at 2. apply filter_length_tail.
Qed.

Lemma TrimSpace_countByte (sep : ascii) (s : string) :
  (countByte sep (TrimSpace s) <= countByte sep s)%nat.
Proof.
  unfold countByte, TrimSpace. rewrite list_ascii_of_string_of_list_ascii.
  etransitivity; [apply trimRightBytes_filter|apply trimLeftBytes_filter].
Qed.

(** Trimming both ends of a trimmed sequence changes nothing. *)
Lemma trimBytes_idempotent (l : list ascii) :
  let t := trimRightBytes (trimLeftBytes l) in
  trimRightBytes (trimLeftBytes t) = t.
Proof.
  intros t.
  assert (Hleft : trimLeftBytes t = t).
  { apply stuck_trimHead.
    destruct (trimHead_tail isSpace1 (fun a b => isSpace2 b a)
                (fun a b c => isSpace3 c b a) (rev (trimLeftBytes l)))
      as [p Hp].
    apply (stuck_prefix _ _ _ t (rev p)).
    unfold t, trimRightBytes. rewrite <- List.rev_app_distr, <- Hp, List.rev_involutive.
    apply trimHead_stuck. }
  rewrite Hleft. unfold t, trimRightBytes. rewrite List.rev_involutive.
  rewrite stuck_trimHead by apply trimHead_stuck. reflexivity.
Qed.

(** The trimmed sequence has no white space at its head nor at its
    end. *)
Lemma trimBytes_clear (l : list ascii) :
  let t := trimRightBytes (trimLeftBytes l) in
  stuck isSpace1 isSpace2 isSpace3 t = true
  /\ stuck isSpace1 (fun a b => isSpace2 b a) (fun a b c => isSpace3 c b a)
       (rev t) = true.
Proof.
  intros t. split.
  - destruct (trimHead_tail isSpace1 (fun a b => isSpace2 b a)
                (fun a b c => isSpace3 c b a) (rev (trimLeftBytes l)))
      as [p Hp].
    apply (stuck_prefix _ _ _ t (rev p)).
    unfold t, trimRightBytes.
    rewrite <- List.rev_app_distr, <- Hp, List.rev_involutive.
    apply trimHead_stuck.
  - unfold t, trimRightBytes. rewrite List.rev_involutive.
    apply trimHead_stuck.
Qed.

(** Trimming drops white space only: the sequence is the trimmed one
    with white space before it and after it. *)
Lemma trimBytes_cut (l : list ascii) :
  exists pre post,
    l = pre ++ trimRightBytes (trimLeftBytes l) ++ post
    /\ blank isSpace1 isSpace2 isSpace3 pre = true
    /\ blank isSpace1 (fun a b => isSpace2 b a) (fun a b c => isSpace3 c b a)
         (rev post) = true.
Proof.
  destruct (trimHead_cut isSpace1 isSpace2 isSpace3 l) as (pre & Hpre & Hb1).
  destruct (trimHead_cut isSpace1 (fun a b => isSpace2 b a)
              (fun a b c => isSpace3 c b a) (rev (trimLeftBytes l)))
    as (q & Hq & Hb2).
  exists pre, (rev q). split; [|split].
  - unfold trimRightBytes. rewrite <- List.rev_app_distr, <- Hq.
    rewrite List.rev_involutive. exact Hpre.
  - exact Hb1.
  - rewrite List.rev_involutive. exact Hb2.
Qed.

(** A sequence with no white space at either end is left as it is. *)
Lemma trimBytes_clear_id (l : list ascii) :
  stuck isSpace1 isSpace2 isSpace3 l = true ->
  stuck isSpace1 (fun a b => isSpace2 b a) (fun a b c => isSpace3 c b a)
    (rev l) = true ->
  trimRightBytes (trimLeftBytes l) = l.
Proof.
  intros Hhead Hend. unfold trimLeftBytes, trimRightBytes.
  rewrite (stuck_trimHead _ _ _ l Hhead).
  rewrite (stuck_trimHead _ _ _ (rev l) Hend).
  apply List.rev_involutive.
Qed.

Lemma TrimSpace_trimmed (s : string) : trimmed (TrimSpace s).
Proof.
  unfold trimmed, TrimSpace. rewrite list_ascii_of_string_of_list_ascii.
  apply trimBytes_clear.
Qed.

Lemma TrimSpace_surrounds (s : string) : surrounds s (TrimSpace s).
Proof.
  unfold surrounds, TrimSpace. rewrite list_ascii_of_string_of_list_ascii.
  apply trimBytes_cut.
Qed.

Lemma TrimSpace_of_trimmed (s : string) : trimmed s -> TrimSpace s = s.
Proof.
  intros [Hhead Hend]. unfold TrimSpace.
  rewrite (trimBytes_clear_id _ Hhead Hend).
  apply string_of_list_ascii_of_string.
Qed.

Lemma TrimSpace_idempotent (s : string) :
  TrimSpace (TrimSpace s) = TrimSpace s.
Proof.
  unfold TrimSpace. rewrite list_ascii_of_string_of_list_ascii.
  rewrite trimBytes_idempotent. reflexivity.
Qed.

End TrimSpaceFacts.

Section KeyPairPublicKey.

Lemma keyPairTruncate_spaces (s : string) :
  (countByte " " (keyPairTruncate s) <= 1)%nat.
Proof.
  unfold keyPairTruncate.
  pose proof (Split_length " " s) as Hlen.
  pose proof (Split_fields " " s) as Hfields.
  destruct (Nat.ltb_spec 2 (length (Split s " "))) as [Hmore|Hfew]; [|lia].
  destruct (Split s " ") as [|a [|b l]]; cbn [length] in Hmore; try lia.
  inversion Hfields as [|x1 l1 Ha Hrest]; subst.
  inversion Hrest as [|x2 l2 Hb _]; subst.
  change (Join (firstn 2 (a :: b :: l)) " ") with (a +:+ " " +:+ b).
  rewrite !countByte_append, countByte_sep.
  rewrite (countByte_lacks _ _ Ha), (countByte_lacks _ _ Hb). lia.
Qed.

Lemma keyPairTruncate_fields (s : string) :
  (length (Split (keyPairTruncate s) " ") <= 2)%nat.
Proof. rewrite Split_length. pose proof (keyPairTruncate_spaces s). lia. Qed.

Lemma keyPairTruncate_short (s : string) :
  (countByte " " s <= 1)%nat -> keyPairTruncate s = s.
Proof.
  intros Hs. unfold keyPairTruncate. rewrite Split_length.
  destruct (Nat.ltb_spec 2 (S (countByte " " s))); [lia|reflexivity].
Qed.

Lemma keyPairStateFunc_spaces (s : string) :
  (countByte " " (keyPairStateFunc (VString s)) <= 1)%nat.
Proof.
  cbn [keyPairStateFunc].
  etransitivity; [apply TrimSpace_countByte|apply keyPairTruncate_spaces].
Qed.

(** What [Read] stores for a key pair that the API returns. *)
Lemma key_pair_read_public_key (E : Env) (st : State) (keyPair : KeyPair)
  (publicKey : string) :
  remote E (st_trace st) _ (CvmDescribeKeyPairById (d_Id (st_d st)))
  = (Some keyPair, None) ->
  PublicKey keyPair = Some publicKey ->
  exists st',
    resourceTencentCloudKeyPairRead E st = (Ok None, st')
    /\ d_set (st_d st') !! "public_key"
       = Some (VString (keyPairTruncate publicKey)).
Proof.
  intros Hr Hkey. unfold resourceTencentCloudKeyPairRead, Retry.
  unfold bind at 1. unfold Id, getD, bind at 1, ret. cbn beta iota.
  unfold bind at 1. rewrite retryLoop_step.
  unfold keyPairDescribe at 1, api at 1, bind at 1. cbn. rewrite Hr.
  cbn. rewrite Hkey. run_data. eexists. split; [reflexivity|].
  cbn. apply lookup_insert_eq.
Qed.

End KeyPairPublicKey.

(** Claim C10. The [StateFunc] of [public_key] keeps the first two of
    the fields that single spaces separate and trims the white space
    around the result: its value has no white space at its head nor at
    its end, and the truncated key is that value with white space, and
    nothing else, around it. [Read] stores the key that the API returns
    after the same truncation to two fields, without the trimming: the
    [StateFunc] value of a key is the trimmed form of what [Read] stores
    for it, both are equal when the truncated key has no white space at
    its ends, and normalising what [Read] stores gives the normal form
    of the key itself. The normal form is a fixed point: normalising it
    again, or truncating it again, returns it unchanged. Neither stored
    form has more than two fields, so none has a comment field after
    the key. *)
Theorem key_pair_public_key_normal_form
  (E : Env) (v : value) (s : string) :
  keyPairStateFunc (VString s) = TrimSpace (keyPairTruncate s)
  /\ ((length (Split s " ") <= 2)%nat -> keyPairTruncate s = s)
  /\ (forall a b c l,
        Split s " " = a :: b :: c :: l ->
        keyPairTruncate s = a +:+ " " +:+ b)
  /\ trimmed (keyPairStateFunc v)
  /\ surrounds (keyPairTruncate s) (keyPairStateFunc (VString s))
  /\ keyPairStateFunc (VString (keyPairStateFunc v)) = keyPairStateFunc v
  /\ keyPairTruncate (keyPairStateFunc v) = keyPairStateFunc v
  /\ keyPairTruncate (keyPairTruncate s) = keyPairTruncate s
  /\ (length (Split (keyPairStateFunc v) " ") <= 2)%nat
  /\ (length (Split (keyPairTruncate s) " ") <= 2)%nat
  /\ keyPairStateFunc (VString (keyPairTruncate s))
     = keyPairStateFunc (VString s)
  /\ (trimmed (keyPairTruncate s) ->
      keyPairStateFunc (VString s) = keyPairTruncate s)
  /\ (forall st keyPair,
        remote E (st_trace st) _ (CvmDescribeKeyPairById (d_Id (st_d st)))
        = (Some keyPair, None) ->
        PublicKey keyPair = Some s ->
        exists st',
          resourceTencentCloudKeyPairRead E st = (Ok None, st')
          /\ d_set (st_d st') !! "public_key"
             = Some (VString (keyPairTruncate s))).
Proof.
  assert (Hspaces : (countByte " " (keyPairStateFunc v) <= 1)%nat).
  { destruct v; try (vm_compute; lia). apply keyPairStateFunc_spaces. }
  assert (Htrim : TrimSpace (keyPairStateFunc v) = keyPairStateFunc v).
  { destruct v; try reflexivity. apply TrimSpace_idempotent. }
  assert (Htwice : keyPairTruncate (keyPairTruncate s) = keyPairTruncate s).
  { apply keyPairTruncate_short. apply keyPairTruncate_spaces. }
  split; [reflexivity|]. split; [|split; [|split; [|split; [|split]]]].
  - intros Hlen. unfold keyPairTruncate.
    destruct (Nat.ltb_spec 2 (length (Split s " "))); [lia|reflexivity].
  - intros a b c l Hsplit. unfold keyPairTruncate. rewrite Hsplit.
    reflexivity.
  - destruct v; try (split; reflexivity). apply TrimSpace_trimmed.
  - apply TrimSpace_surrounds.
  - cbn [keyPairStateFunc].
    rewrite (keyPairTruncate_short _ Hspaces). exact Htrim.
  - split; [apply keyPairTruncate_short; exact Hspaces|].
    split; [exact Htwice|].
    split; [rewrite Split_length; lia|].
    split; [apply keyPairTruncate_fields|].
    split; [cbn [keyPairStateFunc]; rewrite Htwice; reflexivity|].
    split; [intros Hclear; apply TrimSpace_of_trimmed; exact Hclear|].
    intros st keyPair Hremote Hkey.
    exact (key_pair_read_public_key E st keyPair s Hremote Hkey).
Qed.

(** A key with white space before it, a comment after it and a line
    feed at its end: the [StateFunc] gives the first two fields without
    the white space, and [Read] stores the key of the API without its
    comment. *)
Lemma key_pair_public_key_normal_form_witness :
  let E := sampleEnv keyPairRemote 0 in
  let lf := String (ascii_of_nat 10) EmptyString in
  let s := " ssh-rsa AAAAB3NzaC1yc2EAAAADAQAB user@example.com" in
  let t := "ssh-rsa AAAAB3NzaC1yc2E user@example.com" in
  keyPairTruncate s = " ssh-rsa"
  /\ keyPairStateFunc (VString s) = "ssh-rsa"
  /\ keyPairStateFunc (VString "ssh-rsa") = "ssh-rsa"
  /\ keyPairTruncate "ssh-rsa AAAAB3NzaC1yc2EAAAADAQAB"
     = "ssh-rsa AAAAB3NzaC1yc2EAAAADAQAB"
  /\ keyPairStateFunc (VString t) = "ssh-rsa AAAAB3NzaC1yc2E"
  /\ keyPairStateFunc (VString ("ssh-rsa AAAAB3NzaC1yc2E" +:+ lf))
     = "ssh-rsa AAAAB3NzaC1yc2E"
  /\ keyPairStateFunc (VString ("ssh-rsa AAAAB3NzaC1yc2E user" +:+ lf))
     = "ssh-rsa AAAAB3NzaC1yc2E"
  /\ keyPairTruncate ("ssh-rsa AAAAB3NzaC1yc2E" +:+ lf)
     = "ssh-rsa AAAAB3NzaC1yc2E" +:+ lf
  /\ (exists st',
        resourceTencentCloudKeyPairRead E (start keyPairData) = (Ok None, st')
        /\ d_set (st_d st') !! "public_key"
           = Some (VString "ssh-rsa AAAAB3NzaC1yc2E")).
Proof.
  intros E lf s t.
  destruct (key_pair_public_key_normal_form E (VString s) s)
    as (Hfunc & _ & Hlong & _ & _ & Hfixed & _).
  destruct (key_pair_public_key_normal_form E (VString s)
              "ssh-rsa AAAAB3NzaC1yc2EAAAADAQAB")
    as (_ & Hshort & _).
  destruct (key_pair_public_key_normal_form E (VString t) t)
    as (_ & _ & _ & _ & _ & _ & _ & _ & _ & _ & _ & Hclear & Hread).
  destruct (key_pair_public_key_normal_form E (VString t)
              ("ssh-rsa AAAAB3NzaC1yc2E" +:+ lf))
    as (_ & Hkept & _).
  split; [|split; [|split; [|split; [|split; [|split; [|split; [|split]]]]]]].
  - apply (Hlong "" "ssh-rsa" "AAAAB3NzaC1yc2EAAAADAQAB" ["user@example.com"]).
    reflexivity.
  - vm_compute. reflexivity.
  - change (keyPairStateFunc (VString (keyPairStateFunc (VString s)))
            = keyPairStateFunc (VString s)).
    exact Hfixed.
  - apply Hshort. vm_compute. lia.
  - rewrite Hclear; [vm_compute; reflexivity|].
    split; vm_compute; reflexivity.
  - vm_compute. reflexivity.
  - vm_compute. reflexivity.
  - apply Hkept. vm_compute. lia.
  - apply (Hread (start keyPairData) commentedKeyPair); reflexivity.
Defined.
